(** * Holiday planner: a shallow embedding of the Python sources

    The development follows the layout of the repository:

    - [Py]            the fragment of Python's object model the program relies on
                      (exceptions, JSON values as returned by [json.load],
                      [in], indexing, iteration, [int], [str]);
    - [Datetime]      [datetime.datetime], the proleptic Gregorian calendar and the
                      two format directives the program uses;
    - [HolidayLoader] [utils/holiday_loader.py];
    - [StorageManager] [utils/storage.py];
    - [CalendarWidget] [gui/calendar_widget.py];
    - [HolidayPlanner] [gui/holiday_planner.py];
    - [HolidayUpdater] [scripts/update_holidays.py].

    Strings are sequences of 8-bit characters; the decimal digits are
    ['0'..'9'].  Sets of datetimes are finite sets ([gset]), dictionaries coming
    from JSON are association lists in insertion order (the keys of a
    dictionary are distinct; a lookup reads the first binding of a key). *)

From Stdlib Require Import ZArith Lia Ascii.
From Stdlib Require SpecFloat.
From stdpp Require Import base tactics option list sorting gmap sets strings pretty.

Set Warnings "-register-all,-clear-no-such-hyp".
Local Open Scope Z_scope.

(** ** Python values and exceptions *)
Module Py.

Inductive exn : Type :=
  | KeyError | ValueError | TypeError | AttributeError | OSError | OverflowError.

#[global] Instance exn_eq_dec : EqDecision exn.
Proof. solve_decision. Defined.

(** The outcome of evaluating an expression: a value, or a raised exception. *)
Inductive result (A : Type) : Type :=
  | Ok (a : A)
  | Raise (e : exn).
Arguments Ok {A} a.
Arguments Raise {A} e.

#[global] Instance result_eq_dec {A} `{EqDecision A} : EqDecision (result A).
Proof. solve_decision. Defined.

#[global] Instance result_ret : MRet result := @Ok.
#[global] Instance result_bind : MBind result := λ A B f m,
  match m with Ok a => f a | Raise e => Raise e end.
#[global] Instance result_fmap : FMap result := λ A B f m,
  match m with Ok a => Ok (f a) | Raise e => Raise e end.

(** [try: body except (e1, e2, ...): handler] *)
Definition try_except {A} (body : result A) (caught : list exn)
    (handler : exn → result A) : result A :=
  match body with
  | Ok a => Ok a
  | Raise e => if bool_decide (e ∈ caught) then handler e else Raise e
  end.

(** [try: body except Exception: handler] *)
Definition try_except_Exception {A} (body : result A)
    (handler : exn → result A) : result A :=
  match body with
  | Ok a => Ok a
  | Raise e => handler e
  end.

(** A [for] loop whose body updates a loop state and may raise. *)
Fixpoint for_each {X S} (xs : list X) (body : X → S → result S) (s : S) : result S :=
  match xs with
  | [] => Ok s
  | x :: xs' => s' ← body x s; for_each xs' body s'
  end.

(** What [json.load] can return. *)
Inductive json : Type :=
  | JNull
  | JBool (b : bool)
  | JInt (z : Z)
  | JFloat (x : SpecFloat.spec_float)
  | JStr (s : string)
  | JList (items : list json)
  | JDict (entries : list (string * json)).

Definition is_str (key : string) (v : json) : bool :=
  match v with JStr s => bool_decide (s = key) | _ => false end.

Fixpoint prefix_of (p s : string) : bool :=
  match p, s with
  | EmptyString, _ => true
  | String a p', String b s' => bool_decide (a = b) && prefix_of p' s'
  | String _ _, EmptyString => false
  end.

(** [sub in s] for two strings. *)
Fixpoint substring_of (sub s : string) : bool :=
  prefix_of sub s ||
  match s with
  | EmptyString => false
  | String _ s' => substring_of sub s'
  end.

Definition dict_lookup (key : string) (entries : list (string * json)) : option json :=
  snd <$> List.find (λ kv, bool_decide (kv.1 = key)) entries.

(** [key in v] for a string [key]. *)
Definition contains (v : json) (key : string) : result bool :=
  match v with
  | JDict entries => Ok (bool_decide (is_Some (dict_lookup key entries)))
  | JList items => Ok (existsb (is_str key) items)
  | JStr s => Ok (substring_of key s)
  | _ => Raise TypeError
  end.

(** [v[key]] for a string [key]. *)
Definition getitem (v : json) (key : string) : result json :=
  match v with
  | JDict entries =>
      match dict_lookup key entries with
      | Some x => Ok x
      | None => Raise KeyError
      end
  | _ => Raise TypeError
  end.

(** [v.get(key, default)] *)
Definition get (v : json) (key : string) (dflt : json) : result json :=
  match v with
  | JDict entries => Ok (default dflt (dict_lookup key entries))
  | _ => Raise AttributeError
  end.

(** [v.keys()] *)
Definition keys (v : json) : result (list string) :=
  match v with
  | JDict entries => Ok (fst <$> entries)
  | _ => Raise AttributeError
  end.

Fixpoint chars (s : string) : list json :=
  match s with
  | EmptyString => []
  | String c s' => JStr (String c EmptyString) :: chars s'
  end.

(** The items a [for x in v] loop visits. *)
Definition iter (v : json) : result (list json) :=
  match v with
  | JList items => Ok items
  | JDict entries => Ok ((λ kv, JStr kv.1) <$> entries)
  | JStr s => Ok (chars s)
  | _ => Raise TypeError
  end.

(** [bool(v)]: the truth value of an object. *)
Definition truthy (v : json) : bool :=
  match v with
  | JNull => false
  | JBool b => b
  | JInt z => negb (bool_decide (z = 0))
  | JFloat (SpecFloat.S754_zero _) => false
  | JFloat _ => true
  | JStr s => negb (bool_decide (s = EmptyString))
  | JList items => negb (bool_decide (items = []))
  | JDict entries => negb (bool_decide (entries = []))
  end.

(** [str(n)] for an integer. *)
Definition str (n : Z) : string := pretty n.

Definition digit_value (c : ascii) : option Z :=
  let n := Z.of_nat (nat_of_ascii c) in
  if bool_decide (48 ≤ n ≤ 57) then Some (n - 48) else None.

(** Whitespace as [str.strip] and [int] see it (tab, line feed, vertical tab,
    form feed, carriage return, the four separators and space). *)
Definition is_space (c : ascii) : bool :=
  let n := Z.of_nat (nat_of_ascii c) in
  bool_decide (9 ≤ n ≤ 13) || bool_decide (28 ≤ n ≤ 32).

Fixpoint lstrip (s : string) : string :=
  match s with
  | String c s' => if is_space c then lstrip s' else s
  | EmptyString => EmptyString
  end.

Fixpoint rstrip (s : string) : string :=
  match s with
  | String c s' =>
      match rstrip s' with
      | EmptyString => if is_space c then EmptyString else String c EmptyString
      | r => String c r
      end
  | EmptyString => EmptyString
  end.

(** Decimal digits with single underscores between them. *)
Fixpoint int_digits (acc : Z) (after_digit : bool) (s : string) : option Z :=
  match s with
  | EmptyString => if after_digit then Some acc else None
  | String c s' =>
      if bool_decide (c = "_"%char) then
        if after_digit then int_digits acc false s' else None
      else
        match digit_value c with
        | Some d => int_digits (10 * acc + d) true s'
        | None => None
        end
  end.

(** [int(s)] for a string, base ten (the interpreter's limit on the number of
    digits is not modelled). *)
Definition int (s : string) : result Z :=
  let body :=
    match lstrip (rstrip s) with
    | String "-" r => Z.opp <$> int_digits 0 false r
    | String "+" r => int_digits 0 false r
    | r => int_digits 0 false r
    end in
  match body with
  | Some z => Ok z
  | None => Raise ValueError
  end.

End Py.

(** ** [datetime.datetime] *)
Module Datetime.
Import Py.

Record datetime : Type := mk {
  year : Z; month : Z; day : Z;
  hour : Z; minute : Z; second : Z; microsecond : Z
}.

#[global] Instance datetime_eq_dec : EqDecision datetime.
Proof. solve_decision. Defined.

#[global] Instance datetime_countable : Countable datetime :=
  inj_countable
    (λ d, [year d; month d; day d; hour d; minute d; second d; microsecond d])
    (λ l, match l with
          | [y; m; d; h; mi; s; us] => Some (mk y m d h mi s us)
          | _ => None
          end)
    (λ d, match d with mk _ _ _ _ _ _ _ => eq_refl end).

(** [d.date()]: the calendar date of a datetime. *)
Definition date (d : datetime) : Z * Z * Z := (year d, month d, day d).

(** The proleptic Gregorian calendar, as in the standard library. *)
Definition MINYEAR : Z := 1.
Definition MAXYEAR : Z := 9999.
Definition MAXORDINAL : Z := 3652059.

Definition is_leap (y : Z) : bool :=
  bool_decide (y `mod` 4 = 0) &&
  (negb (bool_decide (y `mod` 100 = 0)) || bool_decide (y `mod` 400 = 0)).

Definition DAYS_IN_MONTH (m : Z) : Z :=
  match m with
  | 1 => 31 | 2 => 28 | 3 => 31 | 4 => 30 | 5 => 31 | 6 => 30
  | 7 => 31 | 8 => 31 | 9 => 30 | 10 => 31 | 11 => 30 | 12 => 31
  | _ => -1
  end.

Definition DAYS_BEFORE_MONTH (m : Z) : Z :=
  match m with
  | 1 => 0 | 2 => 31 | 3 => 59 | 4 => 90 | 5 => 120 | 6 => 151
  | 7 => 181 | 8 => 212 | 9 => 243 | 10 => 273 | 11 => 304 | 12 => 334
  | _ => -1
  end.

Definition days_before_year (y : Z) : Z :=
  let y' := y - 1 in y' * 365 + y' `div` 4 - y' `div` 100 + y' `div` 400.

Definition days_in_month (y m : Z) : Z :=
  if bool_decide (m = 2) && is_leap y then 29 else DAYS_IN_MONTH m.

Definition days_before_month (y m : Z) : Z :=
  DAYS_BEFORE_MONTH m + (if bool_decide (2 < m) && is_leap y then 1 else 0).

Definition ymd2ord (y m d : Z) : Z :=
  days_before_year y + days_before_month y m + d.

Definition DI400Y : Z := 146097.
Definition DI100Y : Z := 36524.
Definition DI4Y : Z := 1461.

Definition ord2ymd (n : Z) : Z * Z * Z :=
  let n := n - 1 in
  let n400 := n `div` DI400Y in let n := n `mod` DI400Y in
  let y := n400 * 400 + 1 in
  let n100 := n `div` DI100Y in let n := n `mod` DI100Y in
  let n4 := n `div` DI4Y in let n := n `mod` DI4Y in
  let n1 := n `div` 365 in let n := n `mod` 365 in
  let y := y + n100 * 100 + n4 * 4 + n1 in
  if bool_decide (n1 = 4) || bool_decide (n100 = 4) then (y - 1, 12, 31)
  else
    let leapyear :=
      bool_decide (n1 = 3) && (negb (bool_decide (n4 = 24)) || bool_decide (n100 = 3)) in
    let m := Z.shiftr (n + 50) 5 in
    let preceding :=
      DAYS_BEFORE_MONTH m + (if bool_decide (2 < m) && leapyear then 1 else 0) in
    if bool_decide (n < preceding) then
      let m := m - 1 in
      let preceding :=
        preceding - (DAYS_IN_MONTH m + (if bool_decide (m = 2) && leapyear then 1 else 0)) in
      (y, m, n - preceding + 1)
    else (y, m, n - preceding + 1).

Definition valid_date (y m d : Z) : bool :=
  bool_decide (MINYEAR ≤ y ≤ MAXYEAR) && bool_decide (1 ≤ m ≤ 12) &&
  bool_decide (1 ≤ d ≤ days_in_month y m).

(** [datetime(y, m, d)]: midnight of the given day, [ValueError] when the
    fields are out of range. *)
Definition new (y m d : Z) : result datetime :=
  if valid_date y m d then Ok (mk y m d 0 0 0 0) else Raise ValueError.

Definition toordinal (d : datetime) : Z := ymd2ord (year d) (month d) (day d).

(** [d.weekday()]: Monday is 0, Sunday is 6. *)
Definition weekday (d : datetime) : Z := (toordinal d + 6) `mod` 7.

(** [d - timedelta(days=k)] *)
Definition sub_days (d : datetime) (k : Z) : result datetime :=
  let o := toordinal d - k in
  if bool_decide (0 < o ≤ MAXORDINAL) then
    let '(y, m, dd) := ord2ymd o in
    Ok (mk y m dd (hour d) (minute d) (second d) (microsecond d))
  else Raise OverflowError.

(** *** Formatting: [%Y-%m-%d] and [%Y-%m-%d %H:%M:%S]

    [%Y] is the year zero-padded to four digits, the other directives are
    zero-padded to two; the field values are those of a datetime, hence in
    range. *)
Definition digit_char (k : Z) : ascii := pretty_N_char (Z.to_N k).

Definition two_digits (n : Z) (rest : string) : string :=
  String (digit_char ((n `div` 10) `mod` 10)) (String (digit_char (n `mod` 10)) rest).

Definition four_digits (n : Z) (rest : string) : string :=
  String (digit_char ((n `div` 1000) `mod` 10))
    (String (digit_char ((n `div` 100) `mod` 10)) (two_digits n rest)).

(** [d.strftime("%Y-%m-%d")] *)
Definition strftime_ymd (d : datetime) : string :=
  four_digits (year d) (String "-" (two_digits (month d) (String "-" (two_digits (day d) "")))).

(** [d.strftime("%Y-%m-%d %H:%M:%S")] *)
Definition strftime_ymd_hms (d : datetime) : string :=
  four_digits (year d) (String "-" (two_digits (month d) (String "-" (two_digits (day d)
    (String " " (two_digits (hour d) (String ":" (two_digits (minute d)
      (String ":" (two_digits (second d) "")))))))))).

(** *** Parsing: [datetime.strptime(s, "%Y-%m-%d")]

    The library turns the format into the regular expression
    [(\d\d\d\d)-(1[0-2]|0[1-9]|[1-9])-(3[01]|[12]\d|0[1-9]|[1-9]| [1-9])],
    matches it at the start of the string, requires the match to cover the
    whole string, and builds the date.  A backtracking matcher is a list of
    successes, alternatives in the order of the expression. *)
Definition matcher (A : Type) : Type := string → list (A * string).

Definition digit_in (lo hi : Z) : matcher Z := λ s,
  match s with
  | String c r =>
      match digit_value c with
      | Some v => if bool_decide (lo ≤ v ≤ hi) then [(v, r)] else []
      | None => []
      end
  | EmptyString => []
  end.

Definition lit (c : ascii) : matcher unit := λ s,
  match s with
  | String c' r => if bool_decide (c' = c) then [((), r)] else []
  | EmptyString => []
  end.

(** Two digits in sequence, read as a number. *)
Definition digits2 (lo1 hi1 lo2 hi2 : Z) : matcher Z := λ s,
  '(a, r) ← digit_in lo1 hi1 s; '(b, r') ← digit_in lo2 hi2 r; [(10 * a + b, r')].

Definition re_Y : matcher Z := λ s,
  '(a, r1) ← digit_in 0 9 s; '(b, r2) ← digit_in 0 9 r1;
  '(c, r3) ← digit_in 0 9 r2; '(d, r4) ← digit_in 0 9 r3;
  [(1000 * a + 100 * b + 10 * c + d, r4)].

Definition re_m : matcher Z := λ s,
  digits2 1 1 0 2 s ++ digits2 0 0 1 9 s ++ digit_in 1 9 s.

Definition re_d : matcher Z := λ s,
  digits2 3 3 0 1 s ++ digits2 1 2 0 9 s ++ digits2 0 0 1 9 s ++ digit_in 1 9 s
  ++ ('(_, r) ← lit " " s; digit_in 1 9 r).

Definition re_ymd : matcher (Z * Z * Z) := λ s,
  '(y, r1) ← re_Y s; '(_, r2) ← lit "-" r1;
  '(m, r3) ← re_m r2; '(_, r4) ← lit "-" r3;
  '(d, r5) ← re_d r4; [((y, m, d), r5)].

Definition strptime_ymd (s : string) : result datetime :=
  match re_ymd s with
  | [] => Raise ValueError
  | ((y, m, d), EmptyString) :: _ => new y m d
  | (_, String _ _) :: _ => Raise ValueError
  end.

(** [datetime.strptime(v, "%Y-%m-%d")] on an arbitrary value: the argument
    must be a string. *)
Definition strptime (v : json) : result datetime :=
  match v with
  | JStr s => strptime_ymd s
  | _ => Raise TypeError
  end.

End Datetime.

(** ** [utils/holiday_loader.py] *)
Module HolidayLoader.
Import Py Datetime.

(** The configuration file as [_load_config] finds it: absent, not JSON, or
    a JSON document (a file that cannot be opened or decoded as text makes
    the constructor raise and is left out). *)
Inductive config_file : Type :=
  | Missing
  | Malformed
  | Parsed (v : json).

Record t : Type := mk { holidays_data : json }.

(** A missing file and a [JSONDecodeError] both give the empty dictionary. *)
Definition _load_config (f : config_file) : json :=
  match f with
  | Missing => JDict []
  | Malformed => JDict []
  | Parsed v => v
  end.

Definition init (f : config_file) : t := mk (_load_config f).

(** The body of the loop of [get_holidays_for_year], with its
    [try ... except (KeyError, ValueError)]. *)
Definition add_holiday (holiday : json) (holidays : gset datetime)
    : result (gset datetime) :=
  try_except
    (ds ← getitem holiday "date";
     date ← strptime ds;
     Ok ({[ date ]} ∪ holidays))
    [KeyError; ValueError]
    (λ _, Ok holidays).

Definition get_holidays_for_year (self : t) (year : Z) (region : string)
    : result (gset datetime) :=
  let holidays : gset datetime := ∅ in
  known ← contains (holidays_data self) region;
  if negb known then Ok holidays else
  by_year ← getitem (holidays_data self) region;
  let year_str := str year in
  known ← contains by_year year_str;
  if negb known then Ok holidays else
  by_year ← getitem (holidays_data self) region;
  entries ← getitem by_year year_str;
  items ← iter entries;
  for_each items add_holiday holidays.

(** The loop of [get_holiday_name]: [Some name] when the body returns,
    [None] when it falls through; the caught exceptions [continue]. *)
Fixpoint find_holiday_name (date : datetime) (items : list json) : result json :=
  match items with
  | [] => Ok JNull
  | holiday :: rest =>
      let body : result (option json) :=
        ds ← getitem holiday "date";
        holiday_date ← strptime ds;
        if bool_decide (Datetime.date holiday_date = Datetime.date date)
        then name ← getitem holiday "name"; Ok (Some name)
        else Ok None in
      match body with
      | Ok (Some name) => Ok name
      | Ok None => find_holiday_name date rest
      | Raise e =>
          if bool_decide (e ∈ [KeyError; ValueError])
          then find_holiday_name date rest
          else Raise e
      end
  end.

(** [None] is [JNull]. *)
Definition get_holiday_name (self : t) (date : datetime) (region : string)
    : result json :=
  let year_str := str (Datetime.year date) in
  known ← contains (holidays_data self) region;
  if negb known then Ok JNull else
  by_year ← getitem (holidays_data self) region;
  known ← contains by_year year_str;
  if negb known then Ok JNull else
  by_year ← getitem (holidays_data self) region;
  entries ← getitem by_year year_str;
  items ← iter entries;
  find_holiday_name date items.

Definition get_available_regions (self : t) : result (list string) :=
  keys (holidays_data self).

Definition get_available_years (self : t) (region : string) : result (list Z) :=
  known ← contains (holidays_data self) region;
  if negb known then Ok [] else
  by_year ← getitem (holidays_data self) region;
  ks ← keys by_year;
  mapM int ks.

End HolidayLoader.

(** ** [utils/storage.py] *)
Module StorageManager.
Import Py Datetime.

(** What reading the storage file gives: an error from [open] or the
    decoder, text that is not JSON, or a JSON document. *)
Inductive file_content : Type :=
  | Unreadable
  | Garbage
  | Document (v : json).

(** The storage file, and whether it can be opened for writing. *)
Record disk : Type := mk {
  storage_file : option file_content;
  writable : bool
}.

Definition dump_dates (holidays : gset datetime) : json :=
  JList ((λ d, JStr (strftime_ymd d)) <$> elements holidays).

(** [now] is the reading of the clock for the [last_updated] stamp. *)
Definition save_holidays (holidays1 holidays2 : gset datetime)
    (previous_year : Z) (region : string) (now : datetime) (fs : disk)
    : bool * disk :=
  let data := JDict [
    ("holidays1", dump_dates holidays1);
    ("holidays2", dump_dates holidays2);
    ("previous_year", JInt previous_year);
    ("region", JStr region);
    ("last_updated", JStr (strftime_ymd_hms now)) ] in
  if writable fs
  then (true, mk (Some (Document data)) (writable fs))
  else (false, fs).

Definition json_load (c : file_content) : result json :=
  match c with
  | Unreadable => Raise OSError
  | Garbage => Raise ValueError
  | Document v => Ok v
  end.

Definition defaults : gset datetime * gset datetime * json * json :=
  (∅, ∅, JInt 0, JNull).

Definition load_dates (data : json) (key : string) : result (gset datetime) :=
  stored ← get data key (JList []);
  items ← iter stored;
  dates ← mapM strptime items;
  Ok (list_to_set dates).

Definition load_holidays (fs : disk)
    : result (gset datetime * gset datetime * json * json) :=
  match storage_file fs with
  | None => Ok defaults
  | Some c =>
      try_except_Exception
        (data ← json_load c;
         holidays1 ← load_dates data "holidays1";
         holidays2 ← load_dates data "holidays2";
         previous_year ← get data "previous_year" (JInt 0);
         region ← get data "region" JNull;
         Ok (holidays1, holidays2, previous_year, region))
        (λ _, Ok defaults)
  end.

Definition clear_storage (fs : disk) : bool * disk :=
  match storage_file fs with
  | Some _ => if writable fs then (true, mk None (writable fs)) else (false, fs)
  | None => (true, fs)
  end.

End StorageManager.

(** ** [gui/calendar_widget.py] *)
Module CalendarWidget.
Import Py Datetime.

Inductive tk_state : Type := NORMAL | DISABLED.

#[global] Instance tk_state_eq_dec : EqDecision tk_state.
Proof. solve_decision. Defined.

(** A day button: the month frame it lives in, its options and its grid cell.
    [command] is the date the click handler passes on; a button created
    without a command has [None]. *)
Record Button : Type := mkButton {
  master : Z;
  text : string;
  state : tk_state;
  command : option datetime;
  bg : option string;
  grid_row : Z;
  grid_column : Z
}.

(** [holidays] is the planner's selection set itself (the same object); the
    widget reads it only while the calendar is being created.  [buttons] are
    the day buttons in creation order, each listed with the day it was
    created for; [day_buttons] maps a date to the position of its button. *)
Record t : Type := mk {
  year : Z;
  holidays : gset datetime;
  public_holidays : gset datetime;
  base_year : Z;
  day_buttons : gmap datetime nat;
  buttons : list (datetime * Button)
}.

(** [CalendarWidget(frame, year, holidays_set, public_holidays, cb, base_year)];
    [this_year] is [datetime.now().year]. *)
Definition init (year : Z) (holidays_set public_holidays : gset datetime)
    (base_year : option Z) (this_year : Z) : t :=
  mk year holidays_set public_holidays (default this_year base_year) ∅ [].

Definition add_button (date : datetime) (b : Button) (self : t) : t :=
  mk (year self) (holidays self) (public_holidays self) (base_year self)
     (day_buttons self) (buttons self ++ [(date, b)]).

Definition remember_button (date : datetime) (self : t) : t :=
  mk (year self) (holidays self) (public_holidays self) (base_year self)
     (<[ date := length (buttons self) ]> (day_buttons self)) (buttons self).

Definition selected_colour (self : t) : string :=
  if bool_decide (year self = base_year self) then "#307CAF" else "#6EC6FF".

(** One round of the loop over the days of a month; the loop carries the
    widget and the grid cell of the next button. *)
Definition create_day (month day : Z) (st : t * Z * Z) : result (t * Z * Z) :=
  let '(self, row, col) := st in
  date ← new (year self) month day;
  let is_weekend := bool_decide (weekday date ∈ [5; 6]) in
  let is_public_holiday := bool_decide (date ∈ public_holidays self) in
  let self :=
    if is_weekend || is_public_holiday then
      add_button date (mkButton month (str day) DISABLED None None row col) self
    else
      let colour :=
        if bool_decide (date ∈ holidays self) then Some (selected_colour self)
        else None in
      add_button date (mkButton month (str day) NORMAL (Some date) colour row col)
        (remember_button date self) in
  let col := col + 1 in
  if bool_decide (7 < col) then Ok (self, row + 1, 1) else Ok (self, row, col).

Definition _create_month (month grid_row grid_col width height : Z) (self : t)
    : result t :=
  first ← new (year self) month 1;
  days_in_month ←
    (if bool_decide (month = 12) then Ok 31
     else next ← new (year self) (month + 1) 1;
          last ← sub_days next 1;
          Ok (Datetime.day last));
  let first_day := weekday first in
  st ← for_each (seqZ 1 days_in_month) (create_day month) (self, 3, first_day + 1);
  Ok st.1.1.

Definition create_calendar (self : t) : result t :=
  let frame_width := 200 in
  let frame_height := 210 in
  for_each (seqZ 0 12)
    (λ m_idx self,
       let month := m_idx + 1 in
       let grid_row := m_idx `div` 4 + 3 in
       let grid_col := m_idx `mod` 4 in
       _create_month month grid_row grid_col frame_width frame_height self)
    self.

Definition config_bg (i : nat) (colour : string) (self : t) : t :=
  mk (year self) (holidays self) (public_holidays self) (base_year self)
     (day_buttons self)
     (alter (λ db, (db.1, mkButton (master db.2) (text db.2) (state db.2)
                             (command db.2) (Some colour)
                             (grid_row db.2) (grid_column db.2))) i (buttons self)).

Definition update_button_color (date : datetime) (is_selected : bool) (self : t) : t :=
  match day_buttons self !! date with
  | Some i =>
      if is_selected then config_bg i (selected_colour self) self
      else config_bg i "SystemButtonFace" self
  | None => self
  end.

Definition clear (self : t) : t :=
  mk (year self) (holidays self) (public_holidays self) (base_year self) ∅ (buttons self).

End CalendarWidget.

(** ** [gui/holiday_planner.py] *)
Module HolidayPlanner.
Import Py Datetime.

Definition MAX_HOLIDAYS : Z := 30.
Definition DEFAULT_REGION : string := "berlin".

(** The state of the planner object.  [year_var] and [region_var] hold the
    strings of the two Tk string variables, [previous_year_var] the object
    last stored in the Tk integer variable (the carryover entry is bound to
    it, so it can be any text), [initial_region] the object last assigned.
    [storage] is the file behind the storage manager.  The labels and the
    drop-down lists are the texts they show, [warning_label] the notice for
    a year without data, [calendar1] the calendar whose buttons are on
    display ([rebuild_tabs] destroys the tab that holds them before it builds
    the next one) and [dialogs] the warnings shown so far. *)
Record t : Type := mk {
  total_holidays : Z;
  initial_region : json;
  year_var : string;
  region_var : string;
  previous_year_var : json;
  holiday_loader : HolidayLoader.t;
  storage : StorageManager.disk;
  holidays1 : gset datetime;
  holidays2 : gset datetime;
  taken_holidays1 : Z;
  taken_holidays2 : Z;
  region_values : list string;
  year_values : list string;
  remaining_label1 : string;
  taken_label1 : string;
  warning_label : option string;
  calendar1 : option CalendarWidget.t;
  dialogs : list string
}.

Definition set_initial_region (v : json) (self : t) : t :=
  mk (total_holidays self) v (year_var self) (region_var self) (previous_year_var self) (holiday_loader self) (storage self) (holidays1 self) (holidays2 self) (taken_holidays1 self) (taken_holidays2 self) (region_values self) (year_values self) (remaining_label1 self) (taken_label1 self) (warning_label self) (calendar1 self) (dialogs self).
Definition set_year_var (v : string) (self : t) : t :=
  mk (total_holidays self) (initial_region self) v (region_var self) (previous_year_var self) (holiday_loader self) (storage self) (holidays1 self) (holidays2 self) (taken_holidays1 self) (taken_holidays2 self) (region_values self) (year_values self) (remaining_label1 self) (taken_label1 self) (warning_label self) (calendar1 self) (dialogs self).
Definition set_region_var (v : string) (self : t) : t :=
  mk (total_holidays self) (initial_region self) (year_var self) v (previous_year_var self) (holiday_loader self) (storage self) (holidays1 self) (holidays2 self) (taken_holidays1 self) (taken_holidays2 self) (region_values self) (year_values self) (remaining_label1 self) (taken_label1 self) (warning_label self) (calendar1 self) (dialogs self).
Definition set_previous_year_var (v : json) (self : t) : t :=
  mk (total_holidays self) (initial_region self) (year_var self) (region_var self) v (holiday_loader self) (storage self) (holidays1 self) (holidays2 self) (taken_holidays1 self) (taken_holidays2 self) (region_values self) (year_values self) (remaining_label1 self) (taken_label1 self) (warning_label self) (calendar1 self) (dialogs self).
Definition set_storage (v : StorageManager.disk) (self : t) : t :=
  mk (total_holidays self) (initial_region self) (year_var self) (region_var self) (previous_year_var self) (holiday_loader self) v (holidays1 self) (holidays2 self) (taken_holidays1 self) (taken_holidays2 self) (region_values self) (year_values self) (remaining_label1 self) (taken_label1 self) (warning_label self) (calendar1 self) (dialogs self).
Definition set_holidays1 (v : gset datetime) (self : t) : t :=
  mk (total_holidays self) (initial_region self) (year_var self) (region_var self) (previous_year_var self) (holiday_loader self) (storage self) v (holidays2 self) (taken_holidays1 self) (taken_holidays2 self) (region_values self) (year_values self) (remaining_label1 self) (taken_label1 self) (warning_label self) (calendar1 self) (dialogs self).
Definition set_holidays2 (v : gset datetime) (self : t) : t :=
  mk (total_holidays self) (initial_region self) (year_var self) (region_var self) (previous_year_var self) (holiday_loader self) (storage self) (holidays1 self) v (taken_holidays1 self) (taken_holidays2 self) (region_values self) (year_values self) (remaining_label1 self) (taken_label1 self) (warning_label self) (calendar1 self) (dialogs self).
Definition set_taken_holidays1 (v : Z) (self : t) : t :=
  mk (total_holidays self) (initial_region self) (year_var self) (region_var self) (previous_year_var self) (holiday_loader self) (storage self) (holidays1 self) (holidays2 self) v (taken_holidays2 self) (region_values self) (year_values self) (remaining_label1 self) (taken_label1 self) (warning_label self) (calendar1 self) (dialogs self).
Definition set_taken_holidays2 (v : Z) (self : t) : t :=
  mk (total_holidays self) (initial_region self) (year_var self) (region_var self) (previous_year_var self) (holiday_loader self) (storage self) (holidays1 self) (holidays2 self) (taken_holidays1 self) v (region_values self) (year_values self) (remaining_label1 self) (taken_label1 self) (warning_label self) (calendar1 self) (dialogs self).
Definition set_region_values (v : list string) (self : t) : t :=
  mk (total_holidays self) (initial_region self) (year_var self) (region_var self) (previous_year_var self) (holiday_loader self) (storage self) (holidays1 self) (holidays2 self) (taken_holidays1 self) (taken_holidays2 self) v (year_values self) (remaining_label1 self) (taken_label1 self) (warning_label self) (calendar1 self) (dialogs self).
Definition set_year_values (v : list string) (self : t) : t :=
  mk (total_holidays self) (initial_region self) (year_var self) (region_var self) (previous_year_var self) (holiday_loader self) (storage self) (holidays1 self) (holidays2 self) (taken_holidays1 self) (taken_holidays2 self) (region_values self) v (remaining_label1 self) (taken_label1 self) (warning_label self) (calendar1 self) (dialogs self).
Definition set_remaining_label1 (v : string) (self : t) : t :=
  mk (total_holidays self) (initial_region self) (year_var self) (region_var self) (previous_year_var self) (holiday_loader self) (storage self) (holidays1 self) (holidays2 self) (taken_holidays1 self) (taken_holidays2 self) (region_values self) (year_values self) v (taken_label1 self) (warning_label self) (calendar1 self) (dialogs self).
Definition set_taken_label1 (v : string) (self : t) : t :=
  mk (total_holidays self) (initial_region self) (year_var self) (region_var self) (previous_year_var self) (holiday_loader self) (storage self) (holidays1 self) (holidays2 self) (taken_holidays1 self) (taken_holidays2 self) (region_values self) (year_values self) (remaining_label1 self) v (warning_label self) (calendar1 self) (dialogs self).
Definition set_warning_label (v : option string) (self : t) : t :=
  mk (total_holidays self) (initial_region self) (year_var self) (region_var self) (previous_year_var self) (holiday_loader self) (storage self) (holidays1 self) (holidays2 self) (taken_holidays1 self) (taken_holidays2 self) (region_values self) (year_values self) (remaining_label1 self) (taken_label1 self) v (calendar1 self) (dialogs self).
Definition set_calendar1 (v : option CalendarWidget.t) (self : t) : t :=
  mk (total_holidays self) (initial_region self) (year_var self) (region_var self) (previous_year_var self) (holiday_loader self) (storage self) (holidays1 self) (holidays2 self) (taken_holidays1 self) (taken_holidays2 self) (region_values self) (year_values self) (remaining_label1 self) (taken_label1 self) (warning_label self) v (dialogs self).
Definition set_dialogs (v : list string) (self : t) : t :=
  mk (total_holidays self) (initial_region self) (year_var self) (region_var self) (previous_year_var self) (holiday_loader self) (storage self) (holidays1 self) (holidays2 self) (taken_holidays1 self) (taken_holidays2 self) (region_values self) (year_values self) (remaining_label1 self) (taken_label1 self) (warning_label self) (calendar1 self) v.

Section planner.

(** [CURRENT_YEAR] is read from the clock when the module is loaded.  What Tk
    makes of an object that is not an integer (for the integer variable) or
    not a string (for a string variable) is left open. *)
Variable CURRENT_YEAR : Z.
Variable tcl_getint : json → result Z.
Variable tcl_string : json → string.

(** [IntVar.get()] on a variable holding [v]. *)
Definition IntVar_get (v : json) : result Z :=
  match v with
  | JInt z => Ok z
  | _ => tcl_getint v
  end.

(** [StringVar.get()] after [StringVar.set(v)]. *)
Definition StringVar_set (v : json) : string :=
  match v with
  | JStr s => s
  | _ => tcl_string v
  end.

(** Methods update the object in place and may raise: the updates made
    before an exception stay. *)
Definition M (A : Type) : Type := t → result A * t.

Definition ret {A} (a : A) : M A := λ self, (Ok a, self).
Definition bind {A B} (m : M A) (f : A → M B) : M B := λ self,
  match m self with
  | (Ok a, self') => f a self'
  | (Raise e, self') => (Raise e, self')
  end.
Definition lift {A} (r : result A) : M A := λ self, (r, self).
Definition read {A} (f : t → A) : M A := λ self, (Ok (f self), self).
Definition update (f : t → t) : M unit := λ self, (Ok (), f self).

(** [try: body except Exception: pass] *)
Definition try_pass (body : M unit) : M unit := λ self,
  match body self with
  | (Ok _, self') => (Ok (), self')
  | (Raise _, self') => (Ok (), self')
  end.

Notation "'let*' x := m 'in' k" := (bind m (λ x, k))
  (at level 10, x name, m at level 100, k at level 200).
Notation "m ;;; k" := (bind m (λ _, k))
  (at level 100, k at level 200, right associativity).

Definition _calculate_remaining_days (year_idx : Z) : M Z :=
  let* total := read total_holidays in
  let* v := read previous_year_var in
  let* carry := lift (IntVar_get v) in
  let* taken := read taken_holidays1 in
  ret (total + carry - taken).

Definition update_labels : M unit :=
  let* remaining := _calculate_remaining_days 1 in
  update (set_remaining_label1 ("Days left: " +:+ str remaining));;;
  let* taken := read taken_holidays1 in
  update (set_taken_label1 ("Booked days: " +:+ str taken)).

(** [button.config(bg=colour)]: the button is one of the calendar's, given by
    its position. *)
Definition config_button (button : nat) (colour : string) : M unit :=
  update (λ self,
    set_calendar1 (CalendarWidget.config_bg button colour <$> calendar1 self) self).

Definition showwarning (message : string) : M unit :=
  update (λ self, set_dialogs (dialogs self ++ [message]) self).

Definition toggle_holiday (date : datetime) (button : nat) : M unit :=
  let* yv := read year_var in
  let* current_year := lift (int yv) in
  if bool_decide (Datetime.year date = current_year) then
    let* selected := read holidays1 in
    if bool_decide (date ∈ selected) then
      update (λ self, set_holidays1 (holidays1 self ∖ {[ date ]}) self);;;
      update (λ self, set_taken_holidays1 (taken_holidays1 self - 1) self);;;
      config_button button "SystemButtonFace";;;
      update_labels
    else
      let* total := read total_holidays in
      let* v := read previous_year_var in
      let* carry := lift (IntVar_get v) in
      let max_days := total + carry in
      let* taken := read taken_holidays1 in
      if bool_decide (max_days ≤ taken) then
        showwarning "No more vacation days left for this year!"
      else
        update (λ self, set_holidays1 ({[ date ]} ∪ holidays1 self) self);;;
        update (λ self, set_taken_holidays1 (taken_holidays1 self + 1) self);;;
        config_button button "#307CAF";;;
        update_labels
  else
    update_labels.

Definition create_calendar_for_frame (year : Z) : M unit :=
  let* region := read region_var in
  let* loader := read holiday_loader in
  let* public_holidays := lift (HolidayLoader.get_holidays_for_year loader year region) in
  let* available_years := lift (HolidayLoader.get_available_years loader region) in
  (if bool_decide (year ∈ available_years) then ret ()
   else update (set_warning_label
                  (Some ("⚠️ No holiday data for " +:+ region +:+ " in " +:+ str year))));;;
  let* holidays_set := read holidays1 in
  let* calendar :=
    lift (CalendarWidget.create_calendar
            (CalendarWidget.init year holidays_set public_holidays (Some year) CURRENT_YEAR)) in
  update (set_calendar1 (Some calendar)).

Definition _create_year_tab (year : Z) (is_current_year : bool) : M unit :=
  let* remaining_days := _calculate_remaining_days 1 in
  update (set_remaining_label1 ("Days left: " +:+ str remaining_days));;;
  let* taken := read taken_holidays1 in
  update (set_taken_label1 ("Booked days: " +:+ str taken));;;
  create_calendar_for_frame year.

Definition rebuild_tabs : M unit :=
  let* yv := read year_var in
  let* base_year := lift (int yv) in
  update (set_warning_label None);;;
  update (set_calendar1 None);;;
  _create_year_tab base_year true.

Definition sorted (l : list Z) : list Z := merge_sort Z.le l.

Definition create_widgets : M unit :=
  let* loader := read holiday_loader in
  let* regions := lift (HolidayLoader.get_available_regions loader) in
  let regions := if bool_decide (regions = []) then [DEFAULT_REGION] else regions in
  update (set_region_values regions);;;
  let* region := read region_var in
  let* years := lift (HolidayLoader.get_available_years loader region) in
  let years := sorted years in
  let years := if bool_decide (years = []) then [CURRENT_YEAR] else years in
  update (set_year_values (str <$> years));;;
  let* yv := read year_var in
  let* base_year := lift (int yv) in
  _create_year_tab base_year true.

(** [now] is the reading of the clock at the time of the call. *)
Definition save_holidays (now : datetime) : M unit :=
  try_pass
    (let* v := read previous_year_var in
     let* carry := lift (IntVar_get v) in
     update (λ self,
       set_storage
         (StorageManager.save_holidays (holidays1 self) (holidays2 self) carry
            (region_var self) now (storage self)).2 self)).

(** The drop-down has already stored the chosen region in [region_var];
    [response] is the answer to the dialog: [None] for Cancel. *)
Definition on_region_change (response : option bool) (now : datetime) : M unit :=
  let* new_region := read region_var in
  let* h1 := read holidays1 in
  let* h2 := read holidays2 in
  let* returned :=
    (if negb (bool_decide (h1 = ∅)) || negb (bool_decide (h2 = ∅)) then
       match response with
       | None =>
           update (λ self, set_region_var (StringVar_set (initial_region self)) self);;;
           ret true
       | Some true => save_holidays now;;; ret false
       | Some false => ret false
       end
     else ret false) in
  if returned : bool then ret () else
  update (set_initial_region (JStr new_region));;;
  let* loader := read holiday_loader in
  let* years := lift (HolidayLoader.get_available_years loader new_region) in
  let years := sorted years in
  let years := if bool_decide (years = []) then [CURRENT_YEAR] else years in
  update (set_year_values (str <$> years));;;
  let* yv := read year_var in
  let* y := lift (int yv) in
  (if bool_decide (y ∈ years) then ret ()
   else update (set_year_var (str (default 0 (head years)))));;;
  rebuild_tabs.

Definition on_year_change : M unit := rebuild_tabs.

(** [confirmed] is the answer to the confirmation dialog. *)
Definition reset_holidays (year_idx : Z) (confirmed : bool) : M unit :=
  if negb confirmed then ret () else
  update (set_holidays1 ∅);;;
  update (set_taken_holidays1 0);;;
  update_labels;;;
  let* yv := read year_var in
  let* y := lift (int yv) in
  create_calendar_for_frame y.

Definition load_holidays : M unit :=
  let* fs := read storage in
  let* loaded := lift (StorageManager.load_holidays fs) in
  let '(h1, h2, prev_year, saved_region) := loaded in
  update (set_holidays1 h1);;;
  update (set_holidays2 h2);;;
  update (λ self, set_taken_holidays1 (Z.of_nat (size (holidays1 self))) self);;;
  update (λ self, set_taken_holidays2 (Z.of_nat (size (holidays2 self))) self);;;
  update (set_previous_year_var prev_year);;;
  if truthy saved_region then
    update (set_region_var (StringVar_set saved_region));;;
    update (set_initial_region saved_region)
  else ret ().

Definition on_close (now : datetime) : M unit := save_holidays now.

(** [HolidayPlanner(root, total_holidays, region)] with the configuration and
    the storage file as found on disk. *)
Definition init (total_holidays : Z) (region : string)
    (config : HolidayLoader.config_file) (fs : StorageManager.disk) : result unit * t :=
  (load_holidays;;; create_widgets;;; update_labels)
    (mk total_holidays (JStr region) (str CURRENT_YEAR) region (JInt 0)
        (HolidayLoader.init config) fs ∅ ∅ 0 0 [] [] "" "" None None []).

(** A click on the [i]-th day button of the calendar on display: Tk runs the
    command of a button that has one and is not disabled. *)
Definition click (i : nat) : M unit :=
  let* cal := read calendar1 in
  match cal ≫= (λ c, CalendarWidget.buttons c !! i) with
  | Some (_, b) =>
      match CalendarWidget.state b, CalendarWidget.command b with
      | CalendarWidget.NORMAL, Some date => toggle_holiday date i
      | _, _ => ret ()
      end
  | None => ret ()
  end.

(** The drop-downs store the chosen value and then call the handler. *)
Definition select_region (region : string) (response : option bool) (now : datetime)
    : M unit :=
  update (set_region_var region);;; on_region_change response now.

Definition select_year (year : string) : M unit :=
  update (set_year_var year);;; on_year_change.

(** *** The planner as a state machine

    What the user can do once the window is up.  The two drop-downs are
    read-only: only a listed value can be chosen.  The carryover entry edits
    the integer variable directly; its OK button refreshes the labels. *)
Inductive event : Type :=
  | Click (i : nat)
  | SelectRegion (region : string) (response : option bool) (now : datetime)
  | SelectYear (year : string)
  | Reset (confirmed : bool)
  | Save (now : datetime)
  | TypeCarryover (text : string)
  | PressOK.

Definition handle (e : event) : M unit :=
  match e with
  | Click i => click i
  | SelectRegion region response now =>
      let* listed := read region_values in
      if bool_decide (region ∈ listed) then select_region region response now
      else ret ()
  | SelectYear year =>
      let* listed := read year_values in
      if bool_decide (year ∈ listed) then select_year year else ret ()
  | Reset confirmed => reset_holidays 1 confirmed
  | Save now => save_holidays now
  | TypeCarryover text => update (set_previous_year_var (JStr text))
  | PressOK => update_labels
  end.

(** The states of a running planner: the constructor returned, and every
    handler has run to its end or to an exception (Tk reports an exception
    raised by a handler and carries on). *)
Inductive reachable : t → Prop :=
  | reachable_init total_holidays region config fs self :
      init total_holidays region config fs = (Ok (), self) → reachable self
  | reachable_step e self :
      reachable self → reachable (handle e self).2.

End planner.

End HolidayPlanner.

(** * Properties *)

(** ** What the claims are about *)

(** The accounting invariant of the planner: each counter is the size of its
    selection set. *)
Definition accounting_ok (self : HolidayPlanner.t) : Prop :=
  HolidayPlanner.taken_holidays1 self = Z.of_nat (size (HolidayPlanner.holidays1 self)) ∧
  HolidayPlanner.taken_holidays2 self = Z.of_nat (size (HolidayPlanner.holidays2 self)).

(** The part of the planner the accounting is about. *)
Definition selection (self : HolidayPlanner.t)
    : gset Datetime.datetime * gset Datetime.datetime * Z * Z :=
  (HolidayPlanner.holidays1 self, HolidayPlanner.holidays2 self,
   HolidayPlanner.taken_holidays1 self, HolidayPlanner.taken_holidays2 self).

(** Two planner states that differ at most in the texts of the two labels. *)
Definition same_but_labels (a b : HolidayPlanner.t) : Prop :=
  HolidayPlanner.set_remaining_label1 (HolidayPlanner.remaining_label1 a)
    (HolidayPlanner.set_taken_label1 (HolidayPlanner.taken_label1 a) b) = a.

Definition rejected_message : string := "No more vacation days left for this year!".

(** A day is blocked when it falls on a Saturday or a Sunday, or is a public
    holiday. *)
Definition blocked (ph : gset Datetime.datetime) (d : Datetime.datetime) : Prop :=
  Datetime.weekday d ∈ [5; 6] ∨ d ∈ ph.

(** What holds of every day button of a calendar for the year [y]: it stands
    for midnight of a day of that year, it is disabled exactly when the day is
    blocked, a disabled button has no command, and the command of an enabled
    one passes on the day of the button. *)
Definition day_button_ok (y : Z) (ph : gset Datetime.datetime)
    (db : Datetime.datetime * CalendarWidget.Button) : Prop :=
  (∃ m d, Datetime.new y m d = Py.Ok db.1) ∧
  (CalendarWidget.state db.2 = CalendarWidget.DISABLED ↔ blocked ph db.1) ∧
  (CalendarWidget.state db.2 = CalendarWidget.DISABLED → CalendarWidget.command db.2 = None) ∧
  (CalendarWidget.state db.2 = CalendarWidget.NORMAL → CalendarWidget.command db.2 = Some db.1).

Definition calendar_ok (cal : CalendarWidget.t) : Prop :=
  Forall (day_button_ok (CalendarWidget.year cal) (CalendarWidget.public_holidays cal))
    (CalendarWidget.buttons cal).

(** The tail of [ord2ymd]: month and day from the zero-based day of the year. *)
Definition month_day (leapyear : bool) (n : Z) : Z * Z :=
  let m := Z.shiftr (n + 50) 5 in
  let preceding :=
    Datetime.DAYS_BEFORE_MONTH m + (if bool_decide (2 < m) && leapyear then 1 else 0) in
  if bool_decide (n < preceding) then
    let m := m - 1 in
    let preceding :=
      preceding - (Datetime.DAYS_IN_MONTH m
                   + (if bool_decide (m = 2) && leapyear then 1 else 0)) in
    (m, n - preceding + 1)
  else (m, n - preceding + 1).

(** Strings without white space. *)
Fixpoint no_space (s : string) : bool :=
  match s with
  | EmptyString => true
  | String c s' => negb (Py.is_space c) && no_space s'
  end.

(** [d.replace(hour=0, minute=0, second=0, microsecond=0)]: midnight of the
    calendar date of [d]. *)
Definition midnight (d : Datetime.datetime) : Datetime.datetime :=
  Datetime.mk (Datetime.year d) (Datetime.month d) (Datetime.day d) 0 0 0 0.

Definition valid (d : Datetime.datetime) : Prop :=
  Datetime.valid_date (Datetime.year d) (Datetime.month d) (Datetime.day d) = true.

(** The days of a month and of a year, at midnight, in calendar order. *)
Definition month_dates (y m : Z) : list Datetime.datetime :=
  (λ d, Datetime.mk y m d 0 0 0 0) <$> seqZ 1 (Datetime.days_in_month y m).

Definition year_dates (y : Z) : list Datetime.datetime :=
  m ← seqZ 1 12; month_dates y m.

(** Two widgets built from the same arguments. *)
Definition same_setup (a b : CalendarWidget.t) : Prop :=
  CalendarWidget.year a = CalendarWidget.year b ∧ CalendarWidget.holidays a = CalendarWidget.holidays b ∧
  CalendarWidget.public_holidays a = CalendarWidget.public_holidays b ∧ CalendarWidget.base_year a = CalendarWidget.base_year b.

(** The date an entry of the configuration stands for: the entry is an
    object whose ["date"] is a string that parses. *)
Definition entry_date (e : Py.json) : option Datetime.datetime :=
  match e with
  | Py.JDict kvs =>
      match Py.dict_lookup "date" kvs with
      | Some (Py.JStr s) =>
          match Datetime.strptime_ymd s with
          | Py.Ok d => Some d
          | Py.Raise _ => None
          end
      | _ => None
      end
  | _ => None
  end.

Definition entry_name (e : Py.json) : option Py.json :=
  match e with
  | Py.JDict kvs => Py.dict_lookup "name" kvs
  | _ => None
  end.

(** An entry that is an object whose ["date"], when present, is a string. *)
Definition entry_typed (e : Py.json) : Prop :=
  ∃ kvs, e = Py.JDict kvs ∧ ∀ v, Py.dict_lookup "date" kvs = Some v → ∃ s, v = Py.JStr s.

(** An entry for the calendar day of [date]. *)
Definition entry_on (date : Datetime.datetime) (e : Py.json) : Prop :=
  ∃ d, entry_date e = Some d ∧ Datetime.date d = Datetime.date date.


Definition storage_malformed_example : StorageManager.disk :=
  StorageManager.mk (Some (StorageManager.Document (Py.JDict [
        ("holidays1", Py.JList [Py.JStr "2025-07-14"; Py.JStr "14.07.2025"]);
        ("holidays2", Py.JList []);
        ("previous_year", Py.JInt 3);
        ("region", Py.JStr "berlin")])))
     true.

(** The fields a handler can change without affecting what the claims are
    about are the labels, the notice and the calendar; [core] is the rest. *)
Definition core (self : HolidayPlanner.t) :=
  (HolidayPlanner.total_holidays self, HolidayPlanner.initial_region self,
   HolidayPlanner.year_var self, HolidayPlanner.region_var self,
   HolidayPlanner.previous_year_var self, HolidayPlanner.holiday_loader self,
   HolidayPlanner.storage self, HolidayPlanner.holidays1 self,
   HolidayPlanner.holidays2 self, HolidayPlanner.taken_holidays1 self,
   HolidayPlanner.taken_holidays2 self, HolidayPlanner.region_values self,
   HolidayPlanner.year_values self, HolidayPlanner.dialogs self).

(** The calendar on display was built for the year [y] from the holidays the
    loader gives for that year and some region, and its buttons are as
    [_create_month] made them. *)
Definition displayed_ok (loader : HolidayLoader.t) (y : Z)
    (c : option CalendarWidget.t) : Prop :=
  ∀ cal, c = Some cal →
    calendar_ok cal ∧ CalendarWidget.year cal = y ∧
    ∃ region, HolidayLoader.get_holidays_for_year loader y region
              = Py.Ok (CalendarWidget.public_holidays cal).

(** The invariant of a running planner. *)
Definition planner_ok (self : HolidayPlanner.t) : Prop :=
  accounting_ok self ∧
  Forall (λ s, ∃ z, s = Py.str z) (HolidayPlanner.year_values self) ∧
  ∃ y, Py.int (HolidayPlanner.year_var self) = Py.Ok y ∧
       displayed_ok (HolidayPlanner.holiday_loader self) y (HolidayPlanner.calendar1 self).

(** What [create_calendar_for_frame] leaves behind: the calendar on display
    is the old one, or a new one for the year and the region of the planner. *)
Definition fresh_calendar (self : HolidayPlanner.t) (y : Z) (c : option CalendarWidget.t) : Prop :=
  ∃ cal ph, c = Some cal ∧
    HolidayLoader.get_holidays_for_year (HolidayPlanner.holiday_loader self) y (HolidayPlanner.region_var self) = Py.Ok ph ∧
    CalendarWidget.public_holidays cal = ph ∧ CalendarWidget.year cal = y ∧
    CalendarWidget.holidays cal = HolidayPlanner.holidays1 self ∧
    calendar_ok cal ∧ (CalendarWidget.buttons cal).*1 = year_dates y.

(** ** Examples *)

(** A configuration with two regions, one of them without years. *)
Definition example_config : Py.json :=
  Py.JDict [
    ("berlin", Py.JDict [
       ("2025", Py.JList [
          Py.JDict [("date", Py.JStr "2025-01-01"); ("name", Py.JStr "Neujahr")];
          Py.JDict [("date", Py.JStr "2025-12-25"); ("name", Py.JStr "1. Weihnachtstag")];
          Py.JDict [("date", Py.JStr "2025-12-25"); ("name", Py.JStr "Christmas Day")];
          Py.JDict [("date", Py.JStr "2025-12-26"); ("name", Py.JStr "2. Weihnachtstag")] ]);
       ("2026", Py.JList [
          Py.JDict [("date", Py.JStr "2026-01-01"); ("name", Py.JStr "Neujahr")] ]) ]);
    ("bavaria", Py.JDict [
       ("2027", Py.JList []);
       ("2026", Py.JList [
          Py.JDict [("date", Py.JStr "2026-01-06"); ("name", Py.JStr "Heilige Drei Könige")] ]) ]);
    ("hamburg", Py.JDict []) ].

(** A configuration whose first entry has a number where the date string
    should be. *)
Definition misdated_config : Py.json :=
  Py.JDict [
    ("berlin", Py.JDict [
       ("2025", Py.JList [
          Py.JDict [("date", Py.JInt 20250101); ("name", Py.JStr "Neujahr")];
          Py.JDict [("date", Py.JStr "2025-12-25"); ("name", Py.JStr "1. Weihnachtstag")] ]) ]) ].

(** The planner showing Berlin in 2025, in which the user has just picked
    another region from the drop-down. *)
Definition region_picked (region : string) : HolidayPlanner.t :=
  HolidayPlanner.mk 30 (Py.JStr "berlin") "2025" region (Py.JInt 0)
    (HolidayLoader.mk example_config) (StorageManager.mk None true)
    ∅ ∅ 0 0 ["berlin"; "bavaria"; "hamburg"] ["2025"; "2026"]
    "Days left: 30" "Booked days: 0" None None [].

(** C9 as the specification words it: the selected year stays when the new
    region has it, and otherwise becomes the first of the region's available
    years. *)
Definition region_change_as_claimed (CURRENT_YEAR : Z)
    (tcl_getint : Py.json → Py.result Z) (tcl_string : Py.json → string)
    (self : HolidayPlanner.t) (response : option bool) (now : Datetime.datetime) : Prop :=
  ∀ ys y,
    HolidayLoader.get_available_years (HolidayPlanner.holiday_loader self)
      (HolidayPlanner.region_var self) = Py.Ok ys →
    Py.int (HolidayPlanner.year_var self) = Py.Ok y →
    let self' :=
      (HolidayPlanner.on_region_change CURRENT_YEAR tcl_getint tcl_string
         response now self).2 in
    (y ∈ ys → HolidayPlanner.year_var self' = HolidayPlanner.year_var self) ∧
    (y ∉ ys →
       ∃ m, head (HolidayPlanner.sorted ys) = Some m ∧
            Py.int (HolidayPlanner.year_var self') = Py.Ok m).

(** An integer variable and a string variable that hold nothing but what the
    program itself stores in them. *)
Definition no_getint : Py.json → Py.result Z := λ _, Py.Raise Py.ValueError.

Definition no_string : Py.json → string := λ _, EmptyString.

(** The planner as it comes up in 2025 with that configuration and no
    storage file. *)
Definition example_planner : HolidayPlanner.t :=
  (HolidayPlanner.init 2025 no_getint no_string 30 "berlin"
     (HolidayLoader.Parsed example_config) (StorageManager.mk None true)).2.

(** Closed decidable goals, settled by evaluation. *)
Ltac by_evaluation := apply (bool_decide_unpack _); vm_compute; exact I.


Definition christmas_2025 : Datetime.datetime := Datetime.mk 2025 12 25 0 0 0 0.


Definition bastille_2025 : Datetime.datetime := Datetime.mk 2025 7 14 0 0 0 0.

Definition berlin_2025 : gset Datetime.datetime :=
  {[ Datetime.mk 2025 1 1 0 0 0 0; christmas_2025; Datetime.mk 2025 12 26 0 0 0 0 ]}.

(** The first thirty working days of 2025 in Berlin, by the position of
    their buttons, and the thirty-first. *)
Definition thirty_working_days : list nat :=
  [1; 2; 5; 6; 7; 8; 9; 12; 13; 14; 15; 16; 19; 20; 21; 22; 23; 26; 27; 28; 29; 30;
   33; 34; 35; 36; 37; 40; 41; 42]%nat.
Definition thirty_first_working_day : nat := 43%nat.

Definition click_all (positions : list nat) (self : HolidayPlanner.t) : HolidayPlanner.t :=
  foldl (λ s i, (HolidayPlanner.click no_getint i s).2) self positions.

(** The grid cell of the button of a day inside its month frame: the row of
    the week of the month the day falls in (the first week is row 3, below
    the name of the month and the weekday headers) and the column of its
    weekday (Monday's header is in column 1). *)
Definition day_cell (d : Datetime.datetime) : Z * Z :=
  let first := Datetime.mk (Datetime.year d) (Datetime.month d) 1 0 0 0 0 in
  (3 + (Datetime.weekday first + Datetime.day d - 1) `div` 7, Datetime.weekday d + 1).

(** A day button sits in the frame of its month, in the cell of its day, and
    shows the number of the day. *)
Definition day_button_laid_out (db : Datetime.datetime * CalendarWidget.Button) : Prop :=
  CalendarWidget.master db.2 = Datetime.month db.1 ∧
  CalendarWidget.text db.2 = Py.str (Datetime.day db.1) ∧
  (CalendarWidget.grid_row db.2, CalendarWidget.grid_column db.2) = day_cell db.1.

(** A day button as [_create_month] colours it: an enabled button of a day
    of the selection has the selection colour, any other button none. *)
Definition day_button_coloured (cal : CalendarWidget.t)
    (db : Datetime.datetime * CalendarWidget.Button) : Prop :=
  CalendarWidget.bg db.2 =
    if bool_decide (db.1 ∈ CalendarWidget.holidays cal)
       && bool_decide (CalendarWidget.state db.2 = CalendarWidget.NORMAL)
    then Some (CalendarWidget.selected_colour cal) else None.

(** [day_buttons] knows the enabled buttons, each under its day. *)
Definition registry_ok (cal : CalendarWidget.t) : Prop :=
  ∀ d i, CalendarWidget.day_buttons cal !! d = Some i ↔
         ∃ b, CalendarWidget.buttons cal !! i = Some (d, b) ∧
              CalendarWidget.state b = CalendarWidget.NORMAL.

Definition widget_ok (cal : CalendarWidget.t) : Prop :=
  Forall day_button_laid_out (CalendarWidget.buttons cal) ∧
  Forall (day_button_coloured cal) (CalendarWidget.buttons cal) ∧
  registry_ok cal ∧ NoDup (CalendarWidget.buttons cal).*1.



(** The two labels show the days left of an allowance with the carryover
    [carry], and the days booked. *)
Definition labels_show (self : HolidayPlanner.t) (carry : Z) : Prop :=
  HolidayPlanner.remaining_label1 self
  = "Days left: " +:+ Py.str (HolidayPlanner.total_holidays self + carry
                               - HolidayPlanner.taken_holidays1 self) ∧
  HolidayPlanner.taken_label1 self
  = "Booked days: " +:+ Py.str (HolidayPlanner.taken_holidays1 self).

(** The planner of 2025 after a click on the button of 14 July. *)
Definition bastille_booked : HolidayPlanner.t :=
  (HolidayPlanner.handle 2025 no_getint no_string (HolidayPlanner.Click 194)
     example_planner).2.

(** Every day of a selection is midnight of a day of the calendar. *)
Definition dates_ok (h : gset Datetime.datetime) : Prop :=
  ∀ d, d ∈ h → valid d ∧ midnight d = d.

(** What holds of the selections and of the region between two events: the
    selected days are days of the calendar, and the region variable holds
    the region last settled on. *)
Definition session_ok (tcl_string : Py.json → string) (self : HolidayPlanner.t) : Prop :=
  dates_ok (HolidayPlanner.holidays1 self) ∧ dates_ok (HolidayPlanner.holidays2 self) ∧
  HolidayPlanner.region_var self
  = HolidayPlanner.StringVar_set tcl_string (HolidayPlanner.initial_region self).

(** A storage file left by hand: an object with a carryover and nothing
    else, and a document that is a list. *)
Definition storage_carryover_only : StorageManager.disk :=
  StorageManager.mk (Some (StorageManager.Document (Py.JDict [("previous_year", Py.JInt 5)])))
    true.

Definition storage_list_document : StorageManager.disk :=
  StorageManager.mk (Some (StorageManager.Document (Py.JList [Py.JStr "2025-07-14"]))) true.

(** The planner of 2025 with 14 July booked, after 2026 is chosen from the
    list of years. *)
Definition bastille_in_2026 : HolidayPlanner.t :=
  (HolidayPlanner.handle 2025 no_getint no_string (HolidayPlanner.SelectYear "2026")
     bastille_booked).2.

(** ** [scripts/update_holidays.py] *)
Module HolidayUpdater.
Import Py.

(** [d[key] = x] on a dictionary: a key that is there keeps its place, a new
    one goes to the end. *)
Fixpoint dict_set (key : string) (x : json) (entries : list (string * json))
    : list (string * json) :=
  match entries with
  | [] => [(key, x)]
  | (k, v) :: rest =>
      if bool_decide (k = key) then (k, x) :: rest else (k, v) :: dict_set key x rest
  end.

(** [v[key] = x] for a string [key]. *)
Definition setitem (v : json) (key : string) (x : json) : result json :=
  match v with
  | JDict entries => Ok (JDict (dict_set key x entries))
  | _ => Raise TypeError
  end.

(** [del v[key]] for a string [key]. *)
Definition delitem (v : json) (key : string) : result json :=
  match v with
  | JDict entries =>
      if bool_decide (is_Some (dict_lookup key entries))
      then Ok (JDict (filter (λ kv, kv.1 ≠ key) entries))
      else Raise KeyError
  | _ => Raise TypeError
  end.

(** The updater object: the configuration in memory, and the file behind it
    with what is in it and whether it can be written. *)
Record t : Type := mk {
  data : json;
  config_file : HolidayLoader.config_file;
  writable : bool
}.

Definition set_data (v : json) (self : t) : t :=
  mk v (config_file self) (writable self).

(** A file that is not JSON makes [json.load] raise (a [JSONDecodeError] is
    a [ValueError]); it is not caught here. *)
Definition _load_config (f : HolidayLoader.config_file) : result json :=
  match f with
  | HolidayLoader.Missing => Ok (JDict [])
  | HolidayLoader.Malformed => Raise ValueError
  | HolidayLoader.Parsed v => Ok v
  end.

(** [HolidayUpdater()] *)
Definition init (f : HolidayLoader.config_file) (writable : bool) : result t :=
  data ← _load_config f; Ok (mk data f writable).

(** [get_german_template(year)] *)
Definition get_german_template (year : Z) : json :=
  JList [
    JDict [("date", JStr (str year +:+ "-01-01")); ("name", JStr "New Year's Day")];
    JDict [("date", JStr (str year +:+ "-05-01")); ("name", JStr "Labour Day")];
    JDict [("date", JStr (str year +:+ "-10-03")); ("name", JStr "German Unity Day")];
    JDict [("date", JStr (str year +:+ "-12-25")); ("name", JStr "Christmas Day")];
    JDict [("date", JStr (str year +:+ "-12-26")); ("name", JStr "Second Christmas Day")] ].

Section updater.

(** [str.lower] *)
Variable lower : string → string.

(** Methods change the object and the file, and may raise: what was changed
    before an exception stays changed. *)
Definition M (A : Type) : Type := t → result A * t.

Definition ret {A} (a : A) : M A := λ self, (Ok a, self).
Definition bind {A B} (m : M A) (f : A → M B) : M B := λ self,
  match m self with
  | (Ok a, self') => f a self'
  | (Raise e, self') => (Raise e, self')
  end.
Definition lift {A} (r : result A) : M A := λ self, (r, self).
Definition read {A} (f : t → A) : M A := λ self, (Ok (f self), self).
Definition update (f : t → t) : M unit := λ self, (Ok (), f self).

Notation "'let*' x := m 'in' k" := (bind m (λ x, k))
  (at level 10, x name, m at level 100, k at level 200).
Notation "m ;;; k" := (bind m (λ _, k))
  (at level 100, k at level 200, right associativity).

(** The file is written as a whole; a file that cannot be opened for
    writing raises [OSError] and stays as it is. *)
Definition _save_config : M unit := λ self,
  if writable self
  then (Ok (), mk (data self) (HolidayLoader.Parsed (data self)) (writable self))
  else (Raise OSError, self).

Definition add_region (region_name : string) : M bool :=
  let region_name := lower region_name in
  let* d := read data in
  let* known := lift (contains d region_name) in
  if known : bool then ret false else
  let* d' := lift (setitem d region_name (JDict [])) in
  update (set_data d');;;
  _save_config;;;
  ret true.

(** The dictionary of the region is changed in place: the configuration
    holds the changed dictionary under the key it had. *)
Definition add_year (region_name : string) (year : Z) (holidays_list : json) : M bool :=
  let region_name := lower region_name in
  let year_str := str year in
  let* d := read data in
  let* known := lift (contains d region_name) in
  (if negb known then add_region region_name;;; ret () else ret ());;;
  let* d := read data in
  let* by_year := lift (getitem d region_name) in
  let* overwriting := lift (contains by_year year_str) in
  let* by_year := lift (getitem d region_name) in
  let* by_year' := lift (setitem by_year year_str holidays_list) in
  let* d' := lift (setitem d region_name by_year') in
  update (set_data d');;;
  _save_config;;;
  ret true.

Definition list_regions : M (list string) :=
  let* d := read data in
  if negb (truthy d) then ret [] else
  let* regions := lift (keys d) in
  let* printed :=
    lift (mapM (λ region, by_year ← getitem d region; keys by_year) regions) in
  ret regions.

Definition list_years (region_name : string) : M (list string) :=
  let region_name := lower region_name in
  let* d := read data in
  let* known := lift (contains d region_name) in
  if negb known then ret [] else
  let* by_year := lift (getitem d region_name) in
  let* years := lift (keys by_year) in
  ret years.

Definition remove_region (region_name : string) : M bool :=
  let region_name := lower region_name in
  let* d := read data in
  let* known := lift (contains d region_name) in
  if negb known then ret false else
  let* d' := lift (delitem d region_name) in
  update (set_data d');;;
  _save_config;;;
  ret true.

Definition remove_year (region_name : string) (year : Z) : M bool :=
  let region_name := lower region_name in
  let year_str := str year in
  let* d := read data in
  let* known := lift (contains d region_name) in
  if negb known then ret false else
  let* by_year := lift (getitem d region_name) in
  let* known := lift (contains by_year year_str) in
  if negb known then ret false else
  let* by_year := lift (getitem d region_name) in
  let* by_year' := lift (delitem by_year year_str) in
  let* d' := lift (setitem d region_name by_year') in
  update (set_data d');;;
  _save_config;;;
  ret true.

End updater.

End HolidayUpdater.

(** The years a configuration has for a region. *)
Definition years_of (region : string) (regions : list (string * Py.json))
    : list (string * Py.json) :=
  match Py.dict_lookup region regions with
  | Some (Py.JDict years) => years
  | _ => []
  end.

(** [str.lower] on a string of ASCII characters. *)
Definition lower_ascii_char (c : ascii) : ascii :=
  let n := nat_of_ascii c in
  if bool_decide (65 ≤ n ≤ 90)%nat then ascii_of_nat (n + 32) else c.

Fixpoint lower_ascii (s : string) : string :=
  match s with
  | EmptyString => EmptyString
  | String c r => String (lower_ascii_char c) (lower_ascii r)
  end.

(** An updater started on the example configuration. *)
Definition example_updater : HolidayUpdater.t :=
  HolidayUpdater.mk example_config (HolidayLoader.Parsed example_config) true.

Definition example_regions : list (string * Py.json) :=
  match example_config with
  | Py.JDict entries => entries
  | _ => []
  end.


(** The days of the template of [get_german_template]. *)
Definition german_template_days (y : Z) : gset Datetime.datetime :=
  {[ Datetime.mk y 1 1 0 0 0 0; Datetime.mk y 5 1 0 0 0 0; Datetime.mk y 10 3 0 0 0 0;
     Datetime.mk y 12 25 0 0 0 0; Datetime.mk y 12 26 0 0 0 0 ]}.

Ltac unroll_seqZ :=
  repeat match goal with
  | |- context [seqZ ?a ?b] =>
      let l := eval vm_compute in (seqZ a b) in change (seqZ a b) with l
  end.

(** ** Python: [int] undoes [str] *)
Section python.
Import Py.

Lemma digit_value_pretty (x : N) :
  (x < 10)%N → digit_value (pretty_N_char x) = Some (Z.of_N x).
Proof.
  intros Hx.
  assert (x ∈ [0; 1; 2; 3; 4; 5; 6; 7; 8; 9]%N) as Hin.
  { assert (x = 0 ∨ x = 1 ∨ x = 2 ∨ x = 3 ∨ x = 4 ∨ x = 5 ∨ x = 6 ∨ x = 7
            ∨ x = 8 ∨ x = 9)%N as Hc by lia.
    set_solver. }
  repeat (apply elem_of_cons in Hin as [->|Hin]; [reflexivity|]).
  by apply elem_of_nil in Hin.
Qed.

Lemma pretty_N_char_plain (x : N) :
  (x < 10)%N →
  is_space (pretty_N_char x) = false ∧ pretty_N_char x ≠ "_"%char ∧
  pretty_N_char x ≠ "-"%char ∧ pretty_N_char x ≠ "+"%char.
Proof.
  intros Hx.
  assert (x ∈ [0; 1; 2; 3; 4; 5; 6; 7; 8; 9]%N) as Hin.
  { assert (x = 0 ∨ x = 1 ∨ x = 2 ∨ x = 3 ∨ x = 4 ∨ x = 5 ∨ x = 6 ∨ x = 7
            ∨ x = 8 ∨ x = 9)%N as Hc by lia.
    set_solver. }
  repeat (apply elem_of_cons in Hin as [->|Hin]; [done|]).
  by apply elem_of_nil in Hin.
Qed.

Lemma lstrip_no_space s : no_space s = true → lstrip s = s.
Proof. destruct s as [|c s]; simpl; [done|]. by destruct (is_space c). Qed.

Lemma rstrip_no_space s : no_space s = true → rstrip s = s.
Proof.
  induction s as [|c s IH]; simpl; [done|].
  destruct (is_space c) eqn:Hc; simpl; [done|]. intros Hs.
  rewrite IH by done. by destruct s.
Qed.

(** The digits that [pretty] puts in front of a string: they read back as the
    number, are free of white space and start with a digit. *)
Lemma pretty_N_go_digits (x : N) :
  (0 < x)%N →
  ∃ (k : Z), 0 ≤ k ∧ ∀ s,
    (∀ acc flag, int_digits acc flag (pretty_N_go x s)
                 = int_digits (acc * 10 ^ k + Z.of_N x) true s) ∧
    (no_space s = true → no_space (pretty_N_go x s) = true) ∧
    (∃ c r, pretty_N_go x s = String c r ∧ c ≠ "-"%char ∧ c ≠ "+"%char).
Proof.
  induction (N.lt_wf_0 x) as [x _ IH]. intros Hx.
  assert (x `mod` 10 < 10)%N as Hmod by (apply N.mod_lt; lia).
  destruct (pretty_N_char_plain _ Hmod) as (Hsp & Hus & Hmi & Hpl).
  pose proof (N.div_mod x 10 ltac:(lia)) as Hdm.
  destruct (decide (x < 10)%N) as [Hsmall|Hbig].
  - exists 1. split; [lia|]. intros s.
    rewrite pretty_N_go_step by done.
    rewrite (N.div_small x 10) by done. rewrite pretty_N_go_0.
    rewrite (N.mod_small x 10) in * by done.
    split; [|split].
    + intros acc flag. simpl. rewrite bool_decide_eq_false_2 by done.
      rewrite digit_value_pretty by done. f_equal. lia.
    + intros Hs. simpl. by rewrite Hsp, Hs.
    + eauto.
  - destruct (IH (x `div` 10)%N) as (k & Hk & Hrec).
    { apply N.div_lt; lia. }
    { apply N.div_str_pos. lia. }
    exists (k + 1). split; [lia|]. intros s.
    rewrite pretty_N_go_step by done.
    destruct (Hrec (String (pretty_N_char (x `mod` 10)) s)) as (Hval & Hns & Hhd).
    split; [|split].
    + intros acc flag. rewrite Hval. simpl.
      rewrite bool_decide_eq_false_2 by done.
      rewrite digit_value_pretty by done. f_equal.
      rewrite Z.pow_add_r by lia.
      apply (f_equal Z.of_N) in Hdm. rewrite N2Z.inj_add, N2Z.inj_mul in Hdm.
      change (Z.of_N 10) with 10 in Hdm. change (10 ^ 1) with 10. lia.
    + intros Hs. apply Hns. simpl. by rewrite Hsp, Hs.
    + done.
Qed.

Lemma int_pretty_N (x : N) :
  (0 < x)%N →
  ∃ c r, pretty_N_go x "" = String c r ∧ c ≠ "-"%char ∧ c ≠ "+"%char ∧
    no_space (pretty_N_go x "") = true ∧
    int_digits 0 false (pretty_N_go x "") = Some (Z.of_N x).
Proof.
  intros Hx. destruct (pretty_N_go_digits x Hx) as (k & Hk & Hs).
  destruct (Hs "") as (Hval & Hns & c & r & Hc & Hmi & Hpl).
  exists c, r. rewrite Hval. simpl.
  repeat split; try done. by apply Hns.
Qed.

(** [int(str(z)) == z] *)
Lemma int_str z : int (str z) = Ok z.
Proof.
  unfold int, str, pretty, pretty_Z. destruct z as [|p|p].
  - reflexivity.
  - unfold pretty, pretty_positive, pretty, pretty_N.
    rewrite decide_False by done.
    destruct (int_pretty_N (N.pos p) ltac:(lia)) as (c & r & Hc & Hmi & Hpl & Hns & Hv).
    rewrite rstrip_no_space, lstrip_no_space by done.
    rewrite Hc in *. 
    destruct c as [[] [] [] [] [] [] [] []]; try done; by rewrite Hv.
  - unfold pretty, pretty_positive, pretty, pretty_N.
    rewrite decide_False by done.
    destruct (int_pretty_N (N.pos p) ltac:(lia)) as (c & r & Hc & Hmi & Hpl & Hns & Hv).
    replace ("-" +:+ pretty_N_go (N.pos p) "") with (String "-" (pretty_N_go (N.pos p) "")) by done.
    rewrite rstrip_no_space, lstrip_no_space by (simpl; done).
    rewrite Hv. reflexivity.
Qed.

End python.

(** ** The calendar *)
Section calendar_arithmetic.
Import Py Datetime.

(** A year split into its 400-, 100-, 4- and 1-year cycles. *)
Lemma year_cycles y :
  1 ≤ y →
  ∃ a b c e, y - 1 = 400 * a + 100 * b + 4 * c + e ∧
    0 ≤ a ∧ 0 ≤ b < 4 ∧ 0 ≤ c < 25 ∧ 0 ≤ e < 4.
Proof.
  intros Hy.
  exists ((y - 1) `div` 400), (((y - 1) `mod` 400) `div` 100),
    ((((y - 1) `mod` 400) `mod` 100) `div` 4), ((((y - 1) `mod` 400) `mod` 100) `mod` 4).
  pose proof (Z.div_mod (y - 1) 400 ltac:(lia)).
  pose proof (Z.mod_pos_bound (y - 1) 400 ltac:(lia)).
  set (r := (y - 1) `mod` 400) in *.
  pose proof (Z.div_mod r 100 ltac:(lia)).
  pose proof (Z.mod_pos_bound r 100 ltac:(lia)).
  set (r' := r `mod` 100) in *.
  pose proof (Z.div_mod r' 4 ltac:(lia)).
  pose proof (Z.mod_pos_bound r' 4 ltac:(lia)).
  pose proof (Z.div_pos (y - 1) 400 ltac:(lia) ltac:(lia)).
  pose proof (Z.div_pos r 100 ltac:(lia) ltac:(lia)).
  pose proof (Z.div_pos r' 4 ltac:(lia) ltac:(lia)).
  assert (r `div` 100 < 4) by (apply Z.div_lt_upper_bound; lia).
  assert (r' `div` 4 < 25) by (apply Z.div_lt_upper_bound; lia).
  lia.
Qed.

Lemma div_mod_eq n d q r : 0 ≤ r < d → n = d * q + r → n `div` d = q ∧ n `mod` d = r.
Proof.
  intros Hr ->. split.
  - symmetry. apply (Z.div_unique _ _ q r); [lia|done].
  - symmetry. apply (Z.mod_unique _ _ q r); [lia|done].
Qed.

Lemma is_leap_cycles a b c e :
  0 ≤ b < 4 → 0 ≤ c < 25 → 0 ≤ e < 4 →
  is_leap (400 * a + 100 * b + 4 * c + e + 1) =
  bool_decide (e = 3) && (negb (bool_decide (c = 24)) || bool_decide (b = 3)).
Proof.
  intros Hb Hc He. unfold is_leap.
  set (y := 400 * a + 100 * b + 4 * c + e + 1).
  assert (y `mod` 4 = (e + 1) `mod` 4) as ->.
  { unfold y. replace (400 * a + 100 * b + 4 * c + e + 1)
      with ((e + 1) + (100 * a + 25 * b + c) * 4) by lia.
    apply Z.mod_add. lia. }
  assert (y `mod` 100 = (4 * c + e + 1) `mod` 100) as ->.
  { unfold y. replace (400 * a + 100 * b + 4 * c + e + 1)
      with ((4 * c + e + 1) + (4 * a + b) * 100) by lia.
    apply Z.mod_add. lia. }
  assert (y `mod` 400 = (100 * b + 4 * c + e + 1) `mod` 400) as ->.
  { unfold y. replace (400 * a + 100 * b + 4 * c + e + 1)
      with ((100 * b + 4 * c + e + 1) + a * 400) by lia.
    apply Z.mod_add. lia. }
  destruct (decide (e = 3)) as [->|He3].
  - rewrite (bool_decide_eq_true_2 (3 = 3)) by done.
    replace ((3 + 1) `mod` 4) with 0 by done.
    rewrite (bool_decide_eq_true_2 (0 = 0)) by done. simpl.
    destruct (decide (c = 24)) as [->|Hc24].
    + rewrite (bool_decide_eq_true_2 (24 = 24)) by done.
      replace ((4 * 24 + 3 + 1) `mod` 100) with 0 by done.
      rewrite (bool_decide_eq_true_2 (0 = 0)) by done. simpl.
      destruct (decide (b = 3)) as [->|Hb3].
      * done.
      * rewrite (bool_decide_eq_false_2 (b = 3)) by done.
        rewrite Z.mod_small by lia. rewrite bool_decide_eq_false_2 by lia. done.
    + rewrite (bool_decide_eq_false_2 (c = 24)) by done.
      rewrite Z.mod_small by lia. rewrite bool_decide_eq_false_2 by lia. done.
  - rewrite (bool_decide_eq_false_2 (e = 3)) by done.
    rewrite Z.mod_small by lia. rewrite bool_decide_eq_false_2 by lia. done.
Qed.

Lemma ord2ymd_in_year y k :
  1 ≤ y → 0 ≤ k < 365 →
  ord2ymd (days_before_year y + k + 1) =
    let '(m, d) := month_day (is_leap y) k in (y, m, d).
Proof.
  intros Hy Hk.
  destruct (year_cycles y Hy) as (a & b & c & e & Hq & Ha & Hb & Hc & He).
  assert (y = 400 * a + 100 * b + 4 * c + e + 1) as -> by lia.
  rewrite is_leap_cycles by done.
  unfold days_before_year.
  replace (400 * a + 100 * b + 4 * c + e + 1 - 1) with (400 * a + 100 * b + 4 * c + e) by lia.
  destruct (div_mod_eq (400 * a + 100 * b + 4 * c + e) 4 (100 * a + 25 * b + c) e)
    as [-> _]; [lia|lia|].
  destruct (div_mod_eq (400 * a + 100 * b + 4 * c + e) 100 (4 * a + b) (4 * c + e))
    as [-> _]; [lia|lia|].
  destruct (div_mod_eq (400 * a + 100 * b + 4 * c + e) 400 a (100 * b + 4 * c + e))
    as [-> _]; [lia|lia|].
  unfold ord2ymd, DI400Y, DI100Y, DI4Y.
  set (n := (400 * a + 100 * b + 4 * c + e) * 365 + (100 * a + 25 * b + c) - (4 * a + b) + a + k + 1 - 1).
  destruct (div_mod_eq n 146097 a (36524 * b + 1461 * c + 365 * e + k))
    as [-> ->]; [lia|unfold n; lia|].
  destruct (div_mod_eq (36524 * b + 1461 * c + 365 * e + k) 36524 b (1461 * c + 365 * e + k))
    as [-> ->]; [lia|lia|].
  destruct (div_mod_eq (1461 * c + 365 * e + k) 1461 c (365 * e + k))
    as [-> ->]; [lia|lia|].
  destruct (div_mod_eq (365 * e + k) 365 e k) as [-> ->]; [lia|lia|].
  rewrite (bool_decide_eq_false_2 (e = 4)) by lia.
  rewrite (bool_decide_eq_false_2 (b = 4)) by lia. simpl.
  unfold month_day.
  replace (a * 400 + 1 + b * 100 + c * 4 + e) with (400 * a + 100 * b + 4 * c + e + 1) by lia.
  destruct (bool_decide (k < _)); reflexivity.
Qed.

End calendar_arithmetic.

(** ** Formatting and parsing dates *)
Section formats.
Import Py Datetime.

Lemma digit_value_digit_char k :
  0 ≤ k ≤ 9 → digit_value (digit_char k) = Some k.
Proof.
  intros Hk.
  assert (k = 0 ∨ k = 1 ∨ k = 2 ∨ k = 3 ∨ k = 4 ∨ k = 5 ∨ k = 6 ∨ k = 7 ∨ k = 8 ∨ k = 9)
    as Hc by lia.
  repeat (destruct Hc as [->|Hc]; [reflexivity|]). by subst.
Qed.

Lemma digit_in_digit_char k r :
  0 ≤ k ≤ 9 → digit_in 0 9 (String (digit_char k) r) = [(k, r)].
Proof.
  intros Hk. unfold digit_in. rewrite digit_value_digit_char by done.
  by rewrite bool_decide_eq_true_2.
Qed.

Lemma list_bind_one {A B} (f : A → list B) x : ([x] ≫= f) = f x.
Proof. simpl. apply app_nil_r. Qed.

Lemma re_Y_four_digits y r :
  0 ≤ y ≤ 9999 → re_Y (four_digits y r) = [(y, r)].
Proof.
  intros Hy. unfold re_Y, four_digits, two_digits. cbv beta.
  assert (∀ n, 0 ≤ n `mod` 10 ≤ 9) as Hd by (intros n; pose proof (Z.mod_pos_bound n 10); lia).
  do 4 (rewrite digit_in_digit_char by apply Hd; rewrite list_bind_one).
  do 2 f_equal. clear Hd.
  assert (y `div` 100 = (y `div` 10) `div` 10) as -> by (by rewrite Z.div_div by lia).
  assert (y `div` 1000 = ((y `div` 10) `div` 10) `div` 10) as ->
    by (by rewrite !Z.div_div by lia).
  pose proof (Z.div_mod y 10 ltac:(lia)).
  pose proof (Z.mod_pos_bound y 10 ltac:(lia)).
  set (q1 := y `div` 10) in *.
  pose proof (Z.div_mod q1 10 ltac:(lia)).
  pose proof (Z.mod_pos_bound q1 10 ltac:(lia)).
  set (q2 := q1 `div` 10) in *.
  pose proof (Z.div_mod q2 10 ltac:(lia)).
  pose proof (Z.mod_pos_bound q2 10 ltac:(lia)).
  set (q3 := q2 `div` 10) in *.
  rewrite (Z.mod_small q3 10) by lia. lia.
Qed.

Lemma Z_range_cases (P : Z → Prop) lo n :
  Forall P (seqZ lo n) → ∀ x, lo ≤ x ≤ lo + n - 1 → P x.
Proof. intros HP x Hx. eapply Forall_forall in HP; [done|]. apply elem_of_seqZ. lia. Qed.

(** A formatted date matches the expression of the format, and the first
    match covers the whole string. *)
Lemma re_ymd_strftime d :
  0 ≤ year d ≤ 9999 → 1 ≤ month d ≤ 12 → 1 ≤ day d ≤ 31 →
  ∃ rest, re_ymd (strftime_ymd d) = ((year d, month d, day d), EmptyString) :: rest.
Proof.
  destruct d as [y m dd h mi s us]. simpl. intros Hy Hm Hd.
  unfold re_ymd, strftime_ymd. simpl year; simpl month; simpl day.
  rewrite re_Y_four_digits by done. rewrite list_bind_one.
  revert dd Hd. apply (Z_range_cases _ 1 31).
  revert m Hm. apply (Z_range_cases _ 1 12).
  unroll_seqZ.
  repeat (apply List.Forall_cons;
          [repeat (apply List.Forall_cons; [eexists; reflexivity|]); apply List.Forall_nil|]).
  apply List.Forall_nil.
Qed.

Lemma strptime_strftime d :
  valid_date (year d) (month d) (day d) = true →
  strptime_ymd (strftime_ymd d) = Ok (mk (year d) (month d) (day d) 0 0 0 0).
Proof.
  intros Hv. unfold strptime_ymd.
  pose proof Hv as Hv'. unfold valid_date, MINYEAR, MAXYEAR in Hv'.
  rewrite !andb_true_iff, !bool_decide_eq_true in Hv'.
  destruct Hv' as [[Hy Hm] Hd].
  assert (days_in_month (year d) (month d) ≤ 31).
  { unfold days_in_month. destruct (_ && _); [lia|].
    revert Hm. generalize (month d). apply (Z_range_cases _ 1 12).
    unroll_seqZ. repeat (apply List.Forall_cons; [simpl; lia|]). apply List.Forall_nil. }
  destruct (re_ymd_strftime d) as [rest ->]; [lia..|].
  unfold new. by rewrite Hv.
Qed.

End formats.

(** ** The calendar widget *)
Section calendar_widget.
Import Py Datetime CalendarWidget.

Lemma days_before_year_bounds y :
  1 ≤ y ≤ 9999 → 0 ≤ days_before_year y ≤ 3651694.
Proof.
  intros Hy. destruct (year_cycles y ltac:(lia)) as (a & b & c & e & Hq & Ha & Hb & Hc & He).
  unfold days_before_year. rewrite Hq.
  destruct (div_mod_eq (400 * a + 100 * b + 4 * c + e) 4 (100 * a + 25 * b + c) e)
    as [-> _]; [lia|lia|].
  destruct (div_mod_eq (400 * a + 100 * b + 4 * c + e) 100 (4 * a + b) (4 * c + e))
    as [-> _]; [lia|lia|].
  destruct (div_mod_eq (400 * a + 100 * b + 4 * c + e) 400 a (100 * b + 4 * c + e))
    as [-> _]; [lia|lia|].
  lia.
Qed.

(** The number of days the widget computes for a month before December is
    that of the calendar. *)
Lemma last_day_of_month y m :
  1 ≤ y ≤ 9999 → 1 ≤ m ≤ 11 →
  (next ← new y (m + 1) 1; last ← sub_days next 1; Ok (day last))
  = Ok (days_in_month y m).
Proof.
  intros Hy Hm. unfold new, valid_date, MINYEAR, MAXYEAR.
  rewrite (bool_decide_eq_true_2 (1 ≤ y ≤ 9999)) by done.
  rewrite (bool_decide_eq_true_2 (1 ≤ m + 1 ≤ 12)) by lia.
  assert (1 ≤ days_in_month y (m + 1)) as Hdim.
  { unfold days_in_month. destruct (_ && _); [lia|].
    revert Hm. generalize m. apply (Z_range_cases _ 1 11). unroll_seqZ.
    repeat (apply List.Forall_cons; [simpl; lia|]). apply List.Forall_nil. }
  rewrite bool_decide_eq_true_2 by lia. simpl.
  unfold sub_days, toordinal, ymd2ord. simpl.
  pose proof (days_before_year_bounds y Hy) as Hdby.
  assert (31 ≤ days_before_month y (m + 1) ≤ 335) as Hdbm.
  { unfold days_before_month. destruct (_ && _);
      (revert Hm; generalize m; apply (Z_range_cases _ 1 11); unroll_seqZ;
       repeat (apply List.Forall_cons; [simpl; lia|]); apply List.Forall_nil). }
  unfold MAXORDINAL. rewrite bool_decide_eq_true_2 by lia.
  replace (days_before_year y + days_before_month y (m + 1) + 1 - 1)
    with (days_before_year y + (days_before_month y (m + 1) - 1) + 1) by lia.
  rewrite ord2ymd_in_year by lia.
  unfold days_before_month, days_in_month.
  destruct (is_leap y);
    (revert Hm; generalize m; apply (Z_range_cases _ 1 11); unroll_seqZ;
     repeat (apply List.Forall_cons; [reflexivity|]); apply List.Forall_nil).
Qed.


Lemma create_day_spec month day self row col :
  calendar_ok self →
  valid_date (year self) month day = true →
  ∃ st', create_day month day (self, row, col) = Ok st' ∧
    calendar_ok st'.1.1 ∧ same_setup st'.1.1 self ∧
    (buttons st'.1.1).*1 = (buttons self).*1 ++ [Datetime.mk (year self) month day 0 0 0 0].
Proof.
  intros Hok Hv. unfold create_day, new. rewrite Hv. simpl.
  set (date := Datetime.mk (year self) month day 0 0 0 0).
  set (wk := bool_decide (weekday date ∈ [5; 6])).
  set (hol := bool_decide (date ∈ public_holidays self)).
  assert (wk || hol = true ↔ blocked (public_holidays self) date) as Hblocked.
  { unfold wk, hol, blocked. rewrite orb_true_iff, !bool_decide_eq_true. done. }
  assert (∃ m d, new (year self) m d = Ok date) as Hdate.
  { exists month, day. unfold new. by rewrite Hv. }
  destruct (wk || hol) eqn:Hb; case_bool_decide; eexists; (split; [reflexivity|]); simpl.
  all: split; [|split; [done|by rewrite fmap_app]].
  all: unfold calendar_ok; simpl; apply Forall_app; split; [done|].
  all: apply Forall_singleton; unfold day_button_ok; simpl.
  all: split; [done|]; split; [|done].
  all: split; [intros ?|intros Hbl; apply Hblocked in Hbl]; try done.
  all: by apply Hblocked.
Qed.

Lemma create_days_spec month days st :
  calendar_ok st.1.1 →
  (∀ d, d ∈ days → valid_date (year st.1.1) month d = true) →
  ∃ st', for_each days (create_day month) st = Ok st' ∧
    calendar_ok st'.1.1 ∧ same_setup st'.1.1 st.1.1 ∧
    (buttons st'.1.1).*1
    = (buttons st.1.1).*1 ++ ((λ d, Datetime.mk (year st.1.1) month d 0 0 0 0) <$> days).
Proof.
  revert st. induction days as [|d days IH]; intros [[self row] col] Hok Hv;
    simpl in Hok, Hv; cbn [for_each fst snd].
  - eexists. split; [done|]. split; [done|]. split; [done|]. by rewrite app_nil_r.
  - destruct (create_day_spec month d self row col Hok) as (st1 & -> & Hok1 & Hs1 & Hb1).
    { apply Hv. by left. }
    simpl. destruct (IH st1 Hok1) as (st2 & -> & Hok2 & Hs2 & Hb2).
    { intros d' Hd'. destruct Hs1 as (-> & _). apply Hv. by right. }
    exists st2. split; [done|]. split; [done|].
    destruct Hs1 as (Hy1 & ? & ? & ?), Hs2 as (Hy2 & ? & ? & ?).
    split; [by (repeat split; congruence)|].
    by rewrite Hb2, Hb1, Hy1, <-(assoc_L (++)).
Qed.

Lemma _create_month_spec month r c w h self :
  calendar_ok self → 1 ≤ year self ≤ 9999 → 1 ≤ month ≤ 12 →
  ∃ self', _create_month month r c w h self = Ok self' ∧
    calendar_ok self' ∧ same_setup self' self ∧
    (buttons self').*1 = (buttons self).*1 ++ month_dates (year self) month.
Proof.
  intros Hok Hy Hm. unfold _create_month.
  assert (1 ≤ days_in_month (year self) month) as Hdim.
  { unfold days_in_month. destruct (_ && _); [lia|].
    revert Hm. generalize month. apply (Z_range_cases _ 1 12). unroll_seqZ.
    repeat (apply List.Forall_cons; [simpl; lia|]). apply List.Forall_nil. }
  assert (new (year self) month 1 = Ok (Datetime.mk (year self) month 1 0 0 0 0)) as ->.
  { unfold new, valid_date, MINYEAR, MAXYEAR. by rewrite !bool_decide_eq_true_2 by lia. }
  simpl.
  assert ((if bool_decide (month = 12) then Ok 31
           else next ← new (year self) (month + 1) 1; last ← sub_days next 1; Ok (day last))
          = Ok (days_in_month (year self) month)) as ->.
  { case_bool_decide as H12; [by subst|]. apply last_day_of_month; lia. }
  simpl.
  destruct (create_days_spec month (seqZ 1 (days_in_month (year self) month))
              (self, 3, weekday (Datetime.mk (year self) month 1 0 0 0 0) + 1) Hok)
    as (st' & -> & Hok' & Hs' & Hb').
  { intros d Hd. apply elem_of_seqZ in Hd. simpl.
    unfold valid_date, MINYEAR, MAXYEAR. by rewrite !bool_decide_eq_true_2 by lia. }
  simpl. by exists st'.1.1.
Qed.

Lemma create_months_spec (idxs : list Z) self :
  calendar_ok self → 1 ≤ year self ≤ 9999 →
  (∀ i, i ∈ idxs → 0 ≤ i ≤ 11) →
  ∃ self',
    for_each idxs
      (λ m_idx self, _create_month (m_idx + 1) (m_idx `div` 4 + 3) (m_idx `mod` 4) 200 210 self)
      self = Ok self' ∧
    calendar_ok self' ∧ same_setup self' self ∧
    (buttons self').*1
    = (buttons self).*1 ++ (i ← idxs; month_dates (year self) (i + 1)).
Proof.
  revert self. induction idxs as [|i idxs IH]; intros self Hok Hy Hi; cbn [for_each].
  - eexists. split; [done|]. split; [done|]. split; [done|]. by rewrite app_nil_r.
  - destruct (_create_month_spec (i + 1) (i `div` 4 + 3) (i `mod` 4) 200 210 self Hok Hy)
      as (s1 & -> & Hok1 & Hs1 & Hb1).
    { assert (0 ≤ i ≤ 11) by (apply Hi; by left). lia. }
    simpl. destruct Hs1 as (Hy1 & ? & ? & ?).
    destruct (IH s1 Hok1) as (s2 & -> & Hok2 & Hs2 & Hb2).
    { by rewrite Hy1. }
    { intros j Hj. apply Hi. by right. }
    destruct Hs2 as (Hy2 & ? & ? & ?).
    exists s2. split; [done|]. split; [done|].
    split; [by (repeat split; congruence)|].
    by rewrite Hb2, Hb1, Hy1, <-(assoc_L (++)).
Qed.

(** For a year the calendar knows, [create_calendar] returns, and the day
    buttons are those of the days of the year, in order. *)
Lemma create_calendar_spec self :
  calendar_ok self → 1 ≤ year self ≤ 9999 →
  ∃ cal, create_calendar self = Ok cal ∧ calendar_ok cal ∧ same_setup cal self ∧
    (buttons cal).*1 = (buttons self).*1 ++ year_dates (year self).
Proof.
  intros Hok Hy. unfold create_calendar.
  destruct (create_months_spec (seqZ 0 12) self Hok Hy) as (cal & Hcal & ? & ? & Hb).
  { intros i Hi. apply elem_of_seqZ in Hi. lia. }
  exists cal. split; [done|]. split; [done|]. split; [done|].
  rewrite Hb. f_equal.
Qed.

(** For any other year it raises before a single button is made. *)
Lemma create_calendar_bad_year self :
  ¬ (1 ≤ year self ≤ 9999) → create_calendar self = Raise ValueError.
Proof.
  intros Hy. unfold create_calendar. unroll_seqZ. simpl.
  unfold _create_month, new, valid_date, MINYEAR, MAXYEAR.
  by rewrite (bool_decide_eq_false_2 (1 ≤ year self ≤ 9999)) by done.
Qed.

Lemma init_calendar_ok y h ph by_ cy : calendar_ok (init y h ph by_ cy).
Proof. unfold calendar_ok. simpl. constructor. Qed.

Lemma config_bg_ok i colour cal : calendar_ok cal → calendar_ok (config_bg i colour cal).
Proof.
  unfold calendar_ok, config_bg. simpl. intros Hok.
  apply Forall_alter; [done|]. intros [d b] _ Hb. exact Hb.
Qed.

Lemma year_dates_complete y m d :
  valid_date y m d = true → Datetime.mk y m d 0 0 0 0 ∈ year_dates y.
Proof.
  unfold valid_date. rewrite !andb_true_iff, !bool_decide_eq_true.
  intros [[Hy Hm] Hd]. unfold year_dates. apply list_elem_of_bind.
  exists m. split; [|apply elem_of_seqZ; lia].
  unfold month_dates. apply list_elem_of_fmap. exists d. split; [done|].
  apply elem_of_seqZ. lia.
Qed.

End calendar_widget.

(** ** The storage manager *)
Section storage.
Import Py Datetime StorageManager.

Lemma mapM_raises {A B} (f : A → result B) l x :
  x ∈ l → (∀ y, f x ≠ Ok y) → ∃ e, mapM f l = Raise e.
Proof.
  intros Hx Hf. induction l as [|a l IH]; [by apply elem_of_nil in Hx|].
  simpl. apply elem_of_cons in Hx as [<-|Hx].
  - destruct (f x) as [y|e]; [by destruct (Hf y)|]. by exists e.
  - destruct (f a); simpl; [|by eexists].
    destruct (IH Hx) as [e ->]. by exists e.
Qed.


Lemma load_holidays_total fs : ∃ v, load_holidays fs = Ok v.
Proof.
  unfold load_holidays. destruct (storage_file fs); [|by eexists].
  unfold try_except_Exception.
  match goal with |- context [match ?b with Ok _ => _ | Raise _ => _ end] =>
    destruct b end; by eexists.
Qed.

Lemma load_dates_malformed data key stored items v :
  get data key (JList []) = Ok stored → iter stored = Ok items →
  v ∈ items → (∀ d, strptime v ≠ Ok d) →
  ∃ e, load_dates data key = Raise e.
Proof.
  intros Hget Hiter Hv Hbad. unfold load_dates. rewrite Hget. simpl.
  rewrite Hiter. simpl.
  destruct (mapM_raises strptime items v Hv Hbad) as [e ->]. by exists e.
Qed.


Lemma date_midnight d : date (midnight d) = date d.
Proof. done. Qed.



(** C7: [load_holidays] never raises; without a file, with a file that
    cannot be read or is not JSON, and with a malformed date string in either
    list, it returns the defaults: two empty sets, carryover 0, region
    [None]. *)
Theorem load_holidays_never_raises (fs : disk) :
  (∃ v, load_holidays fs = Ok v) ∧
  (storage_file fs = None → load_holidays fs = Ok (∅, ∅, JInt 0, JNull)) ∧
  ((∀ data, storage_file fs ≠ Some (Document data)) →
     load_holidays fs = Ok (∅, ∅, JInt 0, JNull)) ∧
  (∀ data key stored items v,
     storage_file fs = Some (Document data) →
     key ∈ ["holidays1"; "holidays2"] →
     get data key (JList []) = Ok stored → iter stored = Ok items →
     v ∈ items → (∀ d, strptime v ≠ Ok d) →
     load_holidays fs = Ok (∅, ∅, JInt 0, JNull)).
Proof.
  split; [apply load_holidays_total|]. split; [|split].
  - intros Hf. unfold load_holidays. by rewrite Hf.
  - intros Hf. unfold load_holidays.
    destruct (storage_file fs) as [[| |data]|]; try done. by destruct (Hf data).
  - intros data key stored items v Hf Hkey Hget Hiter Hv Hbad.
    unfold load_holidays. rewrite Hf. simpl.
    destruct (load_dates_malformed data key stored items v Hget Hiter Hv Hbad) as [e He].
    apply elem_of_cons in Hkey as [->|Hkey].
    { by rewrite He. }
    apply list_elem_of_singleton in Hkey as ->. rewrite He.
    by destruct (load_dates data "holidays1").
Qed.

Lemma load_holidays_never_raises_witness :
  load_holidays storage_malformed_example = Ok (∅, ∅, JInt 0, JNull).
Proof.
  destruct (load_holidays_never_raises storage_malformed_example) as (_ & _ & _ & H).
  eapply (H _ "holidays1" _ _ (JStr "14.07.2025")).
  - reflexivity.
  - by left.
  - reflexivity.
  - reflexivity.
  - by right; left.
  - intros d. vm_compute. discriminate.
Defined.



End storage.

(** ** The holiday loader *)
Section loader.
Import Py Datetime HolidayLoader.

Lemma strptime_ymd_raises s e : strptime_ymd s = Raise e → e = ValueError.
Proof.
  unfold strptime_ymd, new.
  destruct (re_ymd s) as [|[[[y m] d] [|c r]] rest]; try congruence.
  destruct (valid_date y m d); congruence.
Qed.

Lemma add_holiday_typed e (acc : gset datetime) :
  entry_typed e →
  add_holiday e acc = Ok (match entry_date e with Some d => {[ d ]} ∪ acc | None => acc end).
Proof.
  intros (kvs & -> & Hdate). unfold add_holiday, entry_date. simpl.
  destruct (dict_lookup "date" kvs) as [v|] eqn:Hv; simpl; [|done].
  destruct (Hdate v eq_refl) as [s ->]. simpl.
  destruct (strptime_ymd s) as [d|x] eqn:Hs; [done|].
  by rewrite (strptime_ymd_raises s x Hs).
Qed.

(** On entries of the expected shape the loop collects the dates that
    parse and skips the rest. *)
Lemma for_each_add_holiday entries (acc : gset datetime) :
  Forall entry_typed entries →
  for_each entries add_holiday acc = Ok (list_to_set (omap entry_date entries) ∪ acc).
Proof.
  revert acc. induction entries as [|e entries IH]; intros acc Hty; simpl.
  - f_equal. set_solver.
  - apply Forall_cons in Hty as [He Hty]. rewrite (add_holiday_typed e acc He). simpl.
    rewrite IH by done. f_equal. destruct (entry_date e); set_solver.
Qed.


Lemma get_holidays_for_year_no_region self year region regions :
  holidays_data self = JDict regions → dict_lookup region regions = None →
  get_holidays_for_year self year region = Ok ∅.
Proof.
  intros Hdata Hregion. unfold get_holidays_for_year.
  rewrite Hdata. simpl. by rewrite Hregion.
Qed.

Lemma get_holidays_for_year_no_year self year region regions years :
  holidays_data self = JDict regions →
  dict_lookup region regions = Some (JDict years) →
  dict_lookup (str year) years = None →
  get_holidays_for_year self year region = Ok ∅.
Proof.
  intros Hdata Hregion Hyear. unfold get_holidays_for_year.
  rewrite Hdata. simpl. rewrite Hregion. simpl. by rewrite Hyear.
Qed.

(** The loop of [get_holiday_name] passes over the entries that are not for
    the day asked for. *)
Lemma find_holiday_name_skip date e rest :
  entry_typed e → ¬ entry_on date e →
  find_holiday_name date (e :: rest) = find_holiday_name date rest.
Proof.
  intros (kvs & -> & Hdate) Hnot. simpl.
  destruct (dict_lookup "date" kvs) as [v|] eqn:Hv; simpl; [|done].
  destruct (Hdate v eq_refl) as [s ->]. simpl.
  destruct (strptime_ymd s) as [d|x] eqn:Hs; simpl.
  - case_bool_decide as Heq; [|done]. destruct Hnot. exists d. split; [|done].
    unfold entry_date. by rewrite Hv, Hs.
  - by rewrite (strptime_ymd_raises s x Hs).
Qed.

Lemma find_holiday_name_hit date e rest name :
  entry_on date e → entry_name e = Some name →
  find_holiday_name date (e :: rest) = Ok name.
Proof.
  intros (d & Hd & Heq) Hname. unfold entry_date, entry_name in *.
  destruct e as [| | | | |?|kvs]; simpl in Hd, Hname |- *; try done.
  destruct (dict_lookup "date" kvs) as [[| | | |s| |]|]; simpl in Hd |- *; try done.
  destruct (strptime_ymd s) as [d'|]; simpl in Hd |- *; [|done].
  injection Hd as ->.
  rewrite bool_decide_eq_true_2 by done. by rewrite Hname.
Qed.

Lemma find_holiday_name_first date pre e post name :
  Forall entry_typed pre → Forall (λ x, ¬ entry_on date x) pre →
  entry_on date e → entry_name e = Some name →
  find_holiday_name date (pre ++ e :: post) = Ok name.
Proof.
  intros Hty Hnot Hon Hname. induction pre as [|x pre IH]; simpl app.
  - by apply find_holiday_name_hit.
  - apply Forall_cons in Hty as [? ?]. apply Forall_cons in Hnot as [? ?].
    rewrite find_holiday_name_skip by done. by apply IH.
Qed.

Lemma find_holiday_name_none date entries :
  Forall entry_typed entries → Forall (λ x, ¬ entry_on date x) entries →
  find_holiday_name date entries = Ok JNull.
Proof.
  intros Hty Hnot. induction entries as [|x entries IH]; [done|].
  apply Forall_cons in Hty as [? ?]. apply Forall_cons in Hnot as [? ?].
  rewrite find_holiday_name_skip by done. by apply IH.
Qed.

(** C8: the name of a holiday is that of the first entry, in the stored
    order, for the calendar day asked for, among the entries of the year of
    that day; [None] when the region, the year or such an entry is missing.
    The configuration has the documented shape: regions map to years, years
    to lists of entries. *)
Theorem get_holiday_name_first_match (self : t) (date : datetime) (region : string)
    (regions : list (string * json)) :
  holidays_data self = JDict regions →
  (dict_lookup region regions = None →
     get_holiday_name self date region = Ok JNull) ∧
  (∀ years, dict_lookup region regions = Some (JDict years) →
     (dict_lookup (str (year date)) years = None →
        get_holiday_name self date region = Ok JNull) ∧
     (∀ entries, dict_lookup (str (year date)) years = Some (JList entries) →
        (Forall entry_typed entries → Forall (λ x, ¬ entry_on date x) entries →
           get_holiday_name self date region = Ok JNull) ∧
        (∀ pre e post name, entries = pre ++ e :: post →
           Forall entry_typed pre → Forall (λ x, ¬ entry_on date x) pre →
           entry_on date e → entry_name e = Some name →
           get_holiday_name self date region = Ok name))).
Proof.
  intros Hdata. unfold get_holiday_name. rewrite Hdata. simpl. split.
  { by intros ->. }
  intros years ->. simpl. split.
  { by intros ->. }
  intros entries ->. simpl. split.
  - apply find_holiday_name_none.
  - intros pre e post name ->. apply find_holiday_name_first.
Qed.

End loader.


(** ** The planner *)
Section planner_theory.
Import Py Datetime HolidayPlanner.

Variable CURRENT_YEAR : Z.
Variable tcl_getint : json → result Z.
Variable tcl_string : json → string.

#[local] Arguments Py.int : simpl never.
#[local] Arguments Py.str : simpl never.
#[local] Arguments HolidayLoader.get_holidays_for_year : simpl never.
#[local] Arguments HolidayLoader.get_available_years : simpl never.
#[local] Arguments HolidayLoader.get_available_regions : simpl never.
#[local] Arguments CalendarWidget.create_calendar : simpl never.
#[local] Arguments StorageManager.load_holidays : simpl never.
#[local] Arguments StorageManager.save_holidays : simpl never.
#[local] Arguments sorted : simpl never.

Ltac run := unfold bind, read, lift, update, ret, showwarning, config_button; simpl.

(** [update_labels] touches the two labels only. *)
Lemma update_labels_frame self :
  same_but_labels (update_labels tcl_getint self).2 self.
Proof.
  unfold update_labels, _calculate_remaining_days. run.
  destruct (IntVar_get _ _); destruct self; reflexivity.
Qed.

Lemma same_but_labels_core a b :
  same_but_labels a b → core a = core b ∧ calendar1 a = calendar1 b.
Proof. intros <-. by destruct b. Qed.

Lemma update_labels_core self :
  core (update_labels tcl_getint self).2 = core self ∧
  calendar1 (update_labels tcl_getint self).2 = calendar1 self.
Proof. apply same_but_labels_core, update_labels_frame. Qed.

Lemma core_selection a b : core a = core b → selection a = selection b.
Proof. unfold core, selection. congruence. Qed.

Lemma accounting_ok_selection a b :
  selection a = selection b → accounting_ok b → accounting_ok a.
Proof. unfold selection, accounting_ok. intros [= -> -> -> ->]. done. Qed.

Lemma planner_ok_core a b :
  core a = core b → calendar1 a = calendar1 b → planner_ok b → planner_ok a.
Proof.
  intros Hc Hcal (Hacc & Hyv & y & Hy & Hd).
  split; [by apply (accounting_ok_selection a b (core_selection a b Hc))|].
  unfold core in Hc. injection Hc as _ _ Eyv _ _ El _ _ _ _ _ _ Evs _.
  split; [by rewrite Evs|].
  exists y. split; [by rewrite Eyv|]. by rewrite Hcal, El.
Qed.


Lemma create_calendar_for_frame_spec y self :
  let out := create_calendar_for_frame CURRENT_YEAR y self in
  core out.2 = core self ∧
  (calendar1 out.2 = calendar1 self ∨ (out.1 = Ok () ∧ fresh_calendar self y (calendar1 out.2))).
Proof.
  unfold create_calendar_for_frame. run.
  destruct (HolidayLoader.get_holidays_for_year _ _ _) as [ph|] eqn:Hph; simpl; [|by auto].
  destruct (HolidayLoader.get_available_years _ _) as [ys|]; simpl; [|by auto].
  set (w := CalendarWidget.init y (holidays1 self) ph (Some y) CURRENT_YEAR).
  assert (∀ s0 : t, core s0 = core self → holidays1 s0 = holidays1 self) as Hh.
  { intros s0 Hs0. unfold core in Hs0. congruence. }
  destruct (decide (1 ≤ y ≤ 9999)) as [Hy|Hy].
  - destruct (create_calendar_spec w (init_calendar_ok _ _ _ _ _) Hy)
      as (cal & Hcal & Hok & (Ey & Eh & Ep & _) & Hb).
    case_bool_decide; simpl; fold w; rewrite Hcal; simpl; (split; [by destruct self|]);
      right; (split; [done|]); exists cal, ph; by repeat split.
  - case_bool_decide; simpl; fold w;
      rewrite (create_calendar_bad_year w Hy); simpl; (split; [by destruct self|]); by left.
Qed.

Lemma _create_year_tab_spec y b self :
  let out := _create_year_tab CURRENT_YEAR tcl_getint y b self in
  core out.2 = core self ∧
  (calendar1 out.2 = calendar1 self ∨ (out.1 = Ok () ∧ fresh_calendar self y (calendar1 out.2))).
Proof.
  unfold _create_year_tab, _calculate_remaining_days. run.
  destruct (IntVar_get _ _) as [carry|]; simpl; [|by auto].
  match goal with |- context [create_calendar_for_frame _ _ ?s] =>
    destruct (create_calendar_for_frame_spec y s) as [Hc Hcal];
    assert (core s = core self ∧ calendar1 s = calendar1 self ∧
            holiday_loader s = holiday_loader self ∧ region_var s = region_var self ∧
            holidays1 s = holidays1 self)
      as (Hc0 & Hcal0 & Hl0 & Hr0 & Hh0) by (by destruct self)
  end.
  simpl in *. split; [congruence|].
  destruct Hcal as [Hcal|[Hout Hcal]]; [left; congruence|right].
  split; [done|]. exact Hcal.
Qed.

Lemma rebuild_tabs_spec self :
  let out := rebuild_tabs CURRENT_YEAR tcl_getint self in
  core out.2 = core self ∧
  match int (year_var self) with
  | Ok y => calendar1 out.2 = None ∨ (out.1 = Ok () ∧ fresh_calendar self y (calendar1 out.2))
  | Raise _ => calendar1 out.2 = calendar1 self
  end.
Proof.
  unfold rebuild_tabs. run.
  destruct (int (year_var self)) as [y|]; simpl; [|done].
  match goal with |- context [_create_year_tab _ _ _ _ ?s] =>
    destruct (_create_year_tab_spec y true s) as [Hc Hcal];
    assert (core s = core self ∧ calendar1 s = None ∧
            holiday_loader s = holiday_loader self ∧ region_var s = region_var self ∧
            holidays1 s = holidays1 self)
      as (Hc0 & Hcal0 & Hl0 & Hr0 & Hh0) by (by destruct self)
  end.
  simpl in *. split; [congruence|].
  destruct Hcal as [Hcal|[Hout Hcal]]; [left; congruence|right].
  split; [done|]. exact Hcal.
Qed.

Lemma fresh_calendar_displayed self y c :
  fresh_calendar self y c → displayed_ok (holiday_loader self) y c.
Proof.
  intros (cal & ph & -> & Hph & Hp & Hy & _ & Hok & _) cal' [= <-].
  split; [done|]. split; [done|]. exists (region_var self). by rewrite Hp.
Qed.

Lemma displayed_ok_None loader y : displayed_ok loader y None.
Proof. by intros cal. Qed.


Lemma update_labels_fields self :
  let s' := (update_labels tcl_getint self).2 in
  holidays1 s' = holidays1 self ∧ holidays2 s' = holidays2 self ∧
  taken_holidays1 s' = taken_holidays1 self ∧ taken_holidays2 s' = taken_holidays2 self ∧
  dialogs s' = dialogs self.
Proof.
  destruct (update_labels_core self) as [Hc _]. unfold core in Hc. simpl.
  injection Hc as _ _ _ _ _ _ _ -> -> -> -> _ _ ->. done.
Qed.

Lemma toggle_add self date button y carry :
  int (year_var self) = Ok y → Datetime.year date = y → date ∉ holidays1 self →
  IntVar_get tcl_getint (previous_year_var self) = Ok carry →
  let self' := (toggle_holiday tcl_getint date button self).2 in
  (taken_holidays1 self < total_holidays self + carry →
     holidays1 self' = {[ date ]} ∪ holidays1 self ∧
     taken_holidays1 self' = taken_holidays1 self + 1 ∧
     holidays2 self' = holidays2 self ∧ taken_holidays2 self' = taken_holidays2 self) ∧
  (total_holidays self + carry ≤ taken_holidays1 self →
     self' = set_dialogs (dialogs self ++ [rejected_message]) self).
Proof.
  intros Hy Hd Hnot Hc. unfold toggle_holiday. run.
  rewrite Hy; simpl. rewrite bool_decide_eq_true_2 by done.
  rewrite bool_decide_eq_false_2 by done. rewrite Hc; simpl.
  split; intros Hcmp.
  - rewrite bool_decide_eq_false_2 by lia.
    match goal with |- context [update_labels _ ?s] =>
      destruct (update_labels_fields s) as (-> & -> & -> & -> & _)
    end.
    simpl. done.
  - rewrite bool_decide_eq_true_2 by lia. reflexivity.
Qed.

Lemma toggle_remove self date button y :
  int (year_var self) = Ok y → Datetime.year date = y → date ∈ holidays1 self →
  let self' := (toggle_holiday tcl_getint date button self).2 in
  holidays1 self' = holidays1 self ∖ {[ date ]} ∧
  taken_holidays1 self' = taken_holidays1 self - 1 ∧
  holidays2 self' = holidays2 self ∧ taken_holidays2 self' = taken_holidays2 self.
Proof.
  intros Hy Hd Hin. unfold toggle_holiday. run.
  rewrite Hy; simpl. rewrite !bool_decide_eq_true_2 by done.
  match goal with |- context [update_labels _ ?s] =>
    destruct (update_labels_fields s) as (-> & -> & -> & -> & _)
  end.
  simpl. done.
Qed.

Lemma toggle_other_year self date button y :
  int (year_var self) = Ok y → Datetime.year date ≠ y →
  toggle_holiday tcl_getint date button self = update_labels tcl_getint self.
Proof.
  intros Hy Hd. unfold toggle_holiday. run.
  rewrite Hy; simpl. rewrite bool_decide_eq_false_2 by done. reflexivity.
Qed.

Lemma toggle_no_year self date button e :
  int (year_var self) = Raise e →
  toggle_holiday tcl_getint date button self = (Raise e, self).
Proof. intros Hy. unfold toggle_holiday. run. rewrite Hy. reflexivity. Qed.

Lemma toggle_no_carry self date button y e :
  int (year_var self) = Ok y → Datetime.year date = y → date ∉ holidays1 self →
  IntVar_get tcl_getint (previous_year_var self) = Raise e →
  toggle_holiday tcl_getint date button self = (Raise e, self).
Proof.
  intros Hy Hd Hnot Hc. unfold toggle_holiday. run.
  rewrite Hy; simpl. rewrite bool_decide_eq_true_2 by done.
  rewrite bool_decide_eq_false_2 by done. rewrite Hc. reflexivity.
Qed.


(** A toggle leaves everything but the selection, its counter, the labels,
    the warnings and the colour of the button as it was. *)
Lemma toggle_frame date button self :
  let s' := (toggle_holiday tcl_getint date button self).2 in
  year_var s' = year_var self ∧ year_values s' = year_values self ∧
  holiday_loader s' = holiday_loader self ∧
  holidays2 s' = holidays2 self ∧ taken_holidays2 s' = taken_holidays2 self ∧
  (calendar1 s' = calendar1 self ∨
   ∃ colour, calendar1 s' = CalendarWidget.config_bg button colour <$> calendar1 self).
Proof.
  unfold toggle_holiday. run.
  destruct (int (year_var self)) as [y|]; simpl; [|by auto 10].
  repeat case_bool_decide; simpl;
    try (destruct (IntVar_get tcl_getint (previous_year_var self)); simpl; [|by auto 10]);
    repeat case_bool_decide; simpl; try (by auto 10).
  all: match goal with |- context [update_labels _ ?s] =>
         destruct (update_labels_core s) as [Hc Hcal]; unfold core in Hc;
         injection Hc as _ _ -> _ _ -> _ _ -> _ -> _ -> _; rewrite Hcal
       end; simpl; eauto 10.
Qed.

Lemma toggle_accounting self date button :
  accounting_ok self → accounting_ok (toggle_holiday tcl_getint date button self).2.
Proof.
  intros [H1 H2].
  destruct (int (year_var self)) as [y|e] eqn:Hy;
    [|by rewrite (toggle_no_year _ _ _ _ Hy)].
  destruct (decide (Datetime.year date = y)) as [Hd|Hd]; last first.
  { rewrite (toggle_other_year _ _ _ _ Hy Hd).
    destruct (update_labels_fields self) as (E1 & E2 & E3 & E4 & _).
    unfold accounting_ok. by rewrite E1, E2, E3, E4. }
  destruct (decide (date ∈ holidays1 self)) as [Hin|Hnot].
  - destruct (toggle_remove self date button y Hy Hd Hin) as (E1 & E2 & E3 & E4).
    unfold accounting_ok. rewrite E1, E2, E3, E4. split; [|done].
    rewrite H1, size_difference by set_solver. rewrite size_singleton.
    assert (size (holidays1 self) ≠ 0%nat).
    { intros Hz. apply size_empty_inv in Hz. set_solver. }
    lia.
  - destruct (IntVar_get tcl_getint (previous_year_var self)) as [carry|e] eqn:Hc;
      [|by rewrite (toggle_no_carry _ _ _ _ _ Hy Hd Hnot Hc)].
    destruct (toggle_add self date button y carry Hy Hd Hnot Hc) as [Ha Hr].
    destruct (decide (taken_holidays1 self < total_holidays self + carry)) as [Hlt|Hge].
    + destruct (Ha Hlt) as (E1 & E2 & E3 & E4).
      unfold accounting_ok. rewrite E1, E2, E3, E4. split; [|done].
      rewrite size_union by set_solver. rewrite size_singleton. lia.
    + rewrite Hr by lia. destruct self; done.
Qed.

Lemma displayed_ok_config_bg loader y i colour c :
  displayed_ok loader y c → displayed_ok loader y (CalendarWidget.config_bg i colour <$> c).
Proof.
  intros Hd cal Hcal. destruct c as [c|]; [|done]. injection Hcal as <-.
  destruct (Hd c eq_refl) as (Hok & Hy & Hph). split; [by apply config_bg_ok|]. done.
Qed.

Lemma toggle_planner_ok date button self :
  planner_ok self → planner_ok (toggle_holiday tcl_getint date button self).2.
Proof.
  intros (Hacc & Hyv & y & Hy & Hd).
  destruct (toggle_frame date button self) as (E1 & E2 & E3 & _ & _ & Hcal).
  split; [by apply toggle_accounting|]. split; [by rewrite E2|].
  exists y. split; [by rewrite E1|]. rewrite E3.
  destruct Hcal as [->|[colour ->]]; [done|]. by apply displayed_ok_config_bg.
Qed.


Lemma planner_ok_intro self y :
  accounting_ok self → Forall (λ s, ∃ z, s = str z) (year_values self) →
  int (year_var self) = Ok y →
  displayed_ok (holiday_loader self) y (calendar1 self) → planner_ok self.
Proof. intros ? ? ? ?. split; [done|]. split; [done|]. by exists y. Qed.

Lemma click_planner_ok i self :
  planner_ok self → planner_ok (click tcl_getint i self).2.
Proof.
  intros Hok. unfold click. run.
  destruct (calendar1 self ≫= _) as [[d b]|]; [|done].
  destruct (CalendarWidget.state b), (CalendarWidget.command b); try done.
  by apply toggle_planner_ok.
Qed.

Lemma rebuild_tabs_planner_ok self y :
  accounting_ok self → Forall (λ s, ∃ z, s = str z) (year_values self) →
  int (year_var self) = Ok y →
  planner_ok (rebuild_tabs CURRENT_YEAR tcl_getint self).2.
Proof.
  intros Hacc Hyv Hy. destruct (rebuild_tabs_spec self) as [Hc Hcal].
  rewrite Hy in Hcal.
  pose proof Hc as Hc'. unfold core in Hc'. injection Hc' as _ _ Eyv _ _ El _ _ _ _ _ _ Evs _.
  apply (planner_ok_intro _ y).
  - by apply (accounting_ok_selection _ self (core_selection _ _ Hc)).
  - by rewrite Evs.
  - by rewrite Eyv.
  - rewrite El. destruct Hcal as [->|[_ Hf]];
      [apply displayed_ok_None|by apply fresh_calendar_displayed].
Qed.

Lemma save_holidays_core now self :
  let s' := (save_holidays tcl_getint now self).2 in
  set_storage (storage self) s' = self.
Proof.
  unfold save_holidays, try_pass. run.
  destruct (IntVar_get _ _); by destruct self.
Qed.

Lemma save_holidays_planner_ok now self :
  planner_ok self → planner_ok (save_holidays tcl_getint now self).2.
Proof.
  intros Hok. pose proof (save_holidays_core now self) as Hs. simpl in Hs.
  destruct (save_holidays tcl_getint now self).2. rewrite <-Hs in Hok. exact Hok.
Qed.

Lemma sorted_years_str ys :
  Forall (λ s, ∃ z, s = str z)
    (str <$> (if bool_decide (sorted ys = []) then [CURRENT_YEAR] else sorted ys)).
Proof. apply Forall_fmap, Forall_true. intros z. by exists z. Qed.

Lemma on_region_change_planner_ok response now self :
  planner_ok self →
  planner_ok (on_region_change CURRENT_YEAR tcl_getint tcl_string response now self).2.
Proof.
  intros Hok. unfold on_region_change.
  unfold bind at 1. unfold read at 1. unfold bind at 1. unfold read at 1.
  unfold bind at 1. unfold read at 1. unfold bind at 1.
  set (first := if _ : bool then _ else _).
  assert (∀ s, planner_ok s → planner_ok (first s).2) as Hfirst.
  { intros s Hs. unfold first. destruct (_ || _); [|done].
    destruct response as [[]|]; [| done |].
    - unfold bind. pose proof (save_holidays_planner_ok now s Hs).
      destruct (save_holidays tcl_getint now s) as [[] ?]; done.
    - run. by destruct s. }
  specialize (Hfirst self Hok).
  destruct (first self) as [[[]|] s1]; simpl in Hfirst |- *; try done.
  clear first Hok. destruct Hfirst as (Hacc & Hyv & y & Hy & Hd).
  run. destruct (HolidayLoader.get_available_years _ _) as [ys|]; simpl.
  2:{ apply (planner_ok_intro _ y); by destruct s1. }
  assert (int (year_var s1) = Ok y) as -> by (by destruct s1).
  simpl.
  match goal with |- context [bool_decide (y ∈ ?l)] => set (years := l) end.
  case_bool_decide; simpl.
  - apply (rebuild_tabs_planner_ok _ y).
    + by destruct s1.
    + destruct s1; apply sorted_years_str.
    + by destruct s1.
  - apply (rebuild_tabs_planner_ok _ (default 0 (head years))).
    + by destruct s1.
    + destruct s1; apply sorted_years_str.
    + destruct s1; apply int_str.
Qed.

Lemma reset_holidays_planner_ok year_idx confirmed self :
  planner_ok self →
  planner_ok (reset_holidays CURRENT_YEAR tcl_getint year_idx confirmed self).2.
Proof.
  intros (Hacc & Hyv & y & Hy & Hd). unfold reset_holidays.
  destruct confirmed; simpl; [|by apply (planner_ok_intro _ y)].
  unfold bind at 1. unfold update at 1. unfold bind at 1. unfold update at 1.
  unfold bind at 1.
  set (s0 := set_taken_holidays1 0 (set_holidays1 ∅ self)).
  assert (planner_ok s0) as Hs0.
  { apply (planner_ok_intro _ y); try (by destruct self).
    destruct Hacc as [_ H2]. split; [done|by destruct self]. }
  destruct (update_labels_core s0) as [Hc Hcal].
  pose proof (planner_ok_core _ _ Hc Hcal Hs0) as Hs1.
  destruct (update_labels tcl_getint s0) as [[[]|] s1]; simpl in *; [|done].
  clear Hc Hcal Hs0. destruct Hs1 as (Hacc1 & Hyv1 & y1 & Hy1 & Hd1).
  run. rewrite Hy1. simpl.
  destruct (create_calendar_for_frame_spec y1 s1) as [Hc Hcal].
  pose proof Hc as Hc'. unfold core in Hc'. injection Hc' as _ _ Eyv _ _ El _ _ _ _ _ _ Evs _.
  apply (planner_ok_intro _ y1).
  - by apply (accounting_ok_selection _ s1 (core_selection _ _ Hc)).
  - by rewrite Evs.
  - by rewrite Eyv.
  - rewrite El. destruct Hcal as [->|[_ Hf]]; [done|by apply fresh_calendar_displayed].
Qed.

Lemma handle_planner_ok e self :
  planner_ok self →
  planner_ok (handle CURRENT_YEAR tcl_getint tcl_string e self).2.
Proof.
  intros Hok. destruct e as [i|region response now|year|confirmed|now|text|]; simpl.
  - by apply click_planner_ok.
  - run. case_bool_decide; [|done]. apply on_region_change_planner_ok.
    destruct Hok as (? & ? & y & ? & ?). apply (planner_ok_intro _ y); by destruct self.
  - run. case_bool_decide as Hin; [|done]. unfold select_year, on_year_change. run.
    destruct Hok as (Hacc & Hyv & _).
    pose proof Hyv as Hyv'. rewrite Forall_forall in Hyv'.
    destruct (Hyv' year Hin) as [z ->].
    apply (rebuild_tabs_planner_ok _ z); try (by destruct self). apply int_str.
  - by apply reset_holidays_planner_ok.
  - by apply save_holidays_planner_ok.
  - destruct Hok as (? & ? & y & ? & ?). apply (planner_ok_intro _ y); by destruct self.
  - destruct (update_labels_core self) as [Hc Hcal]. by apply (planner_ok_core _ _ Hc Hcal).
Qed.


Lemma load_holidays_spec self :
  let out := load_holidays tcl_string self in
  out.1 = Ok () ∧ accounting_ok out.2 ∧
  year_var out.2 = year_var self ∧ year_values out.2 = year_values self ∧
  holiday_loader out.2 = holiday_loader self ∧ calendar1 out.2 = calendar1 self.
Proof.
  unfold load_holidays. run.
  destruct (load_holidays_total (storage self)) as [[[[h1 h2] p] r] ->]. simpl.
  destruct (truthy r); simpl; by destruct self.
Qed.

Lemma create_widgets_planner_ok self y :
  accounting_ok self → Forall (λ s, ∃ z, s = str z) (year_values self) →
  int (year_var self) = Ok y → calendar1 self = None →
  planner_ok (create_widgets CURRENT_YEAR tcl_getint self).2.
Proof.
  intros Hacc Hyv Hy Hnone. unfold create_widgets. run.
  assert (planner_ok self) as Hself.
  { apply (planner_ok_intro _ y); try done. rewrite Hnone. apply displayed_ok_None. }
  destruct (HolidayLoader.get_available_regions _) as [rs|]; simpl; [|done].
  destruct (HolidayLoader.get_available_years _ _) as [ys|]; simpl.
  2:{ apply (planner_ok_intro _ y); try (by destruct self).
      destruct self; simpl in *. rewrite Hnone. apply displayed_ok_None. }
  rewrite Hy. simpl.
  match goal with |- context [_create_year_tab _ _ _ _ ?st] =>
    destruct (_create_year_tab_spec y true st) as [Hc Hcal];
    assert (accounting_ok st ∧ int (year_var st) = Ok y ∧ calendar1 st = None ∧
            Forall (λ x, ∃ z, x = str z) (year_values st)) as (Hacc0 & Hy0 & Hn0 & Hyv0)
      by (destruct self; repeat split; try done; try apply Hacc; apply sorted_years_str);
    set (s0 := st) in *
  end.
  pose proof Hc as Hc'. unfold core in Hc'. injection Hc' as _ _ Eyv _ _ El _ _ _ _ _ _ Evs _.
  apply (planner_ok_intro _ y).
  - by apply (accounting_ok_selection _ s0 (core_selection _ _ Hc)).
  - by rewrite Evs.
  - by rewrite Eyv.
  - rewrite El. destruct Hcal as [->|[_ Hf]]; [|by apply fresh_calendar_displayed].
    rewrite Hn0. apply displayed_ok_None.
Qed.

Lemma init_planner_ok total_holidays region config fs :
  planner_ok (init CURRENT_YEAR tcl_getint tcl_string total_holidays region config fs).2.
Proof.
  unfold init.
  set (s0 := mk _ _ _ _ _ _ _ _ _ _ _ _ _ _ _ _ _ _).
  unfold bind at 1.
  destruct (load_holidays_spec s0) as (Hout & Hacc & Eyv & Evs & El & Ecal).
  destruct (load_holidays tcl_string s0) as [[[]|] s1]; simpl in *; [|done].
  unfold bind.
  assert (planner_ok (create_widgets CURRENT_YEAR tcl_getint s1).2) as Hs2.
  { apply (create_widgets_planner_ok _ CURRENT_YEAR); try done.
    - rewrite Evs. constructor.
    - rewrite Eyv. apply int_str. }
  destruct (create_widgets CURRENT_YEAR tcl_getint s1) as [[[]|] s2]; simpl in *; [|done].
  destruct (update_labels_core s2) as [Hc Hcal]. by apply (planner_ok_core _ _ Hc Hcal).
Qed.

(** Every state of a running planner satisfies the invariant. *)
Lemma reachable_planner_ok self :
  reachable CURRENT_YEAR tcl_getint tcl_string self → planner_ok self.
Proof.
  induction 1 as [total region config fs self Hinit|e self _ IH].
  - pose proof (init_planner_ok total region config fs) as Hok. by rewrite Hinit in Hok.
  - by apply handle_planner_ok.
Qed.


Lemma toggle_added date button self d :
  d ∈ holidays1 (toggle_holiday tcl_getint date button self).2 → d ∉ holidays1 self →
  d = date.
Proof.
  intros Hin Hnot.
  destruct (int (year_var self)) as [y|e] eqn:Hy;
    [|by rewrite (toggle_no_year _ _ _ _ Hy) in Hin].
  destruct (decide (Datetime.year date = y)) as [Hd|Hd]; last first.
  { rewrite (toggle_other_year _ _ _ _ Hy Hd) in Hin.
    destruct (update_labels_fields self) as (E1 & _). by rewrite E1 in Hin. }
  destruct (decide (date ∈ holidays1 self)) as [Hsel|Hsel].
  { destruct (toggle_remove self date button y Hy Hd Hsel) as (E1 & _).
    rewrite E1 in Hin. set_solver. }
  destruct (IntVar_get tcl_getint (previous_year_var self)) as [carry|e] eqn:Hc;
    [|by rewrite (toggle_no_carry _ _ _ _ _ Hy Hd Hsel Hc) in Hin].
  destruct (toggle_add self date button y carry Hy Hd Hsel Hc) as [Ha Hr].
  destruct (decide (taken_holidays1 self < total_holidays self + carry)) as [Hlt|Hge].
  - destruct (Ha Hlt) as (E1 & _). rewrite E1 in Hin. set_solver.
  - rewrite Hr in Hin by lia. by destruct self.
Qed.

Lemma on_region_change_holidays1 response now self :
  holidays1 (on_region_change CURRENT_YEAR tcl_getint tcl_string response now self).2
  = holidays1 self.
Proof.
  unfold on_region_change.
  unfold bind at 1. unfold read at 1. unfold bind at 1. unfold read at 1.
  unfold bind at 1. unfold read at 1. unfold bind at 1.
  set (first := if _ : bool then _ else _).
  assert (∀ s, holidays1 (first s).2 = holidays1 s) as Hfirst.
  { intros s. unfold first. destruct (_ || _); [|done].
    destruct response as [[]|]; [| done |].
    - unfold bind. pose proof (save_holidays_core now s) as Hs. simpl in Hs.
      destruct (save_holidays tcl_getint now s) as [[] s']; simpl in *;
        rewrite <-Hs; by destruct s'.
    - run. by destruct s. }
  specialize (Hfirst self).
  destruct (first self) as [[[]|] s1]; simpl in Hfirst |- *; try done.
  clear first. rewrite <-Hfirst. clear Hfirst.
  run. destruct (HolidayLoader.get_available_years _ _) as [ys|]; simpl;
    [|by destruct s1].
  destruct s1; simpl.
  match goal with |- context [int ?yv] => destruct (int yv) as [y|]; simpl; [|done] end.
  case_bool_decide; simpl;
    match goal with |- context [rebuild_tabs _ _ ?st] =>
      destruct (rebuild_tabs_spec st) as [Hc _]; unfold core in Hc;
      injection Hc as _ _ _ _ _ _ _ -> _ _ _ _ _ _
    end; done.
Qed.

(** Only a click can add a day to the selection. *)
Lemma handle_holidays1 e self :
  (∀ i, e ≠ Click i) →
  holidays1 (handle CURRENT_YEAR tcl_getint tcl_string e self).2 ⊆ holidays1 self.
Proof.
  intros Hclick. destruct e as [i|region response now|year|confirmed|now|text|]; simpl.
  - by destruct (Hclick i).
  - run. case_bool_decide; [|done]. unfold select_region. run.
    rewrite on_region_change_holidays1. by destruct self.
  - run. case_bool_decide; [|done]. unfold select_year, on_year_change. run.
    match goal with |- context [rebuild_tabs _ _ ?st] =>
      destruct (rebuild_tabs_spec st) as [Hc _]; unfold core in Hc;
      injection Hc as _ _ _ _ _ _ _ -> _ _ _ _ _ _
    end. by destruct self.
  - unfold reset_holidays. destruct confirmed; simpl; [|done].
    unfold bind at 1. unfold update at 1. unfold bind at 1. unfold update at 1.
    unfold bind at 1.
    match goal with |- context [update_labels _ ?st] =>
      destruct (update_labels_fields st) as (E1 & _);
      destruct (update_labels tcl_getint st) as [[[]|] s1]
    end; simpl in *; [|rewrite E1; by destruct self].
    run. destruct (int (year_var s1)) as [y|]; simpl; [|rewrite E1; by destruct self].
    destruct (create_calendar_for_frame_spec y s1) as [Hc _]. unfold core in Hc.
    injection Hc as _ _ _ _ _ _ _ -> _ _ _ _ _ _. rewrite E1. by destruct self.
  - pose proof (save_holidays_core now self) as Hs. simpl in Hs.
    destruct (save_holidays tcl_getint now self).2; simpl in *. by rewrite <-Hs.
  - by destruct self.
  - destruct (update_labels_fields self) as (-> & _). done.
Qed.


Lemma new_year y m d date : new y m d = Ok date → Datetime.year date = y.
Proof. unfold new. destruct (valid_date y m d); [|done]. by intros [= <-]. Qed.

(** C1: toggling a day of the active year that is not selected adds it, and
    counts it, exactly when the days taken are below the allowance plus the
    carryover; otherwise (in particular when they are equal) the planner is
    left as it was, but for the warning it shows. *)
Theorem toggle_add_within_allowance (self : t) (date : datetime) (button : nat)
    (y carryover : Z) :
  int (year_var self) = Ok y → Datetime.year date = y →
  date ∉ holidays1 self →
  IntVar_get tcl_getint (previous_year_var self) = Ok carryover →
  let self' := (toggle_holiday tcl_getint date button self).2 in
  (taken_holidays1 self < total_holidays self + carryover →
     holidays1 self' = {[ date ]} ∪ holidays1 self ∧
     taken_holidays1 self' = taken_holidays1 self + 1) ∧
  (total_holidays self + carryover ≤ taken_holidays1 self →
     self' = set_dialogs (dialogs self ++ [rejected_message]) self ∧
     holidays1 self' = holidays1 self ∧
     taken_holidays1 self' = taken_holidays1 self) ∧
  (date ∈ holidays1 self' ↔ taken_holidays1 self < total_holidays self + carryover).
Proof.
  intros Hy Hd Hnot Hc.
  destruct (toggle_add self date button y carryover Hy Hd Hnot Hc) as [Ha Hr].
  simpl. split; [|split].
  - intros Hlt. by destruct (Ha Hlt) as (? & ? & _).
  - intros Hge. rewrite (Hr Hge). by destruct self.
  - split.
    + intros Hin. destruct (decide (taken_holidays1 self < total_holidays self + carryover))
        as [|Hge]; [done|].
      rewrite Hr in Hin by lia. by destruct self.
    + intros Hlt. destruct (Ha Hlt) as (-> & _). set_solver.
Qed.

(** C2: the counter equals the size of the selection after loading, and
    toggling a day or resetting the year keeps it so; hence it holds in every
    state of a running planner. *)
Theorem taken_counts_selection (self : t) (date : datetime) (button : nat)
    (year_idx : Z) (confirmed : bool) :
  accounting_ok (load_holidays tcl_string self).2 ∧
  (accounting_ok self →
     accounting_ok (toggle_holiday tcl_getint date button self).2 ∧
     accounting_ok (reset_holidays CURRENT_YEAR tcl_getint year_idx confirmed self).2) ∧
  (reachable CURRENT_YEAR tcl_getint tcl_string self → accounting_ok self).
Proof.
  split; [|split].
  - by destruct (load_holidays_spec self) as (_ & ? & _).
  - intros Hacc. split; [by apply toggle_accounting|].
    unfold reset_holidays. destruct confirmed; simpl; [|done].
    unfold bind at 1. unfold update at 1. unfold bind at 1. unfold update at 1.
    unfold bind at 1.
    match goal with |- context [update_labels _ ?st] =>
      assert (accounting_ok st) as Hs0 by (destruct Hacc; split; by destruct self);
      destruct (update_labels_core st) as [Hc _];
      pose proof (accounting_ok_selection _ _ (core_selection _ _ Hc) Hs0) as Hs1;
      destruct (update_labels tcl_getint st) as [[[]|] s1]
    end; simpl in *; [|done].
    run. destruct (int (year_var s1)) as [y|]; simpl; [|done].
    destruct (create_calendar_for_frame_spec y s1) as [Hc' _].
    by apply (accounting_ok_selection _ _ (core_selection _ _ Hc')).
  - intros Hr. by destruct (reachable_planner_ok self Hr).
Qed.

(** C10: toggling a day of another year than the active one changes nothing
    but, possibly, the texts of the two labels. *)
Theorem toggle_other_year_noop (self : t) (date : datetime) (button : nat) (y : Z) :
  int (year_var self) = Ok y → Datetime.year date ≠ y →
  let self' := (toggle_holiday tcl_getint date button self).2 in
  same_but_labels self' self ∧
  holidays1 self' = holidays1 self ∧ holidays2 self' = holidays2 self ∧
  taken_holidays1 self' = taken_holidays1 self ∧
  taken_holidays2 self' = taken_holidays2 self.
Proof.
  intros Hy Hd. simpl. rewrite (toggle_other_year _ _ _ _ Hy Hd).
  split; [apply update_labels_frame|].
  by destruct (update_labels_fields self) as (? & ? & ? & ? & _).
Qed.


(** C4: when the loader answers and the year is one the calendar knows,
    [create_calendar_for_frame] puts up one button for every day of the year,
    and the button of a day is disabled, and without a command, exactly when
    the day is a Saturday, a Sunday or a public holiday of the year and region
    of the planner. *)
Theorem calendar_blocks_weekends_and_holidays (self : t) (y : Z)
    (ph : gset datetime) (ys : list Z) :
  HolidayLoader.get_holidays_for_year (holiday_loader self) y (region_var self) = Ok ph →
  HolidayLoader.get_available_years (holiday_loader self) (region_var self) = Ok ys →
  1 ≤ y ≤ 9999 →
  ∃ self' cal,
    create_calendar_for_frame CURRENT_YEAR y self = (Ok (), self') ∧
    calendar1 self' = Some cal ∧
    (CalendarWidget.buttons cal).*1 = year_dates y ∧
    (∀ m d, valid_date y m d = true →
       ∃ b, (Datetime.mk y m d 0 0 0 0, b) ∈ CalendarWidget.buttons cal) ∧
    (∀ d b, (d, b) ∈ CalendarWidget.buttons cal →
       Datetime.year d = y ∧
       (CalendarWidget.state b = CalendarWidget.DISABLED
        ↔ weekday d ∈ [5; 6] ∨ d ∈ ph) ∧
       (CalendarWidget.command b = None
        ↔ CalendarWidget.state b = CalendarWidget.DISABLED)).
Proof.
  intros Hph Hys Hy.
  set (w := CalendarWidget.init y (holidays1 self) ph (Some y) CURRENT_YEAR).
  destruct (create_calendar_spec w (init_calendar_ok _ _ _ _ _) Hy)
    as (cal & Hcal & Hok & (Ey & Eh & Ep & _) & Hb).
  simpl in Ey, Ep, Hb.
  assert (∃ self', create_calendar_for_frame CURRENT_YEAR y self = (Ok (), self') ∧
                   calendar1 self' = Some cal) as (self' & Hrun & Hc1).
  { unfold create_calendar_for_frame. run. rewrite Hph. simpl. rewrite Hys. simpl.
    case_bool_decide; simpl; fold w; rewrite Hcal; simpl; by eexists. }
  exists self', cal. split; [done|]. split; [done|]. split; [done|]. split.
  - intros m d Hv. pose proof (year_dates_complete y m d Hv) as Hin.
    rewrite <-Hb in Hin. apply list_elem_of_fmap in Hin as ([d' b] & -> & Hin).
    by exists b.
  - intros d b Hin. unfold calendar_ok in Hok. rewrite Forall_forall in Hok.
    destruct (Hok (d, b) Hin) as ((m & dd & Hnew) & Hst & Hnone & Hsome). simpl in *.
    rewrite Ey in Hnew. rewrite Ep in Hst.
    split; [by apply (new_year y m dd)|]. split; [done|]. split; [|done].
    destruct (CalendarWidget.state b); [|done]. by rewrite Hsome.
Qed.


Lemma sorted_head_min ys m rest :
  sorted ys = m :: rest → m ∈ ys ∧ ∀ z, z ∈ ys → m ≤ z.
Proof.
  unfold sorted. intros Hs.
  pose proof (merge_sort_Permutation Z.le ys) as Hp.
  pose proof (StronglySorted_merge_sort Z.le ys) as Hss.
  rewrite Hs in Hp, Hss. apply StronglySorted_inv in Hss as [_ Hle].
  split.
  - rewrite <-Hp. by left.
  - intros z Hz. rewrite <-Hp in Hz. apply elem_of_cons in Hz as [->|Hz]; [done|].
    rewrite Forall_forall in Hle. by apply Hle.
Qed.

Lemma sorted_nil ys : sorted ys = [] → ys = [].
Proof.
  unfold sorted. intros Hs. pose proof (merge_sort_Permutation Z.le ys) as Hp.
  rewrite Hs in Hp. by apply Permutation_nil_l in Hp.
Qed.

Lemma sorted_elem_of ys z : z ∈ sorted ys ↔ z ∈ ys.
Proof. unfold sorted. by rewrite merge_sort_Permutation. Qed.

Lemma save_holidays_storage now self :
  ∃ st, save_holidays tcl_getint now self = (Ok (), set_storage st self).
Proof.
  unfold save_holidays, try_pass. run.
  destruct (IntVar_get _ _); simpl; [by eexists|].
  exists (storage self). by destruct self.
Qed.

Lemma on_region_change_year self response now ys y :
  HolidayLoader.get_available_years (holiday_loader self) (region_var self) = Ok ys →
  int (year_var self) = Ok y →
  (holidays1 self = ∅ ∧ holidays2 self = ∅) ∨ response ≠ None →
  year_var (on_region_change CURRENT_YEAR tcl_getint tcl_string response now self).2
  = let years := if bool_decide (sorted ys = []) then [CURRENT_YEAR] else sorted ys in
    if bool_decide (y ∈ years) then year_var self else str (default 0 (head years)).
Proof.
  intros Hys Hy Hgo. unfold on_region_change.
  unfold bind at 1. unfold read at 1. unfold bind at 1. unfold read at 1.
  unfold bind at 1. unfold read at 1. unfold bind at 1.
  set (first := if _ : bool then _ else _).
  assert (∃ st, first self = (Ok false, set_storage st self)) as [st ->].
  { unfold first. destruct (_ || _) eqn:Hsel.
    - destruct response as [[]|].
      + unfold bind. destruct (save_holidays_storage now self) as [st ->].
        by exists st.
      + exists (storage self). by destruct self.
      + destruct Hgo as [[E1 E2]|?]; [|done]. rewrite E1, E2 in Hsel.
        by rewrite !bool_decide_eq_true_2 in Hsel by done.
    - exists (storage self). by destruct self. }
  run. rewrite Hys. simpl. rewrite Hy. simpl.
  assert (∀ s0, year_var (rebuild_tabs CURRENT_YEAR tcl_getint s0).2 = year_var s0) as Hrb.
  { intros s0. destruct (rebuild_tabs_spec s0) as [Hc _]. unfold core in Hc. congruence. }
  case_bool_decide as Hin; simpl; rewrite Hrb; by destruct self.
Qed.

(** C9, as the code has it: unless the change is cancelled, the selected
    year stays when the new region has it; otherwise it becomes the smallest
    year of the new region, or the current year when the region has none. *)
Theorem region_change_selected_year (self : t) (response : option bool)
    (now : datetime) (ys : list Z) (y : Z) :
  HolidayLoader.get_available_years (holiday_loader self) (region_var self) = Ok ys →
  int (year_var self) = Ok y →
  (holidays1 self = ∅ ∧ holidays2 self = ∅) ∨ response ≠ None →
  let self' :=
    (on_region_change CURRENT_YEAR tcl_getint tcl_string response now self).2 in
  (y ∈ ys → year_var self' = year_var self) ∧
  (y ∉ ys → ys ≠ [] →
     ∃ m, int (year_var self') = Ok m ∧ m ∈ ys ∧ ∀ z, z ∈ ys → m ≤ z) ∧
  (y ∉ ys → ys = [] → int (year_var self') = Ok CURRENT_YEAR).
Proof.
  intros Hys Hy Hgo self'. unfold self'.
  rewrite (on_region_change_year self response now ys y Hys Hy Hgo). simpl.
  split; [|split].
  - intros Hin.
    assert (sorted ys ≠ []) as Hnil.
    { intros Hnil. apply sorted_nil in Hnil. subst. by apply elem_of_nil in Hin. }
    rewrite (bool_decide_eq_false_2 (sorted ys = [])) by done.
    rewrite bool_decide_eq_true_2; [done|]. by apply sorted_elem_of.
  - intros Hnot Hne.
    assert (sorted ys ≠ []) as Hnil by (by intros Hnil%sorted_nil).
    rewrite (bool_decide_eq_false_2 (sorted ys = [])) by done.
    rewrite bool_decide_eq_false_2 by (by rewrite sorted_elem_of).
    rewrite int_str. destruct (sorted ys) as [|m rest] eqn:Hs; [done|]. simpl.
    exists m. split; [done|]. by apply (sorted_head_min ys m rest).
  - intros _ ->. rewrite (bool_decide_eq_true_2 (sorted [] = [])) by done.
    case_bool_decide as Hin.
    + apply list_elem_of_singleton in Hin. by subst.
    + simpl. apply int_str.
Qed.

End planner_theory.

(** ** Examples: the planner of 2025 *)
Section examples.
Import Py Datetime HolidayPlanner.

Lemma example_planner_up :
  HolidayPlanner.init 2025 no_getint no_string 30 "berlin"
     (HolidayLoader.Parsed example_config) (StorageManager.mk None true)
  = (Ok (), example_planner).
Proof.
  unfold example_planner.
  assert ((HolidayPlanner.init 2025 no_getint no_string 30 "berlin"
     (HolidayLoader.Parsed example_config) (StorageManager.mk None true)).1 = Ok ()) as H.
  { vm_compute. reflexivity. }
  destruct (init _ _ _ _ _ _ _) as [r s]. simpl in *. by subst.
Qed.

Lemma example_planner_reachable : reachable 2025 no_getint no_string example_planner.
Proof. eapply reachable_init. apply example_planner_up. Qed.





Lemma example_year : int (year_var example_planner) = Ok 2025.
Proof. vm_compute. reflexivity. Qed.

Lemma example_nothing_selected :
  holidays1 example_planner = ∅ ∧ holidays2 example_planner = ∅ ∧
  taken_holidays1 example_planner = 0 ∧ taken_holidays2 example_planner = 0 ∧
  total_holidays example_planner = 30 ∧ previous_year_var example_planner = JInt 0.
Proof.
  split; [vm_compute; reflexivity|]. split; [vm_compute; reflexivity|].
  split; [vm_compute; reflexivity|]. split; [vm_compute; reflexivity|].
  split; vm_compute; reflexivity.
Qed.

Lemma toggle_add_within_allowance_witness :
  let self' := (toggle_holiday no_getint bastille_2025 194 example_planner).2 in
  holidays1 self' = {[ bastille_2025 ]} ∪ holidays1 example_planner ∧
  taken_holidays1 self' = taken_holidays1 example_planner + 1.
Proof.
  destruct example_nothing_selected as (E1 & E2 & E3 & E4 & E5 & E6).
  destruct (toggle_add_within_allowance no_getint example_planner bastille_2025 194 2025 0)
    as (Hadd & _).
  - apply example_year.
  - reflexivity.
  - rewrite E1. apply not_elem_of_empty.
  - rewrite E6. reflexivity.
  - apply Hadd. rewrite E3, E5. clear. lia.
Defined.

Lemma taken_counts_selection_witness :
  accounting_ok example_planner ∧
  accounting_ok (toggle_holiday no_getint bastille_2025 194 example_planner).2 ∧
  accounting_ok (reset_holidays 2025 no_getint 1 true example_planner).2.
Proof.
  assert (accounting_ok example_planner) as Hok.
  { destruct example_nothing_selected as (E1 & E2 & E3 & E4 & _).
    unfold accounting_ok. rewrite E1, E2, E3, E4. clear. split; reflexivity. }
  split; [exact Hok|].
  destruct (taken_counts_selection 2025 no_getint no_string example_planner
              bastille_2025 194 1 true) as (_ & Hkeep & _).
  exact (Hkeep Hok).
Defined.

Lemma toggle_other_year_noop_witness :
  let self' := (toggle_holiday no_getint (Datetime.mk 2026 1 2 0 0 0 0) 1 example_planner).2 in
  same_but_labels self' example_planner ∧
  holidays1 self' = holidays1 example_planner ∧
  holidays2 self' = holidays2 example_planner ∧
  taken_holidays1 self' = taken_holidays1 example_planner ∧
  taken_holidays2 self' = taken_holidays2 example_planner.
Proof.
  assert (Datetime.year (Datetime.mk 2026 1 2 0 0 0 0) ≠ 2025) as Hyear by (simpl; lia).
  exact (toggle_other_year_noop no_getint example_planner (Datetime.mk 2026 1 2 0 0 0 0) 1 2025
           example_year Hyear).
Defined.

Lemma calendar_blocks_weekends_and_holidays_witness :
  ∃ self' cal,
    create_calendar_for_frame 2025 2025 (region_picked "berlin") = (Ok (), self') ∧
    calendar1 self' = Some cal ∧
    (CalendarWidget.buttons cal).*1 = year_dates 2025 ∧
    (∀ m d, valid_date 2025 m d = true →
       ∃ b, (Datetime.mk 2025 m d 0 0 0 0, b) ∈ CalendarWidget.buttons cal) ∧
    (∀ d b, (d, b) ∈ CalendarWidget.buttons cal →
       Datetime.year d = 2025 ∧
       (CalendarWidget.state b = CalendarWidget.DISABLED
        ↔ weekday d ∈ [5; 6] ∨ d ∈ berlin_2025) ∧
       (CalendarWidget.command b = None
        ↔ CalendarWidget.state b = CalendarWidget.DISABLED)).
Proof.
  assert (HolidayLoader.get_holidays_for_year (holiday_loader (region_picked "berlin"))
            2025 (region_var (region_picked "berlin")) = Ok berlin_2025) as Hph
    by by_evaluation.
  assert (HolidayLoader.get_available_years (holiday_loader (region_picked "berlin"))
            (region_var (region_picked "berlin")) = Ok [2025; 2026]) as Hys
    by by_evaluation.
  assert (1 ≤ 2025 ≤ 9999) as Hy by lia.
  exact (calendar_blocks_weekends_and_holidays 2025 (region_picked "berlin") 2025
           berlin_2025 [2025; 2026] Hph Hys Hy).
Defined.

Lemma get_holiday_name_first_match_witness :
  HolidayLoader.get_holiday_name (HolidayLoader.mk example_config)
    (Datetime.mk 2025 12 25 10 30 0 0) "berlin"
  = Ok (JStr "1. Weihnachtstag").
Proof.
  pose proof (get_holiday_name_first_match (HolidayLoader.mk example_config)
                (Datetime.mk 2025 12 25 10 30 0 0) "berlin" _ eq_refl) as (_ & Hregion).
  destruct (Hregion _ eq_refl) as (_ & Hyear).
  destruct (Hyear _ eq_refl) as (_ & Hfirst).
  eapply (Hfirst [_] _ [_; _]).
  - reflexivity.
  - apply Forall_singleton. eexists. split; [reflexivity|].
    intros v [= <-]. by eexists.
  - apply Forall_singleton. intros (d & Hd & Heq).
    vm_compute in Hd. injection Hd as <-. discriminate Heq.
  - eexists. split; [vm_compute; reflexivity|reflexivity].
  - reflexivity.
Defined.

Lemma region_change_selected_year_witness :
  ∃ m, int (year_var (on_region_change 2025 no_getint no_string (Some false)
                        christmas_2025 (region_picked "bavaria")).2) = Ok m ∧
       m ∈ [2027; 2026] ∧ ∀ z, z ∈ [2027; 2026] → m ≤ z.
Proof.
  destruct (region_change_selected_year 2025 no_getint no_string (region_picked "bavaria")
              (Some false) christmas_2025 [2027; 2026] 2025) as (_ & Hfall & _).
  - vm_compute. reflexivity.
  - vm_compute. reflexivity.
  - by right.
  - apply Hfall; [|done]. intros Hin. repeat (apply elem_of_cons in Hin as [?|Hin]; [lia|]).
    by apply elem_of_nil in Hin.
Defined.

(** C9 fails as worded for a region without years: there is no first
    available year to fall back to, and the planner takes the current year. *)
Lemma region_change_no_years_counterexample :
  int (year_var (on_region_change 2026 no_getint no_string (Some false)
                   christmas_2025 (region_picked "hamburg")).2) = Ok 2026 ∧
  ¬ region_change_as_claimed 2026 no_getint no_string (region_picked "hamburg")
      (Some false) christmas_2025.
Proof.
  split; [vm_compute; reflexivity|].
  intros Hclaim. destruct (Hclaim [] 2025) as (_ & Hfall).
  - vm_compute. reflexivity.
  - vm_compute. reflexivity.
  - destruct Hfall as (m & Hm & _); [apply not_elem_of_nil|]. discriminate Hm.
Qed.

(** C6: an entry whose date is not a string makes the whole call raise
    [TypeError]; the entry is not skipped and the entries after it are not
    read. *)
Theorem get_holidays_for_year_non_string_date :
  HolidayLoader.get_holidays_for_year (HolidayLoader.mk misdated_config) 2025 "berlin"
  = Raise TypeError.
Proof. vm_compute. reflexivity. Qed.

(** The scenario of the specification: with an allowance of 30 and no
    carryover, thirty working days are booked one after the other; the
    thirty-first is turned down with a warning and nothing else changes. *)
Example allowance_scenario :
  let booked := click_all thirty_working_days example_planner in
  let after := (click no_getint thirty_first_working_day booked).2 in
  taken_holidays1 booked = 30 ∧ size (holidays1 booked) = 30%nat ∧
  taken_holidays1 after = 30 ∧ holidays1 after = holidays1 booked ∧
  dialogs after = [rejected_message].
Proof. intros booked after. unfold after, booked. by_evaluation. Qed.

End examples.

Section widget_layout.
Import Py Datetime CalendarWidget.

Lemma weekday_of_month y m d :
  weekday (Datetime.mk y m d 0 0 0 0)
  = (weekday (Datetime.mk y m 1 0 0 0 0) + d - 1) `mod` 7.
Proof.
  unfold weekday, toordinal, ymd2ord. simpl.
  rewrite <-Z.add_sub_assoc, Z.add_mod_idemp_l by done. f_equal. lia.
Qed.

Lemma next_cell {A} (x : A) row col o :
  row = 3 + o `div` 7 → col = o `mod` 7 + 1 →
  (if bool_decide (7 < col + 1) then Ok (x, row + 1, 1) else Ok (x, row, col + 1))
  = Ok (x, 3 + (o + 1) `div` 7, (o + 1) `mod` 7 + 1).
Proof.
  intros -> ->.
  pose proof (Z.div_mod o 7 ltac:(done)) as Ho.
  pose proof (Z.mod_pos_bound o 7 ltac:(done)) as Hr.
  set (q := o `div` 7) in *. set (r := o `mod` 7) in *.
  case_bool_decide.
  - destruct (div_mod_eq (o + 1) 7 (q + 1) 0) as [-> ->]; [lia|lia|]. do 3 f_equal. lia.
  - destruct (div_mod_eq (o + 1) 7 q (r + 1)) as [-> ->]; [lia|lia|]. done.
Qed.

Lemma day_cell_eq y m d :
  day_cell (Datetime.mk y m d 0 0 0 0)
  = let o := weekday (Datetime.mk y m 1 0 0 0 0) + d - 1 in (3 + o `div` 7, o `mod` 7 + 1).
Proof. unfold day_cell. simpl. by rewrite (weekday_of_month y m d). Qed.

Lemma create_day_layout month day self row col :
  widget_ok self →
  valid_date (year self) month day = true →
  Datetime.mk (year self) month day 0 0 0 0 ∉ (buttons self).*1 →
  (row, col) = day_cell (Datetime.mk (year self) month day 0 0 0 0) →
  ∃ st', create_day month day (self, row, col) = Ok st' ∧
    widget_ok st'.1.1 ∧
    (st'.1.2, st'.2) = day_cell (Datetime.mk (year self) month (day + 1) 0 0 0 0).
Proof.
  intros (Hlay & Hcol & Hreg & Hnd) Hv Hfresh Hcell.
  unfold create_day, new. rewrite Hv. simpl.
  rewrite day_cell_eq in Hcell. simpl in Hcell. injection Hcell as Hrow Hc.
  set (date := Datetime.mk (year self) month day 0 0 0 0) in *.
  match goal with |- context [if ?c then add_button date ?b1 self else ?s2] =>
    set (self' := if c then add_button date b1 self else s2) end.
  rewrite (next_cell self' row col _ Hrow Hc).
  eexists. split; [reflexivity|]. simpl. split.
  2:{ rewrite day_cell_eq. simpl. do 3 f_equal; lia. }
  assert (day_cell date = (row, col)) as Hdc.
  { unfold date. rewrite day_cell_eq. simpl. by rewrite Hrow, Hc. }
  unfold self'. destruct (_ || _) eqn:Hb.
  - split; [|split; [|split]]; simpl.
    + apply Forall_app. split; [done|]. apply Forall_singleton. by repeat split.
    + apply Forall_app. split; [done|]. apply Forall_singleton.
      unfold day_button_coloured. simpl. by rewrite andb_false_r.
    + unfold registry_ok. simpl. intros d i. rewrite (Hreg d i). split.
      * intros (b & Hb' & ?). exists b. split; [|done]. by apply lookup_app_l_Some.
      * intros (b & Hb' & Hst). exists b. split; [|done].
        apply lookup_app_Some in Hb' as [?|[_ Hb']]; [done|].
        apply list_lookup_singleton_Some in Hb' as [_ [= <- <-]]. done.
    + rewrite fmap_app. apply NoDup_app. split; [done|]. split; [|apply NoDup_singleton].
      intros x Hx ->%list_elem_of_singleton. done.
  - split; [|split; [|split]]; simpl.
    + apply Forall_app. split; [done|]. apply Forall_singleton. by repeat split.
    + apply Forall_app. split; [done|]. apply Forall_singleton.
      unfold day_button_coloured. simpl. rewrite andb_true_r. by case_bool_decide.
    + unfold registry_ok. simpl. intros d i. split.
      * intros [[<- <-]|[Hne Hold]]%lookup_insert_Some.
        -- eexists. split.
           { rewrite lookup_app_r by done. rewrite Nat.sub_diag. reflexivity. }
           reflexivity.
        -- apply Hreg in Hold as (b & Hb' & ?). exists b. split; [|done].
           by apply lookup_app_l_Some.
      * intros (b & Hb' & Hst).
        apply lookup_app_Some in Hb' as [Hb'|[Hlen Hb']].
        -- rewrite lookup_insert_ne.
           ++ apply Hreg. by exists b.
           ++ intros <-. apply Hfresh. apply list_elem_of_fmap. exists (date, b).
              split; [done|]. by eapply list_elem_of_lookup_2.
        -- apply list_lookup_singleton_Some in Hb' as [Hi [= <- <-]].
           replace i with (length (buttons self)) by lia. apply lookup_insert_eq.
    + rewrite fmap_app. apply NoDup_app. split; [done|]. split; [|apply NoDup_singleton].
      intros x Hx ->%list_elem_of_singleton. done.
Qed.

Lemma create_days_layout month (n : nat) a st :
  widget_ok st.1.1 → calendar_ok st.1.1 →
  (∀ x, a ≤ x < a + Z.of_nat n → valid_date (year st.1.1) month x = true) →
  (∀ x, a ≤ x → Datetime.mk (year st.1.1) month x 0 0 0 0 ∉ (buttons st.1.1).*1) →
  (st.1.2, st.2) = day_cell (Datetime.mk (year st.1.1) month a 0 0 0 0) →
  ∃ st', for_each (seqZ a (Z.of_nat n)) (create_day month) st = Ok st' ∧ widget_ok st'.1.1.
Proof.
  revert a st. induction n as [|n IH]; intros a [[self row] col] Hw Hok Hv Hfresh Hcell;
    simpl in Hw, Hok, Hv, Hfresh, Hcell.
  - exists (self, row, col). done.
  - rewrite seqZ_cons by lia. cbn [for_each].
    replace (Z.pred (Z.of_nat (S n))) with (Z.of_nat n) by lia.
    destruct (create_day_layout month a self row col Hw) as (st1 & Hst1 & Hw1 & Hcell1);
      [apply Hv; lia|apply Hfresh; lia|done|].
    destruct (create_day_spec month a self row col Hok) as (st1' & Hst1' & Hok1 & Hs1 & Hb1);
      [apply Hv; lia|].
    assert (st1' = st1) as -> by congruence. rewrite Hst1. simpl.
    destruct Hs1 as (Hy1 & _).
    apply IH; rewrite ?Hy1; [done|done| | |done].
    + intros x Hx. apply Hv. lia.
    + intros x Hx. rewrite Hb1. intros [Hin|Hin%list_elem_of_singleton]%elem_of_app.
      * revert Hin. apply Hfresh. lia.
      * injection Hin as Hin. lia.
Qed.

Lemma _create_month_layout month r c w h self :
  widget_ok self → calendar_ok self → 1 ≤ year self ≤ 9999 → 1 ≤ month ≤ 12 →
  (∀ d, d ∈ (buttons self).*1 → Datetime.month d ≠ month) →
  ∃ self', _create_month month r c w h self = Ok self' ∧ widget_ok self'.
Proof.
  intros Hw Hok Hy Hm Hfresh. unfold _create_month.
  assert (1 ≤ days_in_month (year self) month) as Hdim.
  { unfold days_in_month. destruct (_ && _); [lia|].
    revert Hm. generalize month. apply (Z_range_cases _ 1 12). unroll_seqZ.
    repeat (apply List.Forall_cons; [simpl; lia|]). apply List.Forall_nil. }
  assert (new (year self) month 1 = Ok (Datetime.mk (year self) month 1 0 0 0 0)) as ->.
  { unfold new, valid_date, MINYEAR, MAXYEAR. by rewrite !bool_decide_eq_true_2 by lia. }
  simpl.
  assert ((if bool_decide (month = 12) then Ok 31
           else next ← new (year self) (month + 1) 1; last ← sub_days next 1; Ok (day last))
          = Ok (days_in_month (year self) month)) as ->.
  { case_bool_decide as H12; [by subst|]. apply last_day_of_month; lia. }
  simpl.
  destruct (create_days_layout month (Z.to_nat (days_in_month (year self) month)) 1
              (self, 3, weekday (Datetime.mk (year self) month 1 0 0 0 0) + 1) Hw Hok)
    as (st' & Hst' & Hw').
  - intros x Hx. simpl. unfold valid_date, MINYEAR, MAXYEAR.
    by rewrite !bool_decide_eq_true_2 by lia.
  - intros x _ Hin. by apply Hfresh in Hin.
  - simpl. rewrite day_cell_eq. simpl. rewrite Z.add_simpl_r.
    pose proof (Z.mod_pos_bound (toordinal (Datetime.mk (year self) month 1 0 0 0 0) + 6) 7
                  ltac:(done)) as Hwd.
    fold (weekday (Datetime.mk (year self) month 1 0 0 0 0)) in Hwd.
    by rewrite Z.div_small, Z.mod_small by lia.
  - rewrite Z2Nat.id in Hst' by lia. rewrite Hst'. simpl. by exists st'.1.1.
Qed.

Lemma create_months_layout (idxs : list Z) self :
  widget_ok self → calendar_ok self → 1 ≤ year self ≤ 9999 →
  (∀ i, i ∈ idxs → 0 ≤ i ≤ 11) → NoDup idxs →
  (∀ d i, d ∈ (buttons self).*1 → i ∈ idxs → Datetime.month d ≠ i + 1) →
  ∃ self',
    for_each idxs
      (λ m_idx self, _create_month (m_idx + 1) (m_idx `div` 4 + 3) (m_idx `mod` 4) 200 210 self)
      self = Ok self' ∧
    widget_ok self'.
Proof.
  revert self. induction idxs as [|i idxs IH]; intros self Hw Hok Hy Hi Hnd Hfresh;
    cbn [for_each].
  - by exists self.
  - apply NoDup_cons in Hnd as [Hi' Hnd].
    assert (0 ≤ i ≤ 11) as Hi11 by (apply Hi; by left).
    destruct (_create_month_layout (i + 1) (i `div` 4 + 3) (i `mod` 4) 200 210 self Hw Hok Hy)
      as (s1 & Hs1 & Hw1); [lia| |].
    { intros d Hd. apply (Hfresh d i Hd). by left. }
    destruct (_create_month_spec (i + 1) (i `div` 4 + 3) (i `mod` 4) 200 210 self Hok Hy)
      as (s1' & Hs1' & Hok1 & (Hy1 & _) & Hb1); [lia|].
    assert (s1' = s1) as -> by congruence. rewrite Hs1. simpl.
    apply IH; rewrite ?Hy1; [done|done|done| |done|].
    + intros j Hj. apply Hi. by right.
    + intros d j Hd Hj. rewrite Hb1 in Hd. apply elem_of_app in Hd as [Hd|Hd].
      * apply (Hfresh d j Hd). by right.
      * unfold month_dates in Hd. apply list_elem_of_fmap in Hd as (x & -> & _). simpl.
        intros ?. apply Hi'. by replace i with j by lia.
Qed.

(** What [create_calendar] builds for a year the calendar knows. *)
Lemma create_calendar_layout y h ph by_ cy :
  1 ≤ y ≤ 9999 →
  ∃ cal, create_calendar (init y h ph by_ cy) = Ok cal ∧
    calendar_ok cal ∧ widget_ok cal ∧ same_setup cal (init y h ph by_ cy) ∧
    (buttons cal).*1 = year_dates y.
Proof.
  intros Hy.
  destruct (create_calendar_spec (init y h ph by_ cy)) as (cal & Hcal & Hok & Hs & Hb);
    [apply init_calendar_ok|done|].
  exists cal. split; [done|]. split; [done|]. split; [|done].
  destruct (create_months_layout (seqZ 0 12) (init y h ph by_ cy)) as (cal' & Hcal' & Hw).
  - split; [constructor|]. split; [constructor|]. split; [|constructor].
    intros d i. simpl. rewrite lookup_empty. split; [done|]. by intros (b & ? & _).
  - apply init_calendar_ok.
  - done.
  - intros i Hi%elem_of_seqZ. lia.
  - apply NoDup_seqZ.
  - intros d i Hd. by apply elem_of_nil in Hd.
  - unfold create_calendar in Hcal. by replace cal with cal' by congruence.
Qed.



Lemma year_dates_fields y d :
  d ∈ year_dates y →
  Datetime.year d = y ∧ 1 ≤ month d ≤ 12 ∧ 1 ≤ day d ≤ 31 ∧ midnight d = d ∧
  (1 ≤ y ≤ 9999 → valid d).
Proof.
  unfold year_dates. intros (m & Hd & Hm%elem_of_seqZ)%list_elem_of_bind.
  unfold month_dates in Hd. apply list_elem_of_fmap in Hd as (x & -> & Hx%elem_of_seqZ).
  simpl. split; [done|]. split; [lia|].
  assert (days_in_month y m ≤ 31) as Hdim.
  { unfold days_in_month. destruct (_ && _); [lia|].
    assert (1 ≤ m ≤ 12) as Hm' by lia.
    revert Hm'. generalize m. apply (Z_range_cases _ 1 12). unroll_seqZ.
    repeat (apply List.Forall_cons; [simpl; lia|]). apply List.Forall_nil. }
  split; [lia|]. split; [done|]. intros Hy.
  unfold valid, valid_date, MINYEAR, MAXYEAR. simpl.
  by rewrite !bool_decide_eq_true_2 by lia.
Qed.

Lemma create_calendar_year self cal :
  create_calendar self = Ok cal → 1 ≤ year self ≤ 9999.
Proof.
  intros Hcal. destruct (decide (1 ≤ year self ≤ 9999)) as [|Hy]; [done|].
  rewrite (create_calendar_bad_year self Hy) in Hcal. done.
Qed.



(** X2: every day button is in the frame of its month, shows the number of
    its day, and sits in the column of its weekday (Monday in column 1, under
    the header of that day) and in the row of its week of the month, the
    first week in row 3; a month takes at most six rows. *)
Theorem day_button_grid_cell (y : Z) (h ph : gset datetime) (by_ : option Z) (cy : Z) :
  1 ≤ y ≤ 9999 →
  ∃ cal, create_calendar (init y h ph by_ cy) = Ok cal ∧
    ∀ d b, (d, b) ∈ buttons cal →
      master b = month d ∧ text b = str (day d) ∧
      grid_column b = weekday d + 1 ∧
      grid_row b = 3 + (weekday (Datetime.mk y (month d) 1 0 0 0 0) + day d - 1) `div` 7 ∧
      1 ≤ grid_column b ≤ 7 ∧ 3 ≤ grid_row b ≤ 8.
Proof.
  intros Hy.
  destruct (create_calendar_layout y h ph by_ cy Hy) as (cal & Hcal & _ & Hw & _ & Hb).
  exists cal. split; [done|]. intros d b Hdb.
  destruct Hw as (Hlay & _).
  rewrite Forall_forall in Hlay. destruct (Hlay _ Hdb) as (Hm & Ht & Hcell).
  assert (d ∈ year_dates y) as Hd.
  { rewrite <-Hb. apply list_elem_of_fmap. by exists (d, b). }
  apply year_dates_fields in Hd as (Hyear & Hmonth & Hday & _).
  simpl in Hm, Ht, Hcell. unfold day_cell in Hcell. rewrite Hyear in Hcell.
  injection Hcell as Hrow Hcolumn.
  split; [done|]. split; [done|]. split; [done|]. split; [done|].
  pose proof (Z.mod_pos_bound (toordinal d + 6) 7 ltac:(done)) as Hwd.
  pose proof (Z.mod_pos_bound
                (toordinal (Datetime.mk y (month d) 1 0 0 0 0) + 6) 7 ltac:(done)) as Hwf.
  fold (weekday d) in Hwd. fold (weekday (Datetime.mk y (month d) 1 0 0 0 0)) in Hwf.
  split; [lia|]. rewrite Hrow.
  set (o := weekday (Datetime.mk y (month d) 1 0 0 0 0) + day d - 1).
  assert (0 ≤ o `div` 7) by (apply Z.div_pos; lia).
  assert (o `div` 7 < 6) by (apply Z.div_lt_upper_bound; lia).
  lia.
Qed.

Lemma day_button_grid_cell_witness :
  ∃ cal, create_calendar (init 2025 ∅ ∅ None 2025) = Ok cal ∧
    ∀ d b, (d, b) ∈ buttons cal →
      master b = month d ∧ text b = str (day d) ∧
      grid_column b = weekday d + 1 ∧
      grid_row b = 3 + (weekday (Datetime.mk 2025 (month d) 1 0 0 0 0) + day d - 1) `div` 7 ∧
      1 ≤ grid_column b ≤ 7 ∧ 3 ≤ grid_row b ≤ 8.
Proof. apply (day_button_grid_cell 2025 ∅ ∅ None 2025). lia. Defined.

(** X3: a new calendar highlights exactly the selected days that can be
    booked: the button of a day of the selection that is not blocked has the
    selection colour (the darker one when the calendar is for its base
    year), and no other button has a background colour. *)
Theorem selected_days_highlighted (y : Z) (h ph : gset datetime) (by_ : option Z) (cy : Z) :
  1 ≤ y ≤ 9999 →
  ∃ cal, create_calendar (init y h ph by_ cy) = Ok cal ∧
    ∀ d b, (d, b) ∈ buttons cal →
      (d ∈ h → ¬ blocked ph d →
         bg b = Some (if bool_decide (y = default cy by_) then "#307CAF" else "#6EC6FF")) ∧
      (d ∉ h ∨ blocked ph d → bg b = None).
Proof.
  intros Hy.
  destruct (create_calendar_layout y h ph by_ cy Hy)
    as (cal & Hcal & Hok & Hw & (Hcy & Hch & Hcp & Hcb) & Hb).
  exists cal. split; [done|]. intros d b Hdb.
  destruct Hw as (_ & Hcol & _).
  rewrite Forall_forall in Hcol. specialize (Hcol _ Hdb).
  unfold calendar_ok in Hok. rewrite Forall_forall in Hok.
  destruct (Hok _ Hdb) as (_ & Hblocked & _).
  unfold day_button_coloured, selected_colour in Hcol.
  rewrite Hch, Hcy, Hcb, Hcp in *. simpl in *. rewrite Hcol. split.
  - intros Hd Hnb. rewrite bool_decide_eq_true_2 by done.
    rewrite bool_decide_eq_true_2; [done|]. destruct (state b); [done|].
    destruct Hnb. by apply Hblocked.
  - intros [Hd|Hbl].
    + by rewrite bool_decide_eq_false_2.
    + apply Hblocked in Hbl. rewrite Hbl. by rewrite andb_false_r.
Qed.

Lemma selected_days_highlighted_witness :
  ∃ cal, create_calendar (init 2025 {[ bastille_2025 ]} berlin_2025 (Some 2025) 2025) = Ok cal ∧
    ∀ d b, (d, b) ∈ buttons cal →
      (d ∈ ({[ bastille_2025 ]} : gset datetime) → ¬ blocked berlin_2025 d →
         bg b = Some (if bool_decide (2025 = default 2025 (Some 2025))
                      then "#307CAF" else "#6EC6FF")) ∧
      (d ∉ ({[ bastille_2025 ]} : gset datetime) ∨ blocked berlin_2025 d → bg b = None).
Proof. apply (selected_days_highlighted 2025 {[ bastille_2025 ]} berlin_2025 (Some 2025) 2025). lia. Defined.


(** X4: [day_buttons] registers the buttons of the days that can be booked,
    so [update_button_color] changes the background of the button of such a
    day and of no other button, and does nothing for a blocked day, for a day
    of another year, or once [clear] has emptied the registry. *)
Theorem update_button_color_one_button (y : Z) (h ph : gset datetime)
    (by_ : option Z) (cy : Z) :
  1 ≤ y ≤ 9999 →
  ∃ cal, create_calendar (init y h ph by_ cy) = Ok cal ∧
    ∀ d is_selected,
      (blocked ph d ∨ d ∉ year_dates y → update_button_color d is_selected cal = cal) ∧
      (d ∈ year_dates y → ¬ blocked ph d →
         ∃ i b, buttons cal !! i = Some (d, b) ∧
           buttons (update_button_color d is_selected cal)
           = <[ i := (d, mkButton (master b) (text b) (state b) (command b)
                        (Some (if is_selected
                               then if bool_decide (y = default cy by_)
                                    then "#307CAF" else "#6EC6FF"
                               else "SystemButtonFace"))
                        (grid_row b) (grid_column b)) ]> (buttons cal)) ∧
      update_button_color d is_selected (clear cal) = clear cal.
Proof.
  intros Hy.
  destruct (create_calendar_layout y h ph by_ cy Hy)
    as (cal & Hcal & Hok & Hw & (Hcy & Hch & Hcp & Hcb) & Hb).
  exists cal. split; [done|]. intros d sel.
  destruct Hw as (_ & _ & Hreg & _).
  unfold calendar_ok in Hok. rewrite Forall_forall in Hok. simpl in Hcy, Hcp, Hcb.
  split; [|split; [|done]].
  - intros Hd. unfold update_button_color.
    destruct (day_buttons cal !! d) as [i|] eqn:Hi; [|done].
    apply Hreg in Hi as (b & Hi & Hst).
    assert ((d, b) ∈ buttons cal) as Hdb by by eapply list_elem_of_lookup_2.
    destruct Hd as [Hbl|Hny].
    + destruct (Hok _ Hdb) as (_ & Hblocked & _). simpl in Hblocked.
      rewrite Hcp in Hblocked. apply Hblocked in Hbl. congruence.
    + destruct Hny. rewrite <-Hb. apply list_elem_of_fmap. by exists (d, b).
  - intros Hd Hnb. rewrite <-Hb in Hd.
    apply list_elem_of_fmap in Hd as ([d' b] & -> & Hdb). simpl in *.
    destruct (Hok _ Hdb) as (_ & Hblocked & _). simpl in Hblocked. rewrite Hcp in Hblocked.
    assert (state b = NORMAL) as Hst.
    { destruct (state b); [done|]. destruct Hnb. by apply Hblocked. }
    apply list_elem_of_lookup in Hdb as (i & Hi).
    exists i, b. split; [done|].
    assert (day_buttons cal !! d' = Some i) as Hreg' by (apply Hreg; by exists b).
    unfold update_button_color, selected_colour. rewrite Hreg', Hcy, Hcb.
    rewrite list_insert_alter.
    destruct sel; unfold config_bg; simpl; apply list_alter_ext; try done;
      intros [d'' b''] Hi'; rewrite Hi in Hi'; by injection Hi' as <- <-.
Qed.

Lemma update_button_color_one_button_witness :
  ∃ cal, create_calendar (init 2025 ∅ berlin_2025 (Some 2025) 2025) = Ok cal ∧
    ∀ d is_selected,
      (blocked berlin_2025 d ∨ d ∉ year_dates 2025
         → update_button_color d is_selected cal = cal) ∧
      (d ∈ year_dates 2025 → ¬ blocked berlin_2025 d →
         ∃ i b, buttons cal !! i = Some (d, b) ∧
           buttons (update_button_color d is_selected cal)
           = <[ i := (d, mkButton (master b) (text b) (state b) (command b)
                        (Some (if is_selected
                               then if bool_decide (2025 = default 2025 (Some 2025))
                                    then "#307CAF" else "#6EC6FF"
                               else "SystemButtonFace"))
                        (grid_row b) (grid_column b)) ]> (buttons cal)) ∧
      update_button_color d is_selected (clear cal) = clear cal.
Proof. apply (update_button_color_one_button 2025 ∅ berlin_2025 (Some 2025) 2025). lia. Defined.

End widget_layout.

Section loader_queries.
Import Py Datetime HolidayLoader.







Lemma mapM_int_elem ks ys k z :
  mapM int ks = Ok ys → k ∈ ks → int k = Ok z → z ∈ ys.
Proof.
  revert ys. induction ks as [|a ks IH]; intros ys Hys Hk Hz; [by apply elem_of_nil in Hk|].
  cbn [mapM] in Hys. destruct (int a) as [za|] eqn:Ha; [|done]. simpl in Hys.
  destruct (mapM int ks) as [ys'|] eqn:Hks; [|done]. simpl in Hys. injection Hys as <-.
  apply elem_of_cons in Hk as [->|Hk].
  - replace z with za by congruence. by left.
  - right. by apply IH.
Qed.

Lemma dict_lookup_keys key entries v :
  dict_lookup key entries = Some v → key ∈ entries.*1.
Proof.
  unfold dict_lookup. intros ([k v'] & Hfind & _)%fmap_Some.
  apply find_some in Hfind as [Hin Hk%bool_decide_eq_true]. simpl in Hk. subst k.
  apply list_elem_of_fmap. exists (key, v'). split; [done|]. by apply list_elem_of_In.
Qed.

(** A year that is not among the available years of a region is not a key of
    the region's object. *)
Lemma unavailable_year_not_listed self region ys y :
  get_available_years self region = Ok ys → y ∉ ys →
  contains (holidays_data self) region = Ok false ∨
  ∃ years, contains (holidays_data self) region = Ok true ∧
           getitem (holidays_data self) region = Ok (JDict years) ∧
           dict_lookup (str y) years = None.
Proof.
  unfold get_available_years. intros Hys Hy.
  destruct (contains (holidays_data self) region) as [[]|]; [|by left|done].
  right. simpl in Hys.
  destruct (getitem (holidays_data self) region) as [by_year|]; [|done]. simpl in Hys.
  destruct by_year as [| | | | | |years]; try done. simpl in Hys.
  exists years. split; [done|]. split; [done|].
  destruct (dict_lookup (str y) years) as [v|] eqn:Hv; [|done].
  destruct Hy. eapply mapM_int_elem; [done| |apply int_str].
  by eapply dict_lookup_keys.
Qed.

(** X6: a year that is not among the available years of a region has no
    public holidays there, and none of its days has a holiday name. *)
Theorem unavailable_year_no_holidays (self : t) (region : string) (ys : list Z)
    (date : datetime) :
  get_available_years self region = Ok ys → Datetime.year date ∉ ys →
  get_holidays_for_year self (Datetime.year date) region = Ok ∅ ∧
  get_holiday_name self date region = Ok JNull.
Proof.
  intros Hys Hy. unfold get_holidays_for_year, get_holiday_name.
  destruct (unavailable_year_not_listed self region ys _ Hys Hy)
    as [->|(years & -> & -> & Hnone)]; [done|].
  simpl. rewrite Hnone. by rewrite bool_decide_eq_false_2 by by intros [].
Qed.

Lemma unavailable_year_no_holidays_witness :
  get_holidays_for_year (mk example_config) 2027 "berlin" = Ok ∅ ∧
  get_holiday_name (mk example_config) (Datetime.mk 2027 12 25 0 0 0 0) "berlin" = Ok JNull.
Proof.
  apply (unavailable_year_no_holidays (mk example_config) "berlin" [2025; 2026]
           (Datetime.mk 2027 12 25 0 0 0 0)).
  - reflexivity.
  - simpl. intros Hin. repeat (apply elem_of_cons in Hin as [?|Hin]; [lia|]).
    by apply elem_of_nil in Hin.
Defined.

Lemma strptime_ymd_valid s d : strptime_ymd s = Ok d → valid d ∧ midnight d = d.
Proof.
  unfold strptime_ymd. destruct (re_ymd s) as [|[[[y m] dd] [|]] ?]; try done.
  unfold new. destruct (valid_date y m dd) eqn:Hv; [|done]. intros [= <-]. by split.
Qed.





Lemma strptime_valid v d : strptime v = Ok d → valid d ∧ midnight d = d.
Proof. destruct v; try done. apply strptime_ymd_valid. Qed.

Lemma add_holiday_grows e (acc acc' : gset datetime) :
  add_holiday e acc = Ok acc' →
  acc ⊆ acc' ∧
  ∀ ds d, getitem e "date" = Ok ds → strptime ds = Ok d → d ∈ acc'.
Proof.
  unfold add_holiday. destruct (getitem e "date") as [ds|err] eqn:Hds; simpl.
  - destruct (strptime ds) as [d|err] eqn:Hd; simpl.
    + intros [= <-]. split; [set_solver|]. intros ? ? [= <-]. rewrite Hd.
      intros [= <-]. set_solver.
    + case_bool_decide; [|done]. intros [= <-]. split; [done|]. intros ? ? [= <-]. by rewrite Hd.
  - case_bool_decide; [|done]. intros [= <-]. done.
Qed.

Lemma for_each_add_holiday_grows items (acc hs : gset datetime) :
  for_each items add_holiday acc = Ok hs → acc ⊆ hs.
Proof.
  revert acc. induction items as [|e items IH]; intros acc; cbn [for_each].
  - by intros [= <-].
  - destruct (add_holiday e acc) as [acc'|] eqn:He; [|done]. simpl. intros Hhs%IH.
    apply add_holiday_grows in He as [? _]. set_solver.
Qed.

Lemma find_holiday_name_listed date items (acc hs : gset datetime) name :
  for_each items add_holiday acc = Ok hs →
  find_holiday_name date items = Ok name → name ≠ JNull →
  midnight date ∈ hs.
Proof.
  revert acc. induction items as [|e items IH]; intros acc; cbn [for_each find_holiday_name].
  - by intros _ [= <-].
  - destruct (add_holiday e acc) as [acc'|] eqn:He; [|done]. simpl.
    intros Hhs Hname Hnn.
    apply add_holiday_grows in He as [_ Hin].
    destruct (getitem e "date") as [ds|err] eqn:Hds; simpl in Hname.
    2:{ case_bool_decide; [|done]. by eapply IH. }
    destruct (strptime ds) as [d|err] eqn:Hd; simpl in Hname.
    2:{ case_bool_decide; [|done]. by eapply IH. }
    case_bool_decide as Hday; [|by eapply IH].
    destruct (getitem e "name") as [n|err]; simpl in Hname.
    2:{ case_bool_decide; [|done]. by eapply IH. }
    apply for_each_add_holiday_grows in Hhs. apply Hhs.
    replace (midnight date) with d; [by eapply Hin|].
    apply strptime_valid in Hd as [_ <-]. unfold midnight.
    unfold Datetime.date in Hday. by injection Hday as -> -> ->.
Qed.

(** X8: a day for which [get_holiday_name] gives a name is among the public
    holidays [get_holidays_for_year] gives for the year of that day, whatever
    the shape of the configuration. *)
Theorem named_day_is_public_holiday (self : t) (date : datetime) (region : string)
    (hs : gset datetime) (name : json) :
  get_holidays_for_year self (Datetime.year date) region = Ok hs →
  get_holiday_name self date region = Ok name → name ≠ JNull →
  midnight date ∈ hs.
Proof.
  unfold get_holidays_for_year, get_holiday_name.
  destruct (contains (holidays_data self) region) as [[]|]; simpl; [|by intros _ [= <-]|done].
  destruct (getitem (holidays_data self) region) as [by_year|]; simpl; [|done].
  destruct (contains by_year _) as [[]|]; simpl; [|by intros _ [= <-]|done].
  destruct (getitem by_year _) as [entries|]; simpl; [|done].
  destruct (iter entries) as [items|]; simpl; [|done].
  apply find_holiday_name_listed.
Qed.

Lemma named_day_is_public_holiday_witness :
  midnight (Datetime.mk 2025 12 25 10 30 0 0) ∈ berlin_2025.
Proof.
  apply (named_day_is_public_holiday (mk example_config) (Datetime.mk 2025 12 25 10 30 0 0)
           "berlin" berlin_2025 (JStr "1. Weihnachtstag")).
  - by_evaluation.
  - reflexivity.
  - discriminate.
Defined.

End loader_queries.

Section planner_sessions.
Import Py Datetime HolidayPlanner.

Variable CURRENT_YEAR : Z.
Variable tcl_getint : json → result Z.
Variable tcl_string : json → string.

#[local] Arguments Py.int : simpl never.
#[local] Arguments Py.str : simpl never.
#[local] Arguments HolidayLoader.get_holidays_for_year : simpl never.
#[local] Arguments HolidayLoader.get_available_years : simpl never.
#[local] Arguments HolidayLoader.get_available_regions : simpl never.
#[local] Arguments CalendarWidget.create_calendar : simpl never.
#[local] Arguments StorageManager.load_holidays : simpl never.
#[local] Arguments StorageManager.save_holidays : simpl never.
#[local] Arguments sorted : simpl never.

Ltac run := unfold bind, read, lift, update, ret, showwarning, config_button; simpl.

Lemma update_labels_ok self carry :
  IntVar_get tcl_getint (previous_year_var self) = Ok carry →
  ∃ s', update_labels tcl_getint self = (Ok (), s') ∧ labels_show s' carry ∧
        same_but_labels s' self.
Proof.
  intros Hc. unfold update_labels, _calculate_remaining_days. run. rewrite Hc. simpl.
  eexists. split; [reflexivity|]. split; [by split|]. by destruct self.
Qed.

Lemma update_labels_raises self e :
  IntVar_get tcl_getint (previous_year_var self) = Raise e →
  update_labels tcl_getint self = (Raise e, self).
Proof.
  intros Hc. unfold update_labels, _calculate_remaining_days. run. by rewrite Hc.
Qed.

(** X9: toggling a selected day of the active year always takes it out of
    the selection, whatever the allowance: the counter goes down by one, the
    button gets the default colour and no warning is shown.  The call raises
    only when the carryover cannot be read, and then the day is removed all
    the same. *)
Theorem toggle_selected_day_removes (self : t) (date : datetime) (button : nat) (y : Z) :
  int (year_var self) = Ok y → Datetime.year date = y → date ∈ holidays1 self →
  let out := toggle_holiday tcl_getint date button self in
  holidays1 out.2 = holidays1 self ∖ {[ date ]} ∧
  taken_holidays1 out.2 = taken_holidays1 self - 1 ∧
  dialogs out.2 = dialogs self ∧
  calendar1 out.2
  = (CalendarWidget.config_bg button "SystemButtonFace" <$> calendar1 self) ∧
  (out.1 = Ok () ↔ ∃ carry, IntVar_get tcl_getint (previous_year_var self) = Ok carry).
Proof.
  intros Hy Hd Hin. unfold toggle_holiday. run.
  rewrite Hy; simpl. rewrite !bool_decide_eq_true_2 by done.
  match goal with |- context [update_labels _ ?s] => set (s1 := s) end.
  destruct (IntVar_get tcl_getint (previous_year_var self)) as [carry|e] eqn:Hc.
  - destruct (update_labels_ok s1 carry) as (s' & -> & _ & Hs'); [by destruct self|].
    simpl. apply same_but_labels_core in Hs' as [Hcore Hcal]. unfold core in Hcore.
    injection Hcore as _ _ _ _ _ _ _ -> _ -> _ _ _ ->. rewrite Hcal.
    repeat split; eauto.
  - rewrite (update_labels_raises s1 e) by by destruct self. simpl.
    repeat split; try done. by intros [? ?].
Qed.



(** X10: a second click undoes the first.  Toggling a day of the active year
    twice, starting from a day that is not selected and with the allowance
    not used up, gives back the selection, the counters and everything else
    but the labels and the calendar; the labels are those of the selection
    and the button has the default colour again. *)
Theorem toggle_twice_restores (self : t) (date : datetime) (button : nat)
    (y carry : Z) :
  int (year_var self) = Ok y → Datetime.year date = y → date ∉ holidays1 self →
  IntVar_get tcl_getint (previous_year_var self) = Ok carry →
  taken_holidays1 self < total_holidays self + carry →
  let once := (toggle_holiday tcl_getint date button self).2 in
  let twice := toggle_holiday tcl_getint date button once in
  twice.1 = Ok () ∧ core twice.2 = core self ∧ labels_show twice.2 carry ∧
  calendar1 twice.2
  = (CalendarWidget.config_bg button "SystemButtonFace" <$>
       (CalendarWidget.config_bg button "#307CAF" <$> calendar1 self)).
Proof.
  intros Hy Hd Hnot Hc Hlt. unfold toggle_holiday. run.
  rewrite Hy; simpl. rewrite bool_decide_eq_true_2 by done.
  rewrite bool_decide_eq_false_2 by done. rewrite Hc; simpl.
  rewrite bool_decide_eq_false_2 by lia.
  match goal with |- context [update_labels _ ?s] => set (s1 := s) end.
  destruct (update_labels_ok s1 carry) as (s2 & -> & _ & Hs2); [by destruct self|].
  simpl. apply same_but_labels_core in Hs2 as [Hcore Hcal].
  pose proof Hcore as Hcore'. unfold core in Hcore'.
  injection Hcore' as Et _ Eyv _ Ep _ _ Eh _ Etk _ _ _ _.
  rewrite Eyv. simpl. rewrite Hy. simpl. rewrite bool_decide_eq_true_2 by done.
  rewrite Eh. simpl. rewrite bool_decide_eq_true_2 by set_solver.
  match goal with |- context [update_labels _ ?s] => set (s3 := s) end.
  destruct (update_labels_ok s3 carry) as (s4 & -> & Hshow & Hs4).
  { unfold s3. simpl. by rewrite Ep. }
  simpl. apply same_but_labels_core in Hs4 as [Hcore4 Hcal4].
  split; [done|]. split; [|split; [done|]].
  - rewrite Hcore4. unfold s3, core. simpl. unfold core in Hcore.
    injection Hcore as -> -> -> -> -> -> -> -> -> -> -> -> -> ->. simpl.
    repeat f_equal; [set_solver|lia].
  - rewrite Hcal4. unfold s3. simpl. by rewrite Hcal.
Qed.



(** X11: with a carryover that can be read, a toggle returns, and afterwards
    the two labels show the allowance plus the carryover less the days
    booked, and the days booked; only a toggle that is turned down leaves the
    labels alone, and it changes nothing but the list of warnings. *)
Theorem labels_follow_toggle (self : t) (date : datetime) (button : nat) (y carry : Z) :
  int (year_var self) = Ok y →
  IntVar_get tcl_getint (previous_year_var self) = Ok carry →
  let out := toggle_holiday tcl_getint date button self in
  out.1 = Ok () ∧
  (labels_show out.2 carry ∨
   out.2 = set_dialogs (dialogs self ++ [rejected_message]) self).
Proof.
  intros Hy Hc. unfold toggle_holiday. run. rewrite Hy; simpl.
  case_bool_decide; [case_bool_decide|].
  - match goal with |- context [update_labels _ ?s] =>
      destruct (update_labels_ok s carry) as (s' & -> & Hshow & _); [by destruct self|]
    end. simpl. auto.
  - rewrite Hc. simpl. case_bool_decide; simpl; [by auto|].
    match goal with |- context [update_labels _ ?s] =>
      destruct (update_labels_ok s carry) as (s' & -> & Hshow & _); [by destruct self|]
    end. simpl. auto.
  - destruct (update_labels_ok self carry) as (s' & -> & Hshow & _); [done|]. simpl. auto.
Qed.

(** What [create_calendar_for_frame] has done when it returns. *)
Lemma create_calendar_for_frame_built y self self' :
  create_calendar_for_frame CURRENT_YEAR y self = (Ok (), self') →
  ∃ ph ys cal,
    HolidayLoader.get_holidays_for_year (holiday_loader self) y (region_var self) = Ok ph ∧
    HolidayLoader.get_available_years (holiday_loader self) (region_var self) = Ok ys ∧
    CalendarWidget.create_calendar
      (CalendarWidget.init y (holidays1 self) ph (Some y) CURRENT_YEAR) = Ok cal ∧
    calendar1 self' = Some cal ∧
    warning_label self'
    = (if bool_decide (y ∈ ys) then warning_label self
       else Some ("⚠️ No holiday data for " +:+ region_var self +:+ " in " +:+ str y)) ∧
    core self' = core self ∧
    remaining_label1 self' = remaining_label1 self ∧ taken_label1 self' = taken_label1 self.
Proof.
  unfold create_calendar_for_frame. run.
  destruct (HolidayLoader.get_holidays_for_year _ _ _) as [ph|] eqn:Hph; simpl; [|done].
  destruct (HolidayLoader.get_available_years _ _) as [ys|]; simpl; [|done].
  set (w := CalendarWidget.init y (holidays1 self) ph (Some y) CURRENT_YEAR).
  case_bool_decide; simpl; fold w;
    destruct (CalendarWidget.create_calendar w) as [cal|] eqn:Hcal; simpl; try done;
    intros [= <-]; exists ph, ys, cal; simpl;
    rewrite ?bool_decide_eq_true_2, ?bool_decide_eq_false_2 by done;
    by destruct self.
Qed.

Lemma reset_holidays_run year_idx self :
  reset_holidays CURRENT_YEAR tcl_getint year_idx true self
  = match update_labels tcl_getint (set_taken_holidays1 0 (set_holidays1 ∅ self)) with
    | (Ok _, s1) =>
        match int (year_var s1) with
        | Ok y => create_calendar_for_frame CURRENT_YEAR y s1
        | Raise e => (Raise e, s1)
        end
    | (Raise e, s1) => (Raise e, s1)
    end.
Proof. reflexivity. Qed.

(** X12: a reset that is declined does nothing.  A confirmed reset empties
    the selection of the active tab and sets its counter to zero whatever
    happens next, and leaves the other selection alone; when it returns, the
    labels show the whole allowance with nothing booked and the calendar on
    display is a new one without a highlighted day. *)
Theorem reset_holidays_clears (self : t) (year_idx : Z) :
  reset_holidays CURRENT_YEAR tcl_getint year_idx false self = (Ok (), self) ∧
  let out := reset_holidays CURRENT_YEAR tcl_getint year_idx true self in
  holidays1 out.2 = ∅ ∧ taken_holidays1 out.2 = 0 ∧
  holidays2 out.2 = holidays2 self ∧ taken_holidays2 out.2 = taken_holidays2 self ∧
  (out.1 = Ok () →
     (∃ carry, IntVar_get tcl_getint (previous_year_var self) = Ok carry ∧
        remaining_label1 out.2 = "Days left: " +:+ str (total_holidays self + carry - 0) ∧
        taken_label1 out.2 = "Booked days: " +:+ str 0) ∧
     ∃ cal, calendar1 out.2 = Some cal ∧
       ∀ d b, (d, b) ∈ CalendarWidget.buttons cal → CalendarWidget.bg b = None).
Proof.
  split; [done|]. cbv zeta. rewrite reset_holidays_run.
  set (s0 := set_taken_holidays1 0 (set_holidays1 ∅ self)).
  destruct (IntVar_get tcl_getint (previous_year_var self)) as [carry|e] eqn:Hc.
  2:{ rewrite (update_labels_raises s0 e) by by destruct self. simpl. by destruct self. }
  destruct (update_labels_ok s0 carry) as (s1 & -> & Hshow & Hs1); [by destruct self|].
  apply same_but_labels_core in Hs1 as [Hcore1 _].
  assert (selection s1 = (∅, holidays2 self, 0, taken_holidays2 self)) as Hsel1.
  { rewrite (core_selection _ _ Hcore1). by destruct self. }
  assert (total_holidays s1 = total_holidays self ∧ taken_holidays1 s1 = 0) as [Et Etk].
  { unfold core in Hcore1. injection Hcore1 as -> _ _ _ _ _ _ _ _ -> _ _ _ _.
    by destruct self. }
  destruct Hshow as [Hrem Htk]. rewrite Et, Etk in Hrem. rewrite Etk in Htk.
  destruct (int (year_var s1)) as [y|]; simpl.
  2:{ unfold selection in Hsel1. by injection Hsel1 as -> -> -> ->. }
  destruct (create_calendar_for_frame CURRENT_YEAR y s1) as [r s2] eqn:Hframe. simpl.
  destruct (create_calendar_for_frame_spec CURRENT_YEAR y s1) as [Hcore2 _].
  rewrite Hframe in Hcore2. simpl in Hcore2.
  pose proof (core_selection _ _ Hcore2) as Hsel2. rewrite Hsel1 in Hsel2.
  unfold selection in Hsel2. injection Hsel2 as -> -> -> ->.
  split; [done|]. split; [done|]. split; [done|]. split; [done|].
  intros ->. destruct (create_calendar_for_frame_built y s1 s2 Hframe)
    as (ph & ys & cal & _ & _ & Hcal & Hdisp & _ & _ & El1 & El2).
  split; [exists carry; by rewrite El1, El2|].
  exists cal. split; [done|]. intros d b Hdb.
  unfold selection in Hsel1. injection Hsel1 as Eh _ _ _. rewrite Eh in Hcal.
  pose proof (create_calendar_year _ _ Hcal) as Hy. simpl in Hy.
  destruct (create_calendar_layout y ∅ ph (Some y) CURRENT_YEAR Hy)
    as (cal' & Hcal' & _ & (_ & Hcol & _) & (_ & Eh' & _) & _).
  assert (cal' = cal) as -> by congruence.
  rewrite Forall_forall in Hcol. specialize (Hcol _ Hdb).
  unfold day_button_coloured in Hcol. rewrite Eh' in Hcol. simpl in Hcol.
  by rewrite bool_decide_eq_false_2 in Hcol by set_solver.
Qed.


Lemma save_holidays_run now self :
  save_holidays tcl_getint now self
  = (Ok (),
     match IntVar_get tcl_getint (previous_year_var self) with
     | Ok carry =>
         set_storage
           (StorageManager.save_holidays (holidays1 self) (holidays2 self) carry
              (region_var self) now (storage self)).2 self
     | Raise _ => self
     end).
Proof.
  unfold save_holidays, try_pass. run. by destruct (IntVar_get _ _).
Qed.

(** X13: saving from the planner never raises and changes nothing but the
    storage file.  When the carryover cannot be read, or the file cannot be
    written, nothing is saved and nothing tells the user so: the planner is
    exactly as it was.  Closing the window is such a save. *)
Theorem save_holidays_silent (self : t) (now : datetime) :
  let out := save_holidays tcl_getint now self in
  on_close tcl_getint now self = out ∧
  out.1 = Ok () ∧ set_storage (storage self) out.2 = self ∧
  dialogs out.2 = dialogs self ∧
  ((∀ carry, IntVar_get tcl_getint (previous_year_var self) ≠ Ok carry) → out.2 = self) ∧
  (StorageManager.writable (storage self) = false → out.2 = self).
Proof.
  cbv zeta. split; [reflexivity|]. rewrite save_holidays_run. simpl.
  split; [done|]. destruct (IntVar_get tcl_getint (previous_year_var self)) as [carry|e].
  - split; [by destruct self|]. split; [done|]. split; [intros Hno; by destruct (Hno carry)|].
    intros Hw. unfold StorageManager.save_holidays. rewrite Hw. by destruct self.
  - split; [by destruct self|]. done.
Qed.

Lemma on_region_change_selection response now self :
  selection (on_region_change CURRENT_YEAR tcl_getint tcl_string response now self).2
  = selection self.
Proof.
  unfold on_region_change.
  unfold bind at 1. unfold read at 1. unfold bind at 1. unfold read at 1.
  unfold bind at 1. unfold read at 1. unfold bind at 1.
  set (first := if _ : bool then _ else _).
  assert (∀ s, selection (first s).2 = selection s) as Hfirst.
  { intros s. unfold first. destruct (_ || _); [|done].
    destruct response as [[]|]; [| done |].
    - unfold bind. rewrite save_holidays_run. simpl.
      destruct (IntVar_get _ _); by destruct s.
    - run. by destruct s. }
  specialize (Hfirst self).
  destruct (first self) as [[[]|] s1]; simpl in Hfirst |- *; try done.
  clear first. rewrite <-Hfirst. clear Hfirst.
  run. destruct (HolidayLoader.get_available_years _ _) as [ys|]; simpl;
    [|by destruct s1].
  destruct s1; simpl.
  match goal with |- context [int ?yv] => destruct (int yv) as [y|]; simpl; [|done] end.
  case_bool_decide; simpl;
    match goal with |- context [rebuild_tabs _ _ ?st] =>
      destruct (rebuild_tabs_spec CURRENT_YEAR tcl_getint st) as [Hc _];
      apply core_selection in Hc; rewrite Hc
    end; done.
Qed.

(** X14: only a click or a confirmed reset changes what is planned.  Choosing
    another region or another year, saving, typing a carryover and pressing
    OK leave both selections and both counters as they are: a selected day
    stays selected and counted when the calendar on display no longer shows
    it, or shows it as a public holiday. *)
Theorem selection_kept_by_other_events (self : t) (e : event) :
  (∀ i, e ≠ Click i) → e ≠ Reset true →
  selection (handle CURRENT_YEAR tcl_getint tcl_string e self).2 = selection self.
Proof.
  intros Hclick Hreset. destruct e as [i|region response now|year|[]|now|text|]; simpl.
  - by destruct (Hclick i).
  - run. case_bool_decide; [|done]. unfold select_region. run.
    rewrite on_region_change_selection. by destruct self.
  - run. case_bool_decide; [|done]. unfold select_year, on_year_change. run.
    match goal with |- context [rebuild_tabs _ _ ?st] =>
      destruct (rebuild_tabs_spec CURRENT_YEAR tcl_getint st) as [Hc _];
      apply core_selection in Hc; rewrite Hc
    end. by destruct self.
  - done.
  - done.
  - rewrite save_holidays_run. simpl. destruct (IntVar_get _ _); by destruct self.
  - by destruct self.
  - destruct (update_labels_core tcl_getint self) as [Hc _]. by apply core_selection.
Qed.

End planner_sessions.

Section planner_sessions_examples.
Import Py Datetime HolidayPlanner.

Lemma toggle_selected_day_removes_witness :
  let out := toggle_holiday no_getint bastille_2025 194 bastille_booked in
  holidays1 out.2 = holidays1 bastille_booked ∖ {[ bastille_2025 ]} ∧
  taken_holidays1 out.2 = taken_holidays1 bastille_booked - 1 ∧
  dialogs out.2 = dialogs bastille_booked ∧
  calendar1 out.2
  = (CalendarWidget.config_bg 194 "SystemButtonFace" <$> calendar1 bastille_booked) ∧
  (out.1 = Ok () ↔ ∃ carry, IntVar_get no_getint (previous_year_var bastille_booked) = Ok carry).
Proof.
  assert (int (year_var bastille_booked) = Ok 2025) as Hy by by_evaluation.
  assert (Datetime.year bastille_2025 = 2025) as Hd by reflexivity.
  assert (bastille_2025 ∈ holidays1 bastille_booked) as Hin by by_evaluation.
  exact (toggle_selected_day_removes no_getint bastille_booked bastille_2025 194 2025 Hy Hd Hin).
Defined.

Lemma toggle_twice_restores_witness :
  let once := (toggle_holiday no_getint bastille_2025 194 example_planner).2 in
  let twice := toggle_holiday no_getint bastille_2025 194 once in
  twice.1 = Ok () ∧ core twice.2 = core example_planner ∧ labels_show twice.2 0 ∧
  calendar1 twice.2
  = (CalendarWidget.config_bg 194 "SystemButtonFace" <$>
       (CalendarWidget.config_bg 194 "#307CAF" <$> calendar1 example_planner)).
Proof.
  assert (int (year_var example_planner) = Ok 2025) as Hy by by_evaluation.
  assert (Datetime.year bastille_2025 = 2025) as Hd by reflexivity.
  assert (bastille_2025 ∉ holidays1 example_planner) as Hnot by by_evaluation.
  assert (IntVar_get no_getint (previous_year_var example_planner) = Ok 0) as Hc
    by by_evaluation.
  assert (taken_holidays1 example_planner < total_holidays example_planner + 0) as Hlt
    by by_evaluation.
  exact (toggle_twice_restores no_getint example_planner bastille_2025 194 2025 0
           Hy Hd Hnot Hc Hlt).
Defined.


Lemma labels_follow_toggle_witness :
  (toggle_holiday no_getint bastille_2025 194 example_planner).1 = Ok () ∧
  (labels_show (toggle_holiday no_getint bastille_2025 194 example_planner).2 0 ∨
   (toggle_holiday no_getint bastille_2025 194 example_planner).2
   = set_dialogs (dialogs example_planner ++ [rejected_message]) example_planner).
Proof.
  assert (int (year_var example_planner) = Ok 2025) as Hy by by_evaluation.
  assert (IntVar_get no_getint (previous_year_var example_planner) = Ok 0) as Hc
    by by_evaluation.
  exact (labels_follow_toggle no_getint example_planner bastille_2025 194 2025 0 Hy Hc).
Defined.

Lemma reset_holidays_clears_witness :
  ∃ cal, calendar1 (reset_holidays 2025 no_getint 1 true bastille_booked).2 = Some cal ∧
    ∀ d b, (d, b) ∈ CalendarWidget.buttons cal → CalendarWidget.bg b = None.
Proof.
  assert ((reset_holidays 2025 no_getint 1 true bastille_booked).1 = Ok ()) as Hok
    by by_evaluation.
  pose proof (proj2 (reset_holidays_clears 2025 no_getint bastille_booked 1)) as H.
  cbv zeta in H. destruct H as (_ & _ & _ & _ & Hdone).
  exact (proj2 (Hdone Hok)).
Defined.

Lemma save_holidays_silent_witness :
  (save_holidays no_getint christmas_2025
     (set_previous_year_var (JStr "three") example_planner)).2
  = set_previous_year_var (JStr "three") example_planner.
Proof.
  pose proof (save_holidays_silent no_getint
                (set_previous_year_var (JStr "three") example_planner) christmas_2025) as H.
  cbv zeta in H. destruct H as (_ & _ & _ & _ & Hunread & _).
  apply Hunread. intros carry. discriminate.
Defined.

Lemma selection_kept_by_other_events_witness :
  selection (handle 2025 no_getint no_string (SelectYear "2026") bastille_booked).2
  = selection bastille_booked.
Proof.
  apply (selection_kept_by_other_events 2025 no_getint no_string bastille_booked
           (SelectYear "2026")); discriminate.
Defined.

End planner_sessions_examples.

Section planner_restart.
Import Py Datetime HolidayPlanner.

Variable CURRENT_YEAR : Z.
Variable tcl_getint : json → result Z.
Variable tcl_string : json → string.

#[local] Arguments Py.int : simpl never.
#[local] Arguments Py.str : simpl never.
#[local] Arguments HolidayLoader.get_holidays_for_year : simpl never.
#[local] Arguments HolidayLoader.get_available_years : simpl never.
#[local] Arguments HolidayLoader.get_available_regions : simpl never.
#[local] Arguments CalendarWidget.create_calendar : simpl never.
#[local] Arguments StorageManager.load_holidays : simpl never.
#[local] Arguments StorageManager.save_holidays : simpl never.
#[local] Arguments sorted : simpl never.

Ltac run := unfold bind, read, lift, update, ret, showwarning, config_button; simpl.

Lemma mapM_strptime_valid items dates :
  mapM strptime items = Ok dates → ∀ d, d ∈ dates → valid d ∧ midnight d = d.
Proof.
  revert dates. induction items as [|v items IH]; intros dates; cbn [mapM].
  - intros [= <-] d Hd. by apply elem_of_nil in Hd.
  - destruct (strptime v) as [d0|] eqn:Hv; [|done]. simpl.
    destruct (mapM strptime items) as [ds|]; [|done]. simpl. intros [= <-] d Hd.
    apply elem_of_cons in Hd as [->|Hd]; [by eapply strptime_valid|by eapply IH].
Qed.

Lemma load_dates_ok data key h : StorageManager.load_dates data key = Ok h → dates_ok h.
Proof.
  unfold StorageManager.load_dates.
  destruct (get data key (JList [])) as [stored|]; [|done]. simpl.
  destruct (iter stored) as [items|]; [|done]. simpl.
  destruct (mapM strptime items) as [dates|] eqn:Hdates; [|done]. simpl.
  intros [= <-] d Hd%elem_of_list_to_set. by eapply mapM_strptime_valid.
Qed.

Lemma dates_ok_empty : dates_ok ∅.
Proof. intros d Hd. set_solver. Qed.

Lemma storage_load_dates_ok fs h1 h2 p r :
  StorageManager.load_holidays fs = Ok (h1, h2, p, r) → dates_ok h1 ∧ dates_ok h2.
Proof.
  unfold StorageManager.load_holidays.
  destruct (StorageManager.storage_file fs) as [c|];
    [|intros [= <- <- <- <-]; split; apply dates_ok_empty].
  destruct (StorageManager.json_load c) as [data|]; simpl;
    [|intros [= <- <- <- <-]; split; apply dates_ok_empty].
  destruct (StorageManager.load_dates data "holidays1") as [a|] eqn:Ha; simpl;
    [|intros [= <- <- <- <-]; split; apply dates_ok_empty].
  destruct (StorageManager.load_dates data "holidays2") as [b|] eqn:Hb; simpl;
    [|intros [= <- <- <- <-]; split; apply dates_ok_empty].
  destruct (get data "previous_year" (JInt 0)); simpl;
    [|intros [= <- <- <- <-]; split; apply dates_ok_empty].
  destruct (get data "region" JNull); simpl;
    [|intros [= <- <- <- <-]; split; apply dates_ok_empty].
  intros [= <- <- <- <-]. split; by eapply load_dates_ok.
Qed.


(** What [load_holidays] of the planner does, from what the storage gives. *)
Lemma load_holidays_run self h1 h2 p r :
  StorageManager.load_holidays (storage self) = Ok (h1, h2, p, r) →
  load_holidays tcl_string self
  = (Ok (),
     let s := set_previous_year_var p
                (set_taken_holidays2 (Z.of_nat (size h2))
                   (set_taken_holidays1 (Z.of_nat (size h1))
                      (set_holidays2 h2 (set_holidays1 h1 self)))) in
     if truthy r then set_initial_region r (set_region_var (StringVar_set tcl_string r) s)
     else s).
Proof.
  intros Hload. unfold load_holidays. run. rewrite Hload. simpl.
  destruct (truthy r); by destruct self.
Qed.

(** [create_widgets] fills the drop-down lists and builds the tab; the rest
    of the planner is as it was. *)
Lemma create_widgets_frame self :
  let s' := (create_widgets CURRENT_YEAR tcl_getint self).2 in
  selection s' = selection self ∧ previous_year_var s' = previous_year_var self ∧
  region_var s' = region_var self ∧ initial_region s' = initial_region self ∧
  year_var s' = year_var self ∧ storage s' = storage self ∧
  total_holidays s' = total_holidays self ∧ dialogs s' = dialogs self.
Proof.
  unfold create_widgets. run.
  destruct (HolidayLoader.get_available_regions _) as [rs|]; simpl; [|done].
  destruct (HolidayLoader.get_available_years _ _) as [ys|]; simpl; [|by destruct self].
  destruct (int (year_var self)) as [y|]; simpl; [|by destruct self].
  match goal with |- context [_create_year_tab _ _ _ _ ?st] =>
    destruct (_create_year_tab_spec CURRENT_YEAR tcl_getint y true st) as [Hc _];
    unfold core in Hc; unfold selection;
    injection Hc as -> -> -> -> -> _ -> -> -> -> -> _ _ ->
  end. by destruct self.
Qed.

Lemma init_frame total region config fs s1 :
  load_holidays tcl_string
    (mk total (JStr region) (str CURRENT_YEAR) region (JInt 0)
        (HolidayLoader.init config) fs ∅ ∅ 0 0 [] [] "" "" None None []) = (Ok (), s1) →
  let s' := (init CURRENT_YEAR tcl_getint tcl_string total region config fs).2 in
  selection s' = selection s1 ∧ previous_year_var s' = previous_year_var s1 ∧
  region_var s' = region_var s1 ∧ initial_region s' = initial_region s1 ∧
  year_var s' = year_var s1 ∧ storage s' = storage s1 ∧
  total_holidays s' = total_holidays s1 ∧ dialogs s' = dialogs s1.
Proof.
  intros Hload. cbv zeta.
  assert (init CURRENT_YEAR tcl_getint tcl_string total region config fs
          = match create_widgets CURRENT_YEAR tcl_getint s1 with
            | (Ok _, s2) => update_labels tcl_getint s2
            | (Raise e, s2) => (Raise e, s2)
            end) as ->.
  { unfold init. unfold bind at 1. rewrite Hload. reflexivity. }
  pose proof (create_widgets_frame s1) as Hw. simpl in Hw.
  destruct (create_widgets CURRENT_YEAR tcl_getint s1) as [[[]|] s2]; simpl in *;
    [|exact Hw].
  destruct (update_labels_core tcl_getint s2) as [Hc _]. unfold core in Hc.
  unfold selection in *.
  injection Hc as -> -> -> -> -> _ -> -> -> -> -> _ _ ->. exact Hw.
Qed.


Lemma toggle_keeps date button self :
  let s' := (toggle_holiday tcl_getint date button self).2 in
  holidays2 s' = holidays2 self ∧ region_var s' = region_var self ∧
  initial_region s' = initial_region self.
Proof.
  unfold toggle_holiday. run.
  destruct (int (year_var self)) as [y|]; simpl; [|done].
  repeat case_bool_decide; simpl;
    try (destruct (IntVar_get tcl_getint (previous_year_var self)); simpl; [|done]);
    repeat case_bool_decide; simpl; try done.
  all: match goal with |- context [update_labels _ ?s] =>
         destruct (update_labels_core tcl_getint s) as [Hc _]; unfold core in Hc;
         injection Hc as _ -> _ -> _ _ _ _ -> _ _ _ _ _
       end; done.
Qed.

Lemma on_region_change_region response now self :
  let s' := (on_region_change CURRENT_YEAR tcl_getint tcl_string response now self).2 in
  region_var s' = StringVar_set tcl_string (initial_region s').
Proof.
  unfold on_region_change. run.
  destruct (negb (bool_decide (holidays1 self = ∅)) || negb (bool_decide (holidays2 self = ∅)));
    [destruct response as [[]|]|]; simpl; try done.
  1: rewrite save_holidays_run; simpl;
     destruct (IntVar_get tcl_getint (previous_year_var self)); simpl.
  all: destruct (HolidayLoader.get_available_years _ _) as [ys|]; simpl; [|done].
  all: destruct (int (year_var self)) as [y|]; simpl; [|done].
  all: case_bool_decide; simpl;
    match goal with |- context [rebuild_tabs _ _ ?st] =>
      destruct (rebuild_tabs_spec CURRENT_YEAR tcl_getint st) as [Hc _]; unfold core in Hc;
      injection Hc as _ -> _ -> _ _ _ _ _ _ _ _ _ _
    end; done.
Qed.

Lemma handle_session e self :
  region_var self = StringVar_set tcl_string (initial_region self) →
  let s' := (handle CURRENT_YEAR tcl_getint tcl_string e self).2 in
  holidays2 s' = holidays2 self ∧
  region_var s' = StringVar_set tcl_string (initial_region s').
Proof.
  intros Hregion. destruct e as [i|region response now|year|confirmed|now|text|]; simpl.
  - unfold click. run.
    destruct (calendar1 self ≫= _) as [[d b]|]; [|done].
    destruct (CalendarWidget.state b), (CalendarWidget.command b); try done.
    destruct (toggle_keeps d0 i self) as (-> & -> & ->). done.
  - run. case_bool_decide; [|done]. unfold select_region. run. split.
    + pose proof (on_region_change_selection CURRENT_YEAR tcl_getint tcl_string response now
                    (set_region_var region self)) as Hsel.
      unfold selection in Hsel. injection Hsel as _ -> _ _. by destruct self.
    + apply on_region_change_region.
  - run. case_bool_decide; [|done]. unfold select_year, on_year_change. run.
    match goal with |- context [rebuild_tabs _ _ ?st] =>
      destruct (rebuild_tabs_spec CURRENT_YEAR tcl_getint st) as [Hc _]; unfold core in Hc;
      injection Hc as _ -> _ -> _ _ _ _ -> _ _ _ _ _
    end. by destruct self.
  - destruct confirmed; [|done]. rewrite reset_holidays_run.
    match goal with |- context [update_labels _ ?st] =>
      destruct (update_labels_core tcl_getint st) as [Hc _]; unfold core in Hc;
      injection Hc as _ E1 _ E2 _ _ _ _ E3 _ _ _ _ _;
      destruct (update_labels tcl_getint st) as [[[]|] s1]
    end; simpl in *; [|rewrite E1, E2, E3; by destruct self].
    destruct (int (year_var s1)) as [y|]; simpl; [|rewrite E1, E2, E3; by destruct self].
    destruct (create_calendar_for_frame_spec CURRENT_YEAR y s1) as [Hc _]. unfold core in Hc.
    injection Hc as _ -> _ -> _ _ _ _ -> _ _ _ _ _. rewrite E1, E2, E3. by destruct self.
  - rewrite save_holidays_run. simpl. destruct (IntVar_get _ _); by destruct self.
  - by destruct self.
  - destruct (update_labels_core tcl_getint self) as [Hc _]. unfold core in Hc.
    injection Hc as _ -> _ -> _ _ _ _ -> _ _ _ _ _. done.
Qed.

Lemma click_adds_calendar_day i self d :
  planner_ok self →
  d ∈ holidays1 (click tcl_getint i self).2 → d ∉ holidays1 self →
  valid d ∧ midnight d = d.
Proof.
  intros (_ & _ & y & _ & Hdisp). unfold click. run.
  destruct (calendar1 self) as [cal|] eqn:Hcal; simpl; [|done].
  destruct (CalendarWidget.buttons cal !! i) as [[d0 b]|] eqn:Hi; simpl; [|done].
  destruct (Hdisp cal eq_refl) as (Hok & _).
  unfold calendar_ok in Hok. rewrite Forall_forall in Hok.
  destruct (Hok (d0, b)) as ((m & dd & Hnew) & _ & _ & Hcmd);
    [by eapply list_elem_of_lookup_2|].
  simpl in Hnew, Hcmd.
  destruct (CalendarWidget.state b); [|done]. rewrite Hcmd by done.
  intros Hin Hnot. rewrite (toggle_added tcl_getint d0 i self d Hin Hnot).
  unfold new in Hnew. destruct (valid_date _ m dd) eqn:Hv; [|done].
  injection Hnew as <-. by split.
Qed.

Lemma init_session_ok total region config fs :
  session_ok tcl_string (init CURRENT_YEAR tcl_getint tcl_string total region config fs).2.
Proof.
  destruct (load_holidays_total fs) as [[[[h1 h2] p] r] Hload].
  pose proof (storage_load_dates_ok fs h1 h2 p r Hload) as [Hh1 Hh2].
  set (s0 := mk total (JStr region) (str CURRENT_YEAR) region (JInt 0)
               (HolidayLoader.init config) fs ∅ ∅ 0 0 [] [] "" "" None None []).
  pose proof (load_holidays_run s0 h1 h2 p r Hload) as Hrun.
  destruct (init_frame total region config fs _ Hrun) as (Hsel & _ & Er & Ei & _).
  unfold selection in Hsel. injection Hsel as E1 E2 _ _.
  unfold session_ok. rewrite E1, E2, Er, Ei. cbv zeta.
  destruct (truthy r); simpl; done.
Qed.

(** Between two events the selections hold days of the calendar only and
    the region variable agrees with the region last settled on. *)
Lemma reachable_session_ok self :
  reachable CURRENT_YEAR tcl_getint tcl_string self → session_ok tcl_string self.
Proof.
  induction 1 as [total region config fs self Hinit|e self Hreach IH].
  - pose proof (init_session_ok total region config fs) as Hok. by rewrite Hinit in Hok.
  - destruct IH as (Hh1 & Hh2 & Hregion).
    destruct (handle_session e self Hregion) as [E2 Er].
    split; [|split; [by rewrite E2|exact Er]].
    intros d Hd. destruct (decide (d ∈ holidays1 self)) as [Hold|Hnew]; [by apply Hh1|].
    assert ((∃ i, e = Click i) ∨ ∀ i, e ≠ Click i) as [[i ->]|Hother]
      by (destruct e; eauto).
    + apply (click_adds_calendar_day i self d); [|done|done].
      by apply (reachable_planner_ok CURRENT_YEAR tcl_getint tcl_string).
    + destruct Hnew.
      by apply (handle_holidays1 CURRENT_YEAR tcl_getint tcl_string e self Hother).
Qed.

End planner_restart.

Section planner_lifecycle.
Import Py Datetime HolidayPlanner.

Variable CURRENT_YEAR : Z.
Variable tcl_getint : json → result Z.
Variable tcl_string : json → string.

#[local] Arguments Py.int : simpl never.
#[local] Arguments Py.str : simpl never.
#[local] Arguments HolidayLoader.get_holidays_for_year : simpl never.
#[local] Arguments HolidayLoader.get_available_years : simpl never.
#[local] Arguments HolidayLoader.get_available_regions : simpl never.
#[local] Arguments CalendarWidget.create_calendar : simpl never.
#[local] Arguments StorageManager.load_holidays : simpl never.
#[local] Arguments StorageManager.save_holidays : simpl never.
#[local] Arguments sorted : simpl never.

Ltac run := unfold bind, read, lift, update, ret, showwarning, config_button; simpl.



(** X16: cancelling a change of region undoes it.  In a running planner
    with some day selected, choosing a region and answering Cancel leaves
    the planner exactly as it was before the choice. *)
Theorem cancelled_region_change_is_noop (self : t) (region : string) (now : datetime) :
  reachable CURRENT_YEAR tcl_getint tcl_string self →
  holidays1 self ≠ ∅ ∨ holidays2 self ≠ ∅ →
  handle CURRENT_YEAR tcl_getint tcl_string (SelectRegion region None now) self
  = (Ok (), self).
Proof.
  intros Hreach Hsel.
  destruct (reachable_session_ok _ _ _ _ Hreach) as (_ & _ & Hregion).
  simpl. run. case_bool_decide; [|done]. unfold select_region, on_region_change. run.
  assert (negb (bool_decide (holidays1 self = ∅)) || negb (bool_decide (holidays2 self = ∅))
          = true) as ->.
  { destruct Hsel; rewrite orb_true_iff, !negb_true_iff, !bool_decide_eq_false; auto. }
  simpl. f_equal. rewrite <-Hregion. by destruct self.
Qed.

(** X17: what the answer to the region dialog does to the storage file.
    With No, or with nothing selected (no dialog), a change of region leaves
    the file alone; with Yes the file is written before the change, and it
    records the selection together with the region just chosen. *)
Theorem region_change_saves_on_yes (self : t) (response : option bool) (now : datetime) :
  let s' := (on_region_change CURRENT_YEAR tcl_getint tcl_string response now self).2 in
  (response ≠ Some true ∨ (holidays1 self = ∅ ∧ holidays2 self = ∅) →
     storage s' = storage self) ∧
  (response = Some true → holidays1 self ≠ ∅ ∨ holidays2 self ≠ ∅ →
     ∀ carry, IntVar_get tcl_getint (previous_year_var self) = Ok carry →
       storage s'
       = (StorageManager.save_holidays (holidays1 self) (holidays2 self) carry
            (region_var self) now (storage self)).2).
Proof.
  cbv zeta.
  assert (storage (on_region_change CURRENT_YEAR tcl_getint tcl_string response now self).2
          = if (negb (bool_decide (holidays1 self = ∅))
                || negb (bool_decide (holidays2 self = ∅)))
               && bool_decide (response = Some true)
            then storage (save_holidays tcl_getint now self).2
            else storage self) as ->.
  { unfold on_region_change.
    unfold bind at 1. unfold read at 1. unfold bind at 1. unfold read at 1.
    unfold bind at 1. unfold read at 1. unfold bind at 1.
    set (first := if _ : bool then _ else _).
    set (after := if _ && _ then _ else _).
    assert (storage (first self).2 = after) as Hfirst.
    { unfold first, after. destruct (_ || _); [|done].
      destruct response as [[]|]; simpl; [|done|done].
      unfold bind. by destruct (save_holidays tcl_getint now self) as [[] ?]. }
    destruct (first self) as [[[]|] s1]; simpl in Hfirst |- *; try done.
    clear first. rewrite <-Hfirst. clear Hfirst after.
    run. destruct (HolidayLoader.get_available_years _ _) as [ys|]; simpl;
      [|by destruct s1].
    destruct s1; simpl.
    match goal with |- context [int ?yv] => destruct (int yv) as [y|]; simpl; [|done] end.
    case_bool_decide; simpl;
      match goal with |- context [rebuild_tabs _ _ ?st] =>
        destruct (rebuild_tabs_spec CURRENT_YEAR tcl_getint st) as [Hc _]; unfold core in Hc;
        injection Hc as _ _ _ _ _ _ -> _ _ _ _ _ _ _
      end; done. }
  split.
  - intros [Hno|[-> ->]].
    + rewrite (bool_decide_eq_false_2 (response = Some true)) by done.
      by rewrite andb_false_r.
    + by rewrite !bool_decide_eq_true_2 by done.
  - intros -> Hsel carry Hc.
    assert (negb (bool_decide (holidays1 self = ∅)) || negb (bool_decide (holidays2 self = ∅))
            = true) as ->.
    { destruct Hsel; rewrite orb_true_iff, !negb_true_iff, !bool_decide_eq_false; auto. }
    rewrite bool_decide_eq_true_2 by done. simpl.
    rewrite save_holidays_run, Hc. by destruct self.
Qed.


Lemma create_calendar_for_frame_run y self ph ys cal :
  HolidayLoader.get_holidays_for_year (holiday_loader self) y (region_var self) = Ok ph →
  HolidayLoader.get_available_years (holiday_loader self) (region_var self) = Ok ys →
  CalendarWidget.create_calendar
    (CalendarWidget.init y (holidays1 self) ph (Some y) CURRENT_YEAR) = Ok cal →
  create_calendar_for_frame CURRENT_YEAR y self
  = (Ok (),
     set_calendar1 (Some cal)
       (if bool_decide (y ∈ ys) then self
        else set_warning_label
               (Some ("⚠️ No holiday data for " +:+ region_var self +:+ " in " +:+ str y))
               self)).
Proof.
  intros Hph Hys Hcal. unfold create_calendar_for_frame. run. rewrite Hph. simpl.
  rewrite Hys. simpl. case_bool_decide; simpl; rewrite Hcal; by destruct self.
Qed.

Lemma _create_year_tab_run y b self carry :
  IntVar_get tcl_getint (previous_year_var self) = Ok carry →
  _create_year_tab CURRENT_YEAR tcl_getint y b self
  = create_calendar_for_frame CURRENT_YEAR y
      (set_taken_label1 ("Booked days: " +:+ str (taken_holidays1 self))
         (set_remaining_label1
            ("Days left: " +:+ str (total_holidays self + carry - taken_holidays1 self))
            self)).
Proof.
  intros Hc. unfold _create_year_tab, _calculate_remaining_days. run. rewrite Hc.
  by destruct self.
Qed.

Lemma create_widgets_run self rs ys y :
  HolidayLoader.get_available_regions (holiday_loader self) = Ok rs →
  HolidayLoader.get_available_years (holiday_loader self) (region_var self) = Ok ys →
  int (year_var self) = Ok y →
  create_widgets CURRENT_YEAR tcl_getint self
  = _create_year_tab CURRENT_YEAR tcl_getint y true
      (set_year_values
         (str <$> (if bool_decide (sorted ys = []) then [CURRENT_YEAR] else sorted ys))
         (set_region_values (if bool_decide (rs = []) then [DEFAULT_REGION] else rs) self)).
Proof.
  intros Hrs Hys Hy. unfold create_widgets. run. rewrite Hrs. simpl.
  rewrite Hys. simpl. rewrite Hy. by destruct self.
Qed.

(** X18: the planner comes up without any file.  With no configuration (or
    one that is not JSON) and no storage file, in a year the calendar knows,
    the constructor returns: nothing is selected, the carryover is zero, the
    region is the constructor's and the year the current one; the region
    list offers the default region and the year list the current year; the
    calendar has no public holiday, a notice says that there is no holiday
    data, and the labels show the whole allowance. *)
Theorem first_run_without_files (total : Z) (region : string)
    (config : HolidayLoader.config_file) (fs : StorageManager.disk) :
  1 ≤ CURRENT_YEAR ≤ 9999 →
  config = HolidayLoader.Missing ∨ config = HolidayLoader.Malformed →
  StorageManager.storage_file fs = None →
  ∃ self cal,
    init CURRENT_YEAR tcl_getint tcl_string total region config fs = (Ok (), self) ∧
    holidays1 self = ∅ ∧ holidays2 self = ∅ ∧
    taken_holidays1 self = 0 ∧ taken_holidays2 self = 0 ∧
    previous_year_var self = JInt 0 ∧
    region_var self = region ∧ year_var self = str CURRENT_YEAR ∧
    region_values self = [DEFAULT_REGION] ∧ year_values self = [str CURRENT_YEAR] ∧
    warning_label self
    = Some ("⚠️ No holiday data for " +:+ region +:+ " in " +:+ str CURRENT_YEAR) ∧
    calendar1 self = Some cal ∧ CalendarWidget.public_holidays cal = ∅ ∧
    CalendarWidget.year cal = CURRENT_YEAR ∧
    remaining_label1 self = "Days left: " +:+ str total ∧
    taken_label1 self = "Booked days: " +:+ str 0 ∧
    dialogs self = [] ∧ storage self = fs.
Proof.
  intros Hy Hconfig Hfs.
  assert (HolidayLoader.init config = HolidayLoader.mk (JDict [])) as Hloader
    by (by destruct Hconfig as [-> | ->]).
  destruct (create_calendar_spec
              (CalendarWidget.init CURRENT_YEAR ∅ ∅ (Some CURRENT_YEAR) CURRENT_YEAR))
    as (cal & Hcal & _ & (Ey & _ & Ep & _) & _); [apply init_calendar_ok|done|].
  set (s0 := mk total (JStr region) (str CURRENT_YEAR) region (JInt 0)
               (HolidayLoader.mk (JDict [])) fs ∅ ∅ 0 0 [] [] "" "" None None []).
  assert (StorageManager.load_holidays (storage s0) = Ok (∅, ∅, JInt 0, JNull)) as Hload
    by (unfold StorageManager.load_holidays; simpl; by rewrite Hfs).
  pose proof (load_holidays_run tcl_string s0 _ _ _ _ Hload) as Hrun.
  unfold truthy in Hrun. cbv beta iota zeta in Hrun. rewrite size_empty in Hrun.
  change (Z.of_nat 0) with 0 in Hrun.
  set (s1 := set_previous_year_var _ _) in Hrun.
  assert (init CURRENT_YEAR tcl_getint tcl_string total region config fs
          = match create_widgets CURRENT_YEAR tcl_getint s1 with
            | (Ok _, s2) => update_labels tcl_getint s2
            | (Raise e, s2) => (Raise e, s2)
            end) as ->.
  { unfold init. rewrite Hloader. fold s0. unfold bind at 1. rewrite Hrun. reflexivity. }
  rewrite (create_widgets_run s1 [] [] CURRENT_YEAR);
    [|reflexivity|reflexivity|apply int_str].
  set (s2 := set_year_values _ _).
  rewrite (_create_year_tab_run CURRENT_YEAR true s2 0) by reflexivity.
  set (s3 := set_taken_label1 _ _).
  rewrite (create_calendar_for_frame_run CURRENT_YEAR s3 ∅ [] cal);
    [|reflexivity|reflexivity|exact Hcal].
  rewrite bool_decide_eq_false_2 by apply not_elem_of_nil.
  set (s4 := set_calendar1 _ _).
  destruct (update_labels_ok tcl_getint s4 0) as (s5 & -> & [Hl1 Hl2] & Hsame);
    [reflexivity|].
  exists s5, cal. split; [reflexivity|].
  pose proof (f_equal warning_label Hsame) as Hwl. simpl in Hwl. rewrite <-Hwl.
  apply same_but_labels_core in Hsame as [Hcore Hcal5]. unfold core in Hcore.
  injection Hcore as Et _ -> -> -> _ -> -> -> Etk -> -> -> ->.
  rewrite Hl1, Hl2, Et, Etk, Hcal5. simpl. rewrite Z.add_0_r, Z.sub_0_r.
  by repeat split.
Qed.

End planner_lifecycle.

Section planner_lifecycle_examples.
Import Py Datetime HolidayPlanner.

Lemma bastille_booked_reachable : reachable 2025 no_getint no_string bastille_booked.
Proof.
  unfold bastille_booked.
  exact (reachable_step 2025 no_getint no_string (Click 194) example_planner
           example_planner_reachable).
Qed.


Lemma cancelled_region_change_is_noop_witness :
  handle 2025 no_getint no_string (SelectRegion "bavaria" None christmas_2025) bastille_booked
  = (Ok (), bastille_booked).
Proof.
  assert (holidays1 bastille_booked ≠ ∅) as Hsel by by_evaluation.
  exact (cancelled_region_change_is_noop 2025 no_getint no_string bastille_booked "bavaria"
           christmas_2025 bastille_booked_reachable (or_introl Hsel)).
Defined.

Lemma region_change_saves_on_yes_witness :
  storage (on_region_change 2025 no_getint no_string (Some true) christmas_2025
             (set_region_var "bavaria" bastille_booked)).2
  = (StorageManager.save_holidays (holidays1 (set_region_var "bavaria" bastille_booked))
       (holidays2 (set_region_var "bavaria" bastille_booked)) 0
       (region_var (set_region_var "bavaria" bastille_booked)) christmas_2025
       (storage (set_region_var "bavaria" bastille_booked))).2.
Proof.
  assert (holidays1 (set_region_var "bavaria" bastille_booked) ≠ ∅) as Hsel by by_evaluation.
  assert (IntVar_get no_getint (previous_year_var (set_region_var "bavaria" bastille_booked))
          = Ok 0) as Hc by by_evaluation.
  exact (proj2 (region_change_saves_on_yes 2025 no_getint no_string
                  (set_region_var "bavaria" bastille_booked) (Some true) christmas_2025)
           eq_refl (or_introl Hsel) 0 Hc).
Defined.

Lemma first_run_without_files_witness :
  ∃ self cal,
    init 2025 no_getint no_string 30 "berlin" HolidayLoader.Missing
      (StorageManager.mk None true) = (Ok (), self) ∧
    holidays1 self = ∅ ∧ holidays2 self = ∅ ∧
    taken_holidays1 self = 0 ∧ taken_holidays2 self = 0 ∧
    previous_year_var self = JInt 0 ∧
    region_var self = "berlin" ∧ year_var self = str 2025 ∧
    region_values self = [DEFAULT_REGION] ∧ year_values self = [str 2025] ∧
    warning_label self
    = Some ("⚠️ No holiday data for " +:+ "berlin" +:+ " in " +:+ str 2025) ∧
    calendar1 self = Some cal ∧ CalendarWidget.public_holidays cal = ∅ ∧
    CalendarWidget.year cal = 2025 ∧
    remaining_label1 self = "Days left: " +:+ str 30 ∧
    taken_label1 self = "Booked days: " +:+ str 0 ∧
    dialogs self = [] ∧ storage self = StorageManager.mk None true.
Proof.
  assert (1 ≤ 2025 ≤ 9999) as Hy by lia.
  exact (first_run_without_files 2025 no_getint no_string 30 "berlin" HolidayLoader.Missing
           (StorageManager.mk None true) Hy (or_introl eq_refl) eq_refl).
Defined.

End planner_lifecycle_examples.

Section storage_documents.
Import Py Datetime StorageManager.

(** X19: a storage file of unexpected shape.  A JSON document that is not
    an object loads as the defaults.  In an object, a missing key takes its
    own default while the keys that are there are read: without the two
    lists of days the selections are empty and the carryover and the region
    are those of the file, returned as they are stored.  A list of days that
    is a number, a truth value or null makes the whole file load as the
    defaults. *)
Theorem load_holidays_partial_document (fs : disk) (v : json) :
  storage_file fs = Some (Document v) →
  ((∀ kvs, v ≠ JDict kvs) → load_holidays fs = Ok (∅, ∅, JInt 0, JNull)) ∧
  (∀ kvs, v = JDict kvs →
     (dict_lookup "holidays1" kvs = None → dict_lookup "holidays2" kvs = None →
        load_holidays fs
        = Ok (∅, ∅, default (JInt 0) (dict_lookup "previous_year" kvs),
              default JNull (dict_lookup "region" kvs))) ∧
     (∀ key stored, key ∈ ["holidays1"; "holidays2"] →
        dict_lookup key kvs = Some stored → iter stored = Raise TypeError →
        load_holidays fs = Ok (∅, ∅, JInt 0, JNull))).
Proof.
  intros Hfile. unfold load_holidays. rewrite Hfile. simpl. split.
  - intros Hshape. unfold load_dates. destruct v; try done. by destruct (Hshape entries).
  - intros kvs ->. split.
    + intros H1 H2. unfold load_dates. simpl. rewrite H1, H2. simpl. done.
    + intros key stored Hkey Hstored Hiter.
      assert (load_dates (JDict kvs) key = Raise TypeError) as Hraise.
      { unfold load_dates. simpl. rewrite Hstored. simpl. by rewrite Hiter. }
      apply elem_of_cons in Hkey as [->|Hkey]; [by rewrite Hraise|].
      apply list_elem_of_singleton in Hkey as ->. rewrite Hraise.
      by destruct (load_dates (JDict kvs) "holidays1").
Qed.

Lemma load_holidays_partial_document_witness :
  load_holidays storage_list_document = Ok (∅, ∅, JInt 0, JNull) ∧
  load_holidays storage_carryover_only
  = Ok (∅, ∅, default (JInt 0) (dict_lookup "previous_year" [("previous_year", JInt 5)]),
        default JNull (dict_lookup "region" [("previous_year", JInt 5)])).
Proof.
  split.
  - apply (proj1 (load_holidays_partial_document storage_list_document _ eq_refl)).
    intros kvs. discriminate.
  - apply (proj1 (proj2 (load_holidays_partial_document storage_carryover_only _ eq_refl)
                    _ eq_refl)); reflexivity.
Defined.

End storage_documents.

Section planner_display.
Import Py Datetime HolidayPlanner.

Variable CURRENT_YEAR : Z.
Variable tcl_getint : json → result Z.
Variable tcl_string : json → string.

#[local] Arguments Py.int : simpl never.
#[local] Arguments Py.str : simpl never.
#[local] Arguments HolidayLoader.get_holidays_for_year : simpl never.
#[local] Arguments HolidayLoader.get_available_years : simpl never.
#[local] Arguments HolidayLoader.get_available_regions : simpl never.
#[local] Arguments CalendarWidget.create_calendar : simpl never.
#[local] Arguments StorageManager.load_holidays : simpl never.
#[local] Arguments StorageManager.save_holidays : simpl never.
#[local] Arguments sorted : simpl never.

Ltac run := unfold bind, read, lift, update, ret, showwarning, config_button; simpl.

(** X20: a carryover that cannot be read stops the booking.  While the
    carryover field holds something that is not an integer, toggling a day
    of the active year that is not selected raises and changes nothing, and
    so does the OK button next to the field: the labels keep their texts. *)
Theorem unreadable_carryover_blocks_booking (self : t) (date : datetime) (button : nat)
    (y : Z) (e : exn) :
  IntVar_get tcl_getint (previous_year_var self) = Raise e →
  int (year_var self) = Ok y → Datetime.year date = y → date ∉ holidays1 self →
  toggle_holiday tcl_getint date button self = (Raise e, self) ∧
  handle CURRENT_YEAR tcl_getint tcl_string PressOK self = (Raise e, self).
Proof.
  intros Hc Hy Hd Hnot. split.
  - by apply (toggle_no_carry tcl_getint self date button y e).
  - simpl. by apply update_labels_raises.
Qed.

Lemma _create_year_tab_raises y b self e :
  IntVar_get tcl_getint (previous_year_var self) = Raise e →
  _create_year_tab CURRENT_YEAR tcl_getint y b self = (Raise e, self).
Proof.
  intros Hc. unfold _create_year_tab, _calculate_remaining_days. run. by rewrite Hc.
Qed.

Lemma rebuild_tabs_built self self' :
  rebuild_tabs CURRENT_YEAR tcl_getint self = (Ok (), self') →
  ∃ y ph cal,
    int (year_var self) = Ok y ∧
    HolidayLoader.get_holidays_for_year (holiday_loader self) y (region_var self) = Ok ph ∧
    CalendarWidget.create_calendar
      (CalendarWidget.init y (holidays1 self) ph (Some y) CURRENT_YEAR) = Ok cal ∧
    calendar1 self' = Some cal ∧ core self' = core self.
Proof.
  unfold rebuild_tabs. run.
  destruct (int (year_var self)) as [y|]; simpl; [|done].
  set (s1 := set_calendar1 None (set_warning_label None self)).
  destruct (IntVar_get tcl_getint (previous_year_var s1)) as [carry|e] eqn:Hc.
  2:{ by rewrite (_create_year_tab_raises y true s1 e Hc). }
  rewrite (_create_year_tab_run CURRENT_YEAR tcl_getint y true s1 carry Hc).
  set (s2 := set_taken_label1 _ _).
  intros Hframe.
  destruct (create_calendar_for_frame_built CURRENT_YEAR y s2 self' Hframe)
    as (ph & ys & cal & Hph & _ & Hcal & Hdisp & _ & Hcore & _).
  exists y, ph, cal. split; [done|].
  split; [by destruct self|]. split; [by destruct self|]. split; [done|].
  rewrite Hcore. by destruct self.
Qed.

(** X21: the calendar of another year shows what is planned.  When a year
    of the list is chosen and the handler returns, the calendar on display
    is a new one for that year, with the public holidays of the region, in
    which exactly the selected days that can be booked are highlighted, in
    the colour of the active year; the selection itself is as it was. *)
Theorem year_change_shows_selection (self self' : t) (year : string) :
  year ∈ year_values self →
  handle CURRENT_YEAR tcl_getint tcl_string (SelectYear year) self = (Ok (), self') →
  selection self' = selection self ∧ year_var self' = year ∧
  ∃ y ph cal,
    int year = Ok y ∧
    HolidayLoader.get_holidays_for_year (holiday_loader self) y (region_var self) = Ok ph ∧
    calendar1 self' = Some cal ∧
    CalendarWidget.year cal = y ∧ CalendarWidget.public_holidays cal = ph ∧
    (CalendarWidget.buttons cal).*1 = year_dates y ∧
    ∀ d b, (d, b) ∈ CalendarWidget.buttons cal →
      (d ∈ holidays1 self → ¬ blocked ph d → CalendarWidget.bg b = Some "#307CAF") ∧
      (d ∉ holidays1 self ∨ blocked ph d → CalendarWidget.bg b = None).
Proof.
  intros Hlisted. simpl. run. rewrite bool_decide_eq_true_2 by done.
  unfold select_year, on_year_change. run. intros Hrebuild.
  destruct (rebuild_tabs_built _ _ Hrebuild) as (y & ph & cal & Hy & Hph & Hcal & Hdisp & Hcore).
  simpl in Hy, Hph, Hcal.
  split; [rewrite (core_selection _ _ Hcore); by destruct self|].
  split; [unfold core in Hcore; injection Hcore as _ _ -> _ _ _ _ _ _ _ _ _ _ _;
          by destruct self|].
  exists y, ph, cal. split; [done|]. split; [by destruct self|]. split; [done|].
  pose proof (create_calendar_year _ _ Hcal) as Hrange. simpl in Hrange.
  destruct (create_calendar_layout y (holidays1 self) ph (Some y) CURRENT_YEAR Hrange)
    as (cal' & Hcal' & Hok & (_ & Hcol & _) & (Ey & Eh & Ep & Eb) & Hdates).
  assert (cal' = cal) as -> by congruence. simpl in Ey, Eh, Ep, Eb.
  split; [done|]. split; [done|]. split; [done|]. intros d b Hdb.
  rewrite Forall_forall in Hcol. specialize (Hcol _ Hdb).
  unfold calendar_ok in Hok. rewrite Forall_forall in Hok.
  destruct (Hok _ Hdb) as (_ & Hblocked & _).
  unfold day_button_coloured, CalendarWidget.selected_colour in Hcol.
  rewrite Eh, Ey, Eb in Hcol. rewrite Ep in Hblocked. simpl in Hcol, Hblocked.
  rewrite (bool_decide_eq_true_2 (y = y)) in Hcol by done. rewrite Hcol.
  split.
  - intros Hd Hnb. rewrite bool_decide_eq_true_2 by done.
    rewrite bool_decide_eq_true_2; [done|].
    destruct (CalendarWidget.state b); [done|]. destruct Hnb. by apply Hblocked.
  - intros [Hd|Hbl].
    + by rewrite bool_decide_eq_false_2.
    + apply Hblocked in Hbl. rewrite Hbl. by rewrite andb_false_r.
Qed.

End planner_display.

Section planner_display_examples.
Import Py Datetime HolidayPlanner.

Lemma unreadable_carryover_blocks_booking_witness :
  toggle_holiday no_getint bastille_2025 194
    (set_previous_year_var (JStr "three") example_planner)
  = (Raise ValueError, set_previous_year_var (JStr "three") example_planner) ∧
  handle 2025 no_getint no_string PressOK
    (set_previous_year_var (JStr "three") example_planner)
  = (Raise ValueError, set_previous_year_var (JStr "three") example_planner).
Proof.
  assert (int (year_var (set_previous_year_var (JStr "three") example_planner)) = Ok 2025)
    as Hy by by_evaluation.
  assert (bastille_2025 ∉ holidays1 (set_previous_year_var (JStr "three") example_planner))
    as Hnot by by_evaluation.
  exact (unreadable_carryover_blocks_booking 2025 no_getint no_string
           (set_previous_year_var (JStr "three") example_planner) bastille_2025 194 2025
           ValueError eq_refl Hy eq_refl Hnot).
Defined.


Lemma bastille_in_2026_up :
  handle 2025 no_getint no_string (SelectYear "2026") bastille_booked
  = (Ok (), bastille_in_2026).
Proof.
  unfold bastille_in_2026.
  assert ((handle 2025 no_getint no_string (SelectYear "2026") bastille_booked).1 = Ok ())
    as H by by_evaluation.
  destruct (handle _ _ _ _ _) as [r s]. simpl in *. by subst.
Qed.

Lemma year_change_shows_selection_witness :
  selection bastille_in_2026 = selection bastille_booked ∧
  year_var bastille_in_2026 = "2026" ∧
  ∃ y ph cal,
    int "2026" = Ok y ∧
    HolidayLoader.get_holidays_for_year (holiday_loader bastille_booked) y
      (region_var bastille_booked) = Ok ph ∧
    calendar1 bastille_in_2026 = Some cal ∧
    CalendarWidget.year cal = y ∧ CalendarWidget.public_holidays cal = ph ∧
    (CalendarWidget.buttons cal).*1 = year_dates y ∧
    ∀ d b, (d, b) ∈ CalendarWidget.buttons cal →
      (d ∈ holidays1 bastille_booked → ¬ blocked ph d →
         CalendarWidget.bg b = Some "#307CAF") ∧
      (d ∉ holidays1 bastille_booked ∨ blocked ph d → CalendarWidget.bg b = None).
Proof.
  assert ("2026" ∈ year_values bastille_booked) as Hlisted by by_evaluation.
  exact (year_change_shows_selection 2025 no_getint no_string bastille_booked
           bastille_in_2026 "2026" Hlisted bastille_in_2026_up).
Defined.

End planner_display_examples.

Section updater_theory.
Import Py.

Lemma dict_lookup_set key x k es :
  dict_lookup k (HolidayUpdater.dict_set key x es)
  = if bool_decide (k = key) then Some x else dict_lookup k es.
Proof.
  unfold dict_lookup. induction es as [|[k0 v0] es IH]; simpl.
  - case_bool_decide as Hk; simpl.
    + subst. by rewrite bool_decide_eq_true_2.
    + by rewrite bool_decide_eq_false_2 by congruence.
  - destruct (decide (k0 = key)) as [->|Hne].
    + rewrite (bool_decide_eq_true_2 (key = key)) by done. simpl.
      by destruct (decide (k = key)) as [->|?];
        rewrite ?bool_decide_eq_true_2, ?bool_decide_eq_false_2 by congruence.
    + rewrite (bool_decide_eq_false_2 (k0 = key)) by done. simpl.
      destruct (decide (k0 = k)) as [->|?].
      * rewrite bool_decide_eq_true_2 by done. simpl.
        by rewrite bool_decide_eq_false_2 by done.
      * rewrite (bool_decide_eq_false_2 (k0 = k)) by done. apply IH.
Qed.

Lemma dict_lookup_delete key k es :
  dict_lookup k (filter (λ kv, kv.1 ≠ key) es)
  = if bool_decide (k = key) then None else dict_lookup k es.
Proof.
  unfold dict_lookup. induction es as [|[k0 v0] es IH]; simpl.
  - by case_bool_decide.
  - rewrite filter_cons. simpl. destruct (decide (k0 ≠ key)) as [Hne|Heq]; simpl.
    + destruct (decide (k0 = k)) as [->|?].
      * rewrite bool_decide_eq_true_2 by done. simpl.
        by rewrite bool_decide_eq_false_2 by done.
      * rewrite (bool_decide_eq_false_2 (k0 = k)) by done. apply IH.
    + assert (k0 = key) as -> by (by destruct (decide (k0 = key))).
      rewrite IH. case_bool_decide as Hk; [done|].
      by rewrite (bool_decide_eq_false_2 (key = k)) by congruence.
Qed.

Lemma dict_lookup_cons key k0 v0 es :
  dict_lookup key ((k0, v0) :: es)
  = if bool_decide (k0 = key) then Some v0 else dict_lookup key es.
Proof. unfold dict_lookup. simpl. by case_bool_decide. Qed.

Lemma dict_set_keys key x es :
  (HolidayUpdater.dict_set key x es).*1
  = if bool_decide (is_Some (dict_lookup key es)) then es.*1 else es.*1 ++ [key].
Proof.
  induction es as [|[k0 v0] es IH]; [done|].
  cbn [HolidayUpdater.dict_set]. rewrite dict_lookup_cons.
  destruct (decide (k0 = key)) as [Hk|Hk].
  - rewrite !(bool_decide_eq_true_2 (k0 = key)) by done.
    rewrite bool_decide_eq_true_2 by (by eexists). reflexivity.
  - rewrite !(bool_decide_eq_false_2 (k0 = key)) by done.
    rewrite !fmap_cons, IH. by case_bool_decide.
Qed.


Lemma str_inj y1 y2 : str y1 = str y2 → y1 = y2.
Proof.
  intros Heq. pose proof (int_str y1) as H1. rewrite Heq, int_str in H1. by injection H1.
Qed.

(** What the loader reads from a configuration that is an object. *)
Lemma loader_holidays_lookup regions y r :
  HolidayLoader.get_holidays_for_year (HolidayLoader.mk (JDict regions)) y r
  = match dict_lookup r regions with
    | None => Ok ∅
    | Some by_year =>
        known ← contains by_year (str y);
        if negb known then Ok ∅ else
        entries ← getitem by_year (str y);
        items ← iter entries;
        for_each items HolidayLoader.add_holiday ∅
    end.
Proof.
  unfold HolidayLoader.get_holidays_for_year. simpl.
  by destruct (dict_lookup r regions) as [by_year|].
Qed.

Lemma loader_init_parsed v :
  HolidayLoader.init (HolidayLoader.Parsed v) = HolidayLoader.mk v.
Proof. reflexivity. Qed.

Variable lower : string → string.

Lemma add_region_run self regions name :
  HolidayUpdater.data self = JDict regions →
  HolidayUpdater.add_region lower name self
  = if bool_decide (is_Some (dict_lookup (lower name) regions)) then (Ok false, self)
    else
      let d' := JDict (HolidayUpdater.dict_set (lower name) (JDict []) regions) in
      if HolidayUpdater.writable self
      then (Ok true, HolidayUpdater.mk d' (HolidayLoader.Parsed d') true)
      else (Raise OSError, HolidayUpdater.set_data d' self).
Proof.
  intros Hdata. unfold HolidayUpdater.add_region, HolidayUpdater.bind, HolidayUpdater.read,
    HolidayUpdater.lift, HolidayUpdater.update, HolidayUpdater.ret,
    HolidayUpdater._save_config.
  rewrite Hdata. simpl. case_bool_decide; [done|]. simpl.
  by destruct (HolidayUpdater.writable self) eqn:Hw.
Qed.

(** [add_year] for a region that is there. *)
Lemma add_year_run self regions years name year hl :
  HolidayUpdater.data self = JDict regions →
  dict_lookup (lower name) regions = Some (JDict years) →
  HolidayUpdater.add_year lower name year hl self
  = let d' := JDict (HolidayUpdater.dict_set (lower name)
                       (JDict (HolidayUpdater.dict_set (str year) hl years)) regions) in
    if HolidayUpdater.writable self
    then (Ok true, HolidayUpdater.mk d' (HolidayLoader.Parsed d') true)
    else (Raise OSError, HolidayUpdater.set_data d' self).
Proof.
  intros Hdata Hregion. unfold HolidayUpdater.add_year, HolidayUpdater.bind,
    HolidayUpdater.read, HolidayUpdater.lift, HolidayUpdater.update, HolidayUpdater.ret,
    HolidayUpdater._save_config.
  rewrite Hdata. simpl. rewrite Hregion.
  rewrite bool_decide_eq_true_2 by done. simpl. rewrite Hdata. simpl. rewrite Hregion. simpl.
  by destruct (HolidayUpdater.writable self) eqn:Hw.
Qed.

Lemma dict_set_set key x y es :
  HolidayUpdater.dict_set key x (HolidayUpdater.dict_set key y es)
  = HolidayUpdater.dict_set key x es.
Proof.
  induction es as [|[k0 v0] es IH]; simpl.
  - by rewrite bool_decide_eq_true_2.
  - destruct (decide (k0 = key)) as [Hk|Hk].
    + rewrite !(bool_decide_eq_true_2 (k0 = key)) by done. simpl.
      by rewrite !(bool_decide_eq_true_2 (k0 = key)) by done.
    + rewrite !(bool_decide_eq_false_2 (k0 = key)) by done. simpl.
      rewrite !(bool_decide_eq_false_2 (k0 = key)) by done. by rewrite IH.
Qed.

(** [add_year] for a region that is not there yet: the region is added
    first. *)
Lemma add_year_new_region_run self regions name year hl :
  HolidayUpdater.data self = JDict regions →
  dict_lookup (lower name) regions = None →
  lower (lower name) = lower name →
  HolidayUpdater.writable self = true →
  HolidayUpdater.add_year lower name year hl self
  = let d' := JDict (HolidayUpdater.dict_set (lower name) (JDict [(str year, hl)]) regions) in
    (Ok true, HolidayUpdater.mk d' (HolidayLoader.Parsed d') true).
Proof.
  intros Hdata Hregion Hlower Hw. unfold HolidayUpdater.add_year.
  unfold HolidayUpdater.bind at 1. unfold HolidayUpdater.read at 1.
  unfold HolidayUpdater.bind at 1. unfold HolidayUpdater.lift at 1.
  rewrite Hdata. simpl. rewrite Hregion.
  rewrite bool_decide_eq_false_2 by by intros [? ?]. simpl.
  unfold HolidayUpdater.bind at 1. unfold HolidayUpdater.bind at 1.
  rewrite (add_region_run self regions (lower name) Hdata), Hlower, Hregion.
  rewrite bool_decide_eq_false_2 by by intros [? ?]. cbv zeta. rewrite Hw.
  unfold HolidayUpdater.ret at 1.
  unfold HolidayUpdater.bind, HolidayUpdater.read, HolidayUpdater.lift,
    HolidayUpdater.update, HolidayUpdater.ret, HolidayUpdater._save_config. simpl.
  rewrite dict_lookup_set, bool_decide_eq_true_2 by done. simpl.
  by rewrite dict_set_set.
Qed.


Lemma add_year_written self regions name year hl :
  HolidayUpdater.data self = JDict regions →
  HolidayUpdater.writable self = true →
  lower (lower name) = lower name →
  (∀ v, dict_lookup (lower name) regions = Some v → ∃ years, v = JDict years) →
  HolidayUpdater.add_year lower name year hl self
  = let d' := JDict (HolidayUpdater.dict_set (lower name)
                       (JDict (HolidayUpdater.dict_set (str year) hl
                                 (years_of (lower name) regions))) regions) in
    (Ok true, HolidayUpdater.mk d' (HolidayLoader.Parsed d') true).
Proof.
  intros Hdata Hw Hlower Hshape. unfold years_of.
  destruct (dict_lookup (lower name) regions) as [v|] eqn:Hregion.
  - destruct (Hshape v eq_refl) as [years ->].
    by rewrite (add_year_run self regions years name year hl Hdata Hregion), Hw.
  - by rewrite (add_year_new_region_run self regions name year hl Hdata Hregion Hlower Hw).
Qed.



Ltac run_updater :=
  unfold HolidayUpdater.bind, HolidayUpdater.read, HolidayUpdater.lift,
    HolidayUpdater.update, HolidayUpdater.ret, HolidayUpdater._save_config.

Lemma loader_regions regions :
  HolidayLoader.get_available_regions (HolidayLoader.mk (JDict regions)) = Ok regions.*1.
Proof. reflexivity. Qed.

(** X23: a region is added once.  For a configuration that is an object,
    [add_region] returns [False] and changes nothing when the lower case name
    is there already.  Otherwise, with a file that can be written, it returns
    [True] and the loader started on the file lists the region last, with no
    year and no holiday.  With a file that cannot be written it raises
    [OSError]: the file stays as it is while the updater itself has the
    region. *)
Theorem add_region_once (self : HolidayUpdater.t) (regions : list (string * json))
    (name : string) :
  HolidayUpdater.data self = JDict regions →
  (is_Some (dict_lookup (lower name) regions) →
     HolidayUpdater.add_region lower name self = (Ok false, self)) ∧
  (dict_lookup (lower name) regions = None →
     (HolidayUpdater.writable self = true →
        ∃ self',
          HolidayUpdater.add_region lower name self = (Ok true, self') ∧
          HolidayUpdater.config_file self' = HolidayLoader.Parsed (HolidayUpdater.data self') ∧
          HolidayLoader.get_available_regions
            (HolidayLoader.init (HolidayUpdater.config_file self'))
          = Ok (regions.*1 ++ [lower name]) ∧
          HolidayLoader.get_available_years
            (HolidayLoader.init (HolidayUpdater.config_file self')) (lower name) = Ok [] ∧
          ∀ y, HolidayLoader.get_holidays_for_year
                 (HolidayLoader.init (HolidayUpdater.config_file self')) y (lower name)
               = Ok ∅) ∧
     (HolidayUpdater.writable self = false →
        ∃ self',
          HolidayUpdater.add_region lower name self = (Raise OSError, self') ∧
          HolidayUpdater.config_file self' = HolidayUpdater.config_file self ∧
          contains (HolidayUpdater.data self') (lower name) = Ok true)).
Proof.
  intros Hdata. rewrite (add_region_run self regions name Hdata). split.
  - intros Hknown. by rewrite bool_decide_eq_true_2.
  - intros Hnew. rewrite bool_decide_eq_false_2 by (rewrite Hnew; by intros [? ?]).
    cbv zeta. split; intros ->.
    + eexists. split; [reflexivity|]. split; [reflexivity|].
      cbn [HolidayUpdater.config_file HolidayUpdater.data]. rewrite loader_init_parsed.
      split; [|split].
      * rewrite loader_regions, dict_set_keys, Hnew.
        by rewrite bool_decide_eq_false_2 by by intros [? ?].
      * unfold HolidayLoader.get_available_years. cbn [HolidayLoader.holidays_data contains getitem].
        rewrite dict_lookup_set, (bool_decide_eq_true_2 (lower name = lower name)) by done.
        by rewrite bool_decide_eq_true_2 by done.
      * intros y. rewrite loader_holidays_lookup, dict_lookup_set.
        by rewrite (bool_decide_eq_true_2 (lower name = lower name)) by done.
    + eexists. split; [reflexivity|]. split; [reflexivity|].
      cbn [HolidayUpdater.set_data HolidayUpdater.data contains].
      rewrite dict_lookup_set, (bool_decide_eq_true_2 (lower name = lower name)) by done.
      by rewrite bool_decide_eq_true_2 by done.
Qed.

Lemma remove_year_run self regions years name year :
  HolidayUpdater.data self = JDict regions →
  dict_lookup (lower name) regions = Some (JDict years) →
  HolidayUpdater.remove_year lower name year self
  = if bool_decide (is_Some (dict_lookup (str year) years)) then
      let d' := JDict (HolidayUpdater.dict_set (lower name)
                         (JDict (filter (λ kv, kv.1 ≠ str year) years)) regions) in
      if HolidayUpdater.writable self
      then (Ok true, HolidayUpdater.mk d' (HolidayLoader.Parsed d') true)
      else (Raise OSError, HolidayUpdater.set_data d' self)
    else (Ok false, self).
Proof.
  intros Hdata Hregion. unfold HolidayUpdater.remove_year. run_updater.
  rewrite Hdata. simpl. rewrite Hregion.
  rewrite (bool_decide_eq_true_2 (is_Some (Some (JDict years)))) by done. simpl.
  case_bool_decide; simpl; [|done].
  by destruct (HolidayUpdater.writable self) eqn:Hw.
Qed.

(** X24: a year that is removed is gone for the loader.  For a
    configuration that is an object and a file that can be written,
    [remove_year] returns [False] and changes nothing when the region or the
    year is not there; otherwise it returns [True], and the loader started
    on the file has no holiday for that year and region, and for every other
    year or region what the configuration gave before. *)
Theorem remove_year_forgotten (self : HolidayUpdater.t) (regions : list (string * json))
    (name : string) (year : Z) :
  HolidayUpdater.data self = JDict regions →
  HolidayUpdater.writable self = true →
  (dict_lookup (lower name) regions = None →
     HolidayUpdater.remove_year lower name year self = (Ok false, self)) ∧
  (∀ years, dict_lookup (lower name) regions = Some (JDict years) →
     (dict_lookup (str year) years = None →
        HolidayUpdater.remove_year lower name year self = (Ok false, self)) ∧
     (is_Some (dict_lookup (str year) years) →
        ∃ self',
          HolidayUpdater.remove_year lower name year self = (Ok true, self') ∧
          HolidayUpdater.config_file self' = HolidayLoader.Parsed (HolidayUpdater.data self') ∧
          HolidayLoader.get_holidays_for_year
            (HolidayLoader.init (HolidayUpdater.config_file self')) year (lower name)
          = Ok ∅ ∧
          ∀ y' r', r' ≠ lower name ∨ y' ≠ year →
            HolidayLoader.get_holidays_for_year
              (HolidayLoader.init (HolidayUpdater.config_file self')) y' r'
            = HolidayLoader.get_holidays_for_year
                (HolidayLoader.mk (HolidayUpdater.data self)) y' r')).
Proof.
  intros Hdata Hw. split.
  - intros Hregion. unfold HolidayUpdater.remove_year. run_updater.
    rewrite Hdata. simpl. rewrite Hregion. by rewrite bool_decide_eq_false_2 by by intros [? ?].
  - intros years Hregion.
    rewrite (remove_year_run self regions years name year Hdata Hregion). split.
    + intros Hyear. rewrite Hyear. by rewrite bool_decide_eq_false_2 by by intros [? ?].
    + intros Hyear. rewrite bool_decide_eq_true_2 by done. cbv zeta. rewrite Hw.
      eexists. split; [reflexivity|]. split; [reflexivity|].
      cbn [HolidayUpdater.config_file HolidayUpdater.data]. rewrite loader_init_parsed.
      split.
      * rewrite loader_holidays_lookup, dict_lookup_set.
        rewrite (bool_decide_eq_true_2 (lower name = lower name)) by done.
        cbn [contains]. rewrite dict_lookup_delete.
        rewrite (bool_decide_eq_true_2 (str year = str year)) by done.
        by rewrite bool_decide_eq_false_2 by by intros [? ?].
      * intros y' r' Hother. rewrite Hdata, !loader_holidays_lookup, dict_lookup_set.
        case_bool_decide as Hr; [|done]. subst r'. rewrite Hregion.
        destruct Hother as [?|Hy]; [done|].
        assert (str y' ≠ str year) as Hstr by (intros ?%str_inj; done).
        cbn [contains getitem]. by rewrite dict_lookup_delete, bool_decide_eq_false_2 by done.
Qed.





Lemma forallb_seqZ (P : Z → bool) lo n y :
  forallb P (seqZ lo n) = true → lo ≤ y < lo + n → P y = true.
Proof.
  intros Hall Hy. rewrite forallb_forall in Hall. apply Hall.
  apply list_elem_of_In, elem_of_seqZ. lia.
Qed.

(** A year of four digits is written with its four digits. *)
Lemma str_four_digits y rest :
  1000 ≤ y ≤ 9999 → str y +:+ rest = Datetime.four_digits y rest.
Proof.
  intros Hy.
  assert (forallb (λ z, bool_decide (str z = Datetime.four_digits z "")) (seqZ 1000 9000)
          = true) as Hall by (vm_compute; reflexivity).
  pose proof (forallb_seqZ _ 1000 9000 y Hall ltac:(lia)) as Hstr. cbv beta in Hstr.
  apply bool_decide_eq_true in Hstr. rewrite Hstr. reflexivity.
Qed.

Lemma template_date_parses y m d suffix :
  1000 ≤ y ≤ 9999 →
  Datetime.valid_date y m d = true →
  Datetime.four_digits y suffix = Datetime.strftime_ymd (Datetime.mk y m d 0 0 0 0) →
  Datetime.strptime_ymd (str y +:+ suffix) = Ok (Datetime.mk y m d 0 0 0 0).
Proof.
  intros Hy Hv Hfmt. rewrite str_four_digits, Hfmt by done.
  by apply (strptime_strftime (Datetime.mk y m d 0 0 0 0)).
Qed.

Lemma template_valid y m d :
  1 ≤ y ≤ 9999 → 1 ≤ m ≤ 12 → 1 ≤ d ≤ 28 → Datetime.valid_date y m d = true.
Proof.
  intros Hy Hm Hd. unfold Datetime.valid_date, Datetime.MINYEAR, Datetime.MAXYEAR.
  rewrite !bool_decide_eq_true_2; [done| |done|done].
  unfold Datetime.days_in_month. destruct (_ && _); [lia|].
  assert (28 ≤ Datetime.DAYS_IN_MONTH m); [|lia].
  revert Hm. generalize m. apply (Z_range_cases _ 1 12). unroll_seqZ.
  repeat (apply List.Forall_cons; [simpl; lia|]). apply List.Forall_nil.
Qed.

Lemma template_entries_typed y :
  ∃ entries, HolidayUpdater.get_german_template y = JList entries ∧
    Forall entry_typed entries ∧
    omap entry_date entries
    = omap (λ suffix, match Datetime.strptime_ymd (str y +:+ suffix) with
                      | Ok d => Some d
                      | Raise _ => None
                      end) ["-01-01"; "-05-01"; "-10-03"; "-12-25"; "-12-26"].
Proof.
  eexists. split; [reflexivity|]. split; [|reflexivity].
  repeat (apply Forall_cons; split;
          [eexists; split; [reflexivity|]; intros v [= <-]; by eexists|]).
  apply Forall_nil_2.
Qed.

Lemma template_small_year y suffix :
  0 ≤ y < 1000 → suffix ∈ ["-01-01"; "-05-01"; "-10-03"; "-12-25"; "-12-26"] →
  Datetime.strptime_ymd (str y +:+ suffix) = Raise ValueError.
Proof.
  intros Hy Hs.
  assert (forallb
            (λ z, forallb (λ s, bool_decide (Datetime.strptime_ymd (str z +:+ s)
                                              = Raise ValueError))
                    ["-01-01"; "-05-01"; "-10-03"; "-12-25"; "-12-26"]) (seqZ 0 1000)
          = true) as Hall by (vm_compute; reflexivity).
  pose proof (forallb_seqZ _ 0 1000 y Hall ltac:(lia)) as Hy'. cbv beta in Hy'.
  rewrite forallb_forall in Hy'. apply list_elem_of_In, Hy' in Hs.
  by apply bool_decide_eq_true in Hs.
Qed.

(** What the loader makes of the template of a year. *)
Lemma template_holidays y :
  (items ← iter (HolidayUpdater.get_german_template y);
   for_each items HolidayLoader.add_holiday (∅ : gset Datetime.datetime))
  = Ok (if bool_decide (1000 ≤ y ≤ 9999) then german_template_days y
        else if bool_decide (0 ≤ y < 1000) then ∅
        else list_to_set
               (omap (λ suffix, match Datetime.strptime_ymd (str y +:+ suffix) with
                                | Ok d => Some d
                                | Raise _ => None
                                end) ["-01-01"; "-05-01"; "-10-03"; "-12-25"; "-12-26"])).
Proof.
  destruct (template_entries_typed y) as (entries & -> & Htyped & Hdates).
  cbn [iter]. change (Ok entries ≫= ?f) with (f entries). cbv beta.
  rewrite (for_each_add_holiday entries ∅ Htyped), Hdates. f_equal.
  rewrite (right_id_L ∅ (∪)).
  case_bool_decide as Hbig; [|case_bool_decide as Hsmall; [|done]].
  - cbn [omap list_omap].
    rewrite (template_date_parses y 1 1 "-01-01"), (template_date_parses y 5 1 "-05-01"),
      (template_date_parses y 10 3 "-10-03"), (template_date_parses y 12 25 "-12-25"),
      (template_date_parses y 12 26 "-12-26");
      try done; try reflexivity; try (apply template_valid; lia).
    unfold german_template_days. cbn [list_to_set]. set_solver.
  - cbn [omap list_omap].
    rewrite !(template_small_year y) by (try done; set_solver). done.
Qed.

(** X26: the template of common German holidays.  [add_year] with the list
    of [get_german_template] for a year from 1000 to 9999 makes the loader
    give, for that year and region, the five days of the template: 1 January,
    1 May, 3 October, 25 and 26 December.  For a year below 1000 the dates of
    the template are written without leading zeros, none of them parses, and
    the loader gives no holiday. *)
Theorem german_template_seen_by_loader (self : HolidayUpdater.t)
    (regions : list (string * json)) (name : string) (y : Z) :
  HolidayUpdater.data self = JDict regions →
  HolidayUpdater.writable self = true →
  lower (lower name) = lower name →
  (∀ v, dict_lookup (lower name) regions = Some v → ∃ years, v = JDict years) →
  ∃ self',
    HolidayUpdater.add_year lower name y (HolidayUpdater.get_german_template y) self
    = (Ok true, self') ∧
    (1000 ≤ y ≤ 9999 →
       HolidayLoader.get_holidays_for_year
         (HolidayLoader.init (HolidayUpdater.config_file self')) y (lower name)
       = Ok (german_template_days y)) ∧
    (0 ≤ y < 1000 →
       HolidayLoader.get_holidays_for_year
         (HolidayLoader.init (HolidayUpdater.config_file self')) y (lower name)
       = Ok ∅).
Proof.
  intros Hdata Hw Hlower Hshape.
  rewrite (add_year_written self regions name y _ Hdata Hw Hlower Hshape).
  cbv zeta. eexists. split; [reflexivity|].
  cbn [HolidayUpdater.config_file]. rewrite loader_init_parsed.
  assert (HolidayLoader.get_holidays_for_year
            (HolidayLoader.mk
               (JDict (HolidayUpdater.dict_set (lower name)
                         (JDict (HolidayUpdater.dict_set (str y)
                                   (HolidayUpdater.get_german_template y)
                                   (years_of (lower name) regions))) regions)))
            y (lower name)
          = (items ← iter (HolidayUpdater.get_german_template y);
             for_each items HolidayLoader.add_holiday ∅)) as ->.
  { rewrite loader_holidays_lookup, dict_lookup_set.
    rewrite (bool_decide_eq_true_2 (lower name = lower name)) by done.
    cbn [contains getitem].
    rewrite dict_lookup_set, (bool_decide_eq_true_2 (str y = str y)) by done.
    by rewrite bool_decide_eq_true_2 by done. }
  rewrite template_holidays. split.
  - intros Hy. by rewrite bool_decide_eq_true_2.
  - intros Hy. rewrite bool_decide_eq_false_2 by lia. by rewrite bool_decide_eq_true_2.
Qed.

End updater_theory.

Section updater_examples.
Import Py.

Lemma example_shape name v :
  dict_lookup name example_regions = Some v → ∃ years, v = JDict years.
Proof.
  unfold dict_lookup, example_regions, example_config. simpl.
  repeat (case_bool_decide; simpl; [intros [= <-]; by eexists|]). done.
Qed.


Lemma add_region_once_witness :
  HolidayUpdater.add_region lower_ascii "BERLIN" example_updater = (Ok false, example_updater) ∧
  ∃ self',
    HolidayUpdater.add_region lower_ascii "Saarland" example_updater = (Ok true, self') ∧
    HolidayUpdater.config_file self' = HolidayLoader.Parsed (HolidayUpdater.data self') ∧
    HolidayLoader.get_available_regions
      (HolidayLoader.init (HolidayUpdater.config_file self'))
    = Ok (example_regions.*1 ++ [lower_ascii "Saarland"]) ∧
    HolidayLoader.get_available_years
      (HolidayLoader.init (HolidayUpdater.config_file self')) (lower_ascii "Saarland")
    = Ok [] ∧
    ∀ y, HolidayLoader.get_holidays_for_year
           (HolidayLoader.init (HolidayUpdater.config_file self')) y (lower_ascii "Saarland")
         = Ok ∅.
Proof.
  split.
  - apply (proj1 (add_region_once lower_ascii example_updater example_regions "BERLIN"
                    eq_refl)).
    by eexists.
  - exact (proj1 (proj2 (add_region_once lower_ascii example_updater example_regions
                           "Saarland" eq_refl) eq_refl) eq_refl).
Defined.

Lemma remove_year_forgotten_witness :
  ∃ self',
    HolidayUpdater.remove_year lower_ascii "Berlin" 2026 example_updater = (Ok true, self') ∧
    HolidayUpdater.config_file self' = HolidayLoader.Parsed (HolidayUpdater.data self') ∧
    HolidayLoader.get_holidays_for_year
      (HolidayLoader.init (HolidayUpdater.config_file self')) 2026 (lower_ascii "Berlin")
    = Ok ∅ ∧
    ∀ y' r', r' ≠ lower_ascii "Berlin" ∨ y' ≠ 2026 →
      HolidayLoader.get_holidays_for_year
        (HolidayLoader.init (HolidayUpdater.config_file self')) y' r'
      = HolidayLoader.get_holidays_for_year
          (HolidayLoader.mk (HolidayUpdater.data example_updater)) y' r'.
Proof.
  apply (proj2 (proj2 (remove_year_forgotten lower_ascii example_updater example_regions
                         "Berlin" 2026 eq_refl eq_refl) _ eq_refl)).
  by eexists.
Defined.


Lemma german_template_seen_by_loader_witness :
  ∃ self',
    HolidayUpdater.add_year lower_ascii "Hamburg" 2027
      (HolidayUpdater.get_german_template 2027) example_updater = (Ok true, self') ∧
    HolidayLoader.get_holidays_for_year
      (HolidayLoader.init (HolidayUpdater.config_file self')) 2027 (lower_ascii "Hamburg")
    = Ok (german_template_days 2027).
Proof.
  destruct (german_template_seen_by_loader lower_ascii example_updater example_regions
              "Hamburg" 2027 eq_refl eq_refl eq_refl (example_shape _))
    as (self' & Hadd & Hbig & _).
  exists self'. split; [exact Hadd|]. apply Hbig. lia.
Defined.

End updater_examples.

Section updater_listing.
Import Py.

Variable lower : string → string.

Ltac run_updater :=
  unfold HolidayUpdater.bind, HolidayUpdater.read, HolidayUpdater.lift,
    HolidayUpdater.update, HolidayUpdater.ret, HolidayUpdater._save_config.

Lemma dict_delete_keys key (es : list (string * json)) :
  (filter (λ kv, kv.1 ≠ key) es).*1 = filter (λ k, k ≠ key) es.*1.
Proof.
  induction es as [|[k0 v0] es IH]; [done|].
  rewrite fmap_cons, !filter_cons. simpl.
  destruct (decide (k0 ≠ key)); [by rewrite fmap_cons, IH|done].
Qed.

(** X27: a region that is removed is gone for the loader.  For a
    configuration that is an object and a file that can be written,
    [remove_region] returns [False] and changes nothing when the lower case
    name is not there; otherwise it returns [True], and the loader started on
    the file no longer lists the region, has no holiday for it in any year,
    and reads every other region as before. *)
Theorem remove_region_forgotten (self : HolidayUpdater.t) (regions : list (string * json))
    (name : string) :
  HolidayUpdater.data self = JDict regions →
  HolidayUpdater.writable self = true →
  (dict_lookup (lower name) regions = None →
     HolidayUpdater.remove_region lower name self = (Ok false, self)) ∧
  (is_Some (dict_lookup (lower name) regions) →
     ∃ self',
       HolidayUpdater.remove_region lower name self = (Ok true, self') ∧
       HolidayUpdater.config_file self' = HolidayLoader.Parsed (HolidayUpdater.data self') ∧
       HolidayLoader.get_available_regions
         (HolidayLoader.init (HolidayUpdater.config_file self'))
       = Ok (filter (λ k, k ≠ lower name) regions.*1) ∧
       (∀ y, HolidayLoader.get_holidays_for_year
               (HolidayLoader.init (HolidayUpdater.config_file self')) y (lower name)
             = Ok ∅) ∧
       ∀ y r', r' ≠ lower name →
         HolidayLoader.get_holidays_for_year
           (HolidayLoader.init (HolidayUpdater.config_file self')) y r'
         = HolidayLoader.get_holidays_for_year
             (HolidayLoader.mk (HolidayUpdater.data self)) y r').
Proof.
  intros Hdata Hw. unfold HolidayUpdater.remove_region. run_updater.
  rewrite Hdata. simpl. split.
  - intros ->. by rewrite bool_decide_eq_false_2 by by intros [? ?].
  - intros Hknown. rewrite bool_decide_eq_true_2 by done. simpl. rewrite Hw.
    eexists. split; [reflexivity|]. split; [reflexivity|].
    cbn [HolidayUpdater.config_file HolidayUpdater.data]. rewrite loader_init_parsed.
    split; [|split].
    + by rewrite loader_regions, dict_delete_keys.
    + intros y. rewrite loader_holidays_lookup, dict_lookup_delete.
      by rewrite bool_decide_eq_true_2.
    + intros y r' Hr. rewrite !loader_holidays_lookup, dict_lookup_delete.
      by rewrite bool_decide_eq_false_2.
Qed.

Lemma print_years_ok (regions : list (string * json)) (ks : list string) :
  (∀ k, k ∈ ks → ∃ years, dict_lookup k regions = Some (JDict years)) →
  ∃ printed, mapM (λ region, by_year ← getitem (JDict regions) region; keys by_year) ks
             = Ok printed.
Proof.
  induction ks as [|k ks IH]; intros Hks; [by eexists|].
  destruct (Hks k) as [years Hk]; [by left|].
  destruct IH as [printed Hprinted]; [intros k' Hk'; apply Hks; by right|].
  exists ((years.*1) :: printed). cbn [mapM]. rewrite Hprinted.
  cbn [getitem]. rewrite Hk. reflexivity.
Qed.

(** X28: the listings of the updater and of the loader agree.  For a
    configuration that is an object whose regions are objects, [list_regions]
    returns the regions in the order of the file, which is what the loader's
    [get_available_regions] returns for the same configuration, and
    [list_years] returns the year keys of a region as they are written, and
    the empty list for a region that is not there; neither changes
    anything. *)
Theorem list_regions_agrees_with_loader (self : HolidayUpdater.t)
    (regions : list (string * json)) :
  HolidayUpdater.data self = JDict regions →
  (∀ k, k ∈ regions.*1 → ∃ years, dict_lookup k regions = Some (JDict years)) →
  HolidayUpdater.list_regions self = (Ok regions.*1, self) ∧
  HolidayLoader.get_available_regions (HolidayLoader.mk (HolidayUpdater.data self))
  = Ok regions.*1 ∧
  (∀ name years, dict_lookup (lower name) regions = Some (JDict years) →
     HolidayUpdater.list_years lower name self = (Ok years.*1, self)) ∧
  (∀ name, dict_lookup (lower name) regions = None →
     HolidayUpdater.list_years lower name self = (Ok [], self)).
Proof.
  intros Hdata Hshape. split; [|split; [by rewrite Hdata|split]].
  - unfold HolidayUpdater.list_regions. run_updater. rewrite Hdata.
    destruct regions as [|kv regions']; [done|].
    cbn [truthy]. rewrite bool_decide_eq_false_2 by done. cbn [negb keys].
    destruct (print_years_ok (kv :: regions') (kv :: regions').*1 Hshape) as [printed ->].
    reflexivity.
  - intros name years Hregion. unfold HolidayUpdater.list_years. run_updater.
    rewrite Hdata. simpl. rewrite Hregion. by rewrite bool_decide_eq_true_2 by done.
  - intros name Hregion. unfold HolidayUpdater.list_years. run_updater.
    rewrite Hdata. simpl. rewrite Hregion. by rewrite bool_decide_eq_false_2 by by intros [? ?].
Qed.

End updater_listing.

Section updater_listing_examples.
Import Py.

Lemma remove_region_forgotten_witness :
  ∃ self',
    HolidayUpdater.remove_region lower_ascii "Bavaria" example_updater = (Ok true, self') ∧
    HolidayUpdater.config_file self' = HolidayLoader.Parsed (HolidayUpdater.data self') ∧
    HolidayLoader.get_available_regions
      (HolidayLoader.init (HolidayUpdater.config_file self'))
    = Ok (filter (λ k, k ≠ lower_ascii "Bavaria") example_regions.*1) ∧
    (∀ y, HolidayLoader.get_holidays_for_year
            (HolidayLoader.init (HolidayUpdater.config_file self')) y (lower_ascii "Bavaria")
          = Ok ∅) ∧
    ∀ y r', r' ≠ lower_ascii "Bavaria" →
      HolidayLoader.get_holidays_for_year
        (HolidayLoader.init (HolidayUpdater.config_file self')) y r'
      = HolidayLoader.get_holidays_for_year
          (HolidayLoader.mk (HolidayUpdater.data example_updater)) y r'.
Proof.
  apply (proj2 (remove_region_forgotten lower_ascii example_updater example_regions
                  "Bavaria" eq_refl eq_refl)).
  by eexists.
Defined.

Lemma list_regions_agrees_with_loader_witness :
  HolidayUpdater.list_regions example_updater = (Ok example_regions.*1, example_updater) ∧
  HolidayLoader.get_available_regions (HolidayLoader.mk (HolidayUpdater.data example_updater))
  = Ok example_regions.*1.
Proof.
  destruct (list_regions_agrees_with_loader lower_ascii example_updater example_regions
              eq_refl) as (Hlist & Hloader & _); [|by split].
  intros k Hk. repeat (apply elem_of_cons in Hk as [->|Hk]; [by eexists|]).
  by apply elem_of_nil in Hk.
Defined.

End updater_listing_examples.
